(** * vuedefer: LazyRender and useIntersectionObserver

    A shallow embedding of [src/composables/useIntersectionObserver.ts] and
    of the [LazyRender] component ([lazy-render.ts]).  The closures of the
    two source files are written as functions on an explicit state; the
    parts of the environment they call into (the DOM's IntersectionObserver,
    the framework's renderer and scheduler) are written next to them and
    marked as such. *)

From Stdlib Require Import QArith.
From stdpp Require Import base option list gmap strings.

Local Open Scope nat_scope.
Local Open Scope string_scope.
Local Open Scope list_scope.

(** ** JavaScript completions *)

Inductive Error := TypeError | RangeError | SyntaxError.

Inductive Completion (A : Type) :=
| Normal (a : A)
| Throw (e : Error).
Arguments Normal {A} a.
Arguments Throw {A} e.

Definition cbind {A B} (m : Completion A) (k : A -> Completion B) : Completion B :=
  match m with
  | Normal a => k a
  | Throw e => Throw e
  end.

Notation "'let!' x ':=' m 'in' k" := (cbind m (fun x => k))
  (at level 10, x name, m at level 100, k at level 200).

Definition completes {A} (m : Completion A) : Prop :=
  match m with Normal _ => True | Throw _ => False end.

(** ** The DOM's IntersectionObserver (environment) *)

(** DOM nodes are opaque handles. *)
Definition Element := nat.

(** [threshold?: number | number[]]; the numbers are taken to be finite. *)
Inductive Threshold :=
| ThresholdUnset
| ThresholdNumber (q : Q)
| ThresholdList (qs : list Q).

(** [IntersectionObserverInit], the options bag. *)
Record IntersectionObserverInit := {
  root : option Element;
  rootMargin : option string;
  threshold : Threshold }.

Record IntersectionObserverEntry := {
  target : Element;
  isIntersecting : bool }.

Inductive ObserverCall :=
| Observe (el : Element)
| Unobserve (el : Element)
| Disconnect.

Global Instance ObserverCall_eq_dec : EqDecision ObserverCall.
Proof. solve_decision. Defined.

(** An observer is its list of observation targets, together with the
    requests it has received so far (what the test suite's mock records). *)
Record IntersectionObserver := {
  targets : list Element;
  calls : list ObserverCall }.

Definition observe (el : Element) (o : IntersectionObserver) : IntersectionObserver :=
  {| targets := if decide (el ∈ targets o) then targets o else targets o ++ [el];
     calls := calls o ++ [Observe el] |}.

Definition unobserve (el : Element) (o : IntersectionObserver) : IntersectionObserver :=
  {| targets := filter (λ x, x ≠ el) (targets o);
     calls := calls o ++ [Unobserve el] |}.

Definition disconnect (o : IntersectionObserver) : IntersectionObserver :=
  {| targets := [];
     calls := calls o ++ [Disconnect] |}.

Definition thresholds_of (t : Threshold) : list Q :=
  match t with
  | ThresholdUnset => []
  | ThresholdNumber q => [q]
  | ThresholdList qs => qs
  end.

Definition in_unit_interval (q : Q) : bool := Qle_bool 0 q && Qle_bool q 1.

Section Constructor.

(** The browser's parser of root-margin strings: [true] when the string
    is a well-formed margin. *)
Variable parse_margin : string -> bool.

(** [new IntersectionObserver(callback, options)]: the margin is parsed
    first (SyntaxError), then the thresholds are checked (RangeError). *)
Definition new_IntersectionObserver (options : IntersectionObserverInit)
  : Completion IntersectionObserver :=
  match rootMargin options with
  | Some m => if parse_margin m then
                if forallb in_unit_interval (thresholds_of (threshold options))
                then Normal {| targets := []; calls := [] |}
                else Throw RangeError
              else Throw SyntaxError
  | None => if forallb in_unit_interval (thresholds_of (threshold options))
            then Normal {| targets := []; calls := [] |}
            else Throw RangeError
  end.

End Constructor.

(** The two constructor failures are what the specification calls an
    invalid configuration. *)
Definition InvalidConfiguration (e : Error) : Prop :=
  e = RangeError \/ e = SyntaxError.

(** ** useIntersectionObserver.ts *)

(** What the composable owns: the [isVisible] ref, the observer, and the
    element captured by the clean-up the watcher last registered with
    [onCleanup] ([None] when no clean-up is registered). *)
Record Tracker := {
  isVisible : bool;
  observer : IntersectionObserver;
  cleanup : option Element }.

(** The observer callback, [([entry]) => { isVisible.value = entry.isIntersecting }]. *)
Definition observer_callback (entries : list IntersectionObserverEntry) (t : Tracker)
  : Completion Tracker :=
  match entries with
  | [] => Throw TypeError
  | entry :: _ => Normal {| isVisible := isIntersecting entry;
                            observer := observer t;
                            cleanup := cleanup t |}
  end.

(** The callback given to [watch(target, ...)]. *)
Definition target_watch_cb (el : option Element) (t : Tracker) : Tracker :=
  match el with
  | None => t
  | Some e => {| isVisible := isVisible t;
                 observer := observe e (observer t);
                 cleanup := Some e |}
  end.

(** The framework runs the registered clean-up, once, before the next run
    of the callback and when the watcher is stopped. *)
Definition run_cleanup (t : Tracker) : Tracker :=
  match cleanup t with
  | None => t
  | Some e => {| isVisible := isVisible t;
                 observer := unobserve e (observer t);
                 cleanup := None |}
  end.

(** One run of the watcher on the new value of [target]. *)
Definition target_watch_job (el : option Element) (t : Tracker) : Tracker :=
  target_watch_cb el (run_cleanup t).

Definition stop (t : Tracker) : Tracker :=
  {| isVisible := isVisible t;
     observer := disconnect (observer t);
     cleanup := cleanup t |}.

(** Unmounting the owner stops the watcher (its clean-up runs) and then
    calls the [onUnmounted] hook, which is [stop]. *)
Definition unmount_tracker (t : Tracker) : Tracker := stop (run_cleanup t).

Section UseIntersectionObserver.

Variable parse_margin : string -> bool.

Definition useIntersectionObserver (tgt : option Element)
    (options : IntersectionObserverInit) : Completion Tracker :=
  let! o := new_IntersectionObserver parse_margin options in
  Normal (target_watch_job tgt {| isVisible := false; observer := o; cleanup := None |}).

End UseIntersectionObserver.

(** ** Virtual nodes and component instances (framework) *)

Definition CompName := nat.
Definition Data := nat.

(** What a component's own render function produces: the tree of
    component [rendered_by] evaluated on the data [rendered_from]. *)
Record Tree := {
  rendered_by : CompName;
  rendered_from : Data }.

Global Instance Tree_eq_dec : EqDecision Tree.
Proof. solve_decision. Defined.

Inductive VType :=
| TComponent (name : CompName)
| TElement (tagname : string).

Global Instance VType_eq_dec : EqDecision VType.
Proof. solve_decision. Defined.

(** The arguments of one [h(type, props)] call inside a slot. *)
Record VNodeDesc := {
  d_type : VType;
  d_data : Data }.

(** A virtual node is a mutable object: the renderer fills in [component]
    and [el] when it mounts or patches the node. *)
Record VNode := {
  v_type : VType;
  v_data : Data;
  component : option nat;
  el : option Element }.

(** A render function is a closure; two are told apart by what they close
    over. *)
Inductive RenderFn :=
| SetupRender (c : nat)   (* the function the setup of instance [c] returned *)
| SubTreeOf (c : nat).    (* [() => component.subTree], closed over instance [c] *)

Global Instance RenderFn_eq_dec : EqDecision RenderFn.
Proof. solve_decision. Defined.

Module Component.
Record instance := {
  type : CompName;
  data : Data;
  render : RenderFn;
  subTree : Tree }.
End Component.

Record Heap := {
  vnodes : gmap nat VNode;
  instances : gmap nat Component.instance;
  next_vnode : nat;
  next_instance : nat;
  next_element : nat;
  created : list nat;
  destroyed : list nat }.

Definition empty_heap : Heap :=
  {| vnodes := ∅; instances := ∅; next_vnode := 0; next_instance := 0;
     next_element := 0; created := []; destroyed := [] |}.

Definition set_vnodes (f : gmap nat VNode -> gmap nat VNode) (h : Heap) : Heap :=
  {| vnodes := f (vnodes h); instances := instances h; next_vnode := next_vnode h;
     next_instance := next_instance h; next_element := next_element h;
     created := created h; destroyed := destroyed h |}.

Definition set_instances
    (f : gmap nat Component.instance -> gmap nat Component.instance) (h : Heap) : Heap :=
  {| vnodes := vnodes h; instances := f (instances h); next_vnode := next_vnode h;
     next_instance := next_instance h; next_element := next_element h;
     created := created h; destroyed := destroyed h |}.

Definition set_render (f : RenderFn) (i : Component.instance) : Component.instance :=
  {| Component.type := Component.type i; Component.data := Component.data i;
     Component.render := f; Component.subTree := Component.subTree i |}.

Definition set_subTree (t : Tree) (i : Component.instance) : Component.instance :=
  {| Component.type := Component.type i; Component.data := Component.data i;
     Component.render := Component.render i; Component.subTree := t |}.

Definition set_data (d : Data) (i : Component.instance) : Component.instance :=
  {| Component.type := Component.type i; Component.data := d;
     Component.render := Component.render i; Component.subTree := Component.subTree i |}.

(** Calling a render function. *)
Definition call_render (f : RenderFn) (insts : gmap nat Component.instance) : option Tree :=
  match f with
  | SetupRender c =>
      i ← insts !! c;
      Some {| rendered_by := Component.type i; rendered_from := Component.data i |}
  | SubTreeOf c => Component.subTree <$> insts !! c
  end.

(** ** lazy-render.ts *)

(** [LazyRenderProps extends IntersectionObserverInit] with [tag]. *)
Record LazyRenderProps := {
  tag : string;
  init : IntersectionObserverInit }.

(** What the two slots evaluate to when called; [None] is an absent slot. *)
Record Slots := {
  slot_default : option (list VNodeDesc);
  slot_fallback : option Tree }.

(** The local variables of [setup]. [render] starts undefined. *)
Record Setup := {
  containerRef : option Element;
  render : option RenderFn;
  currentVNode : option nat }.

Inductive RenderOutput :=
| Wrapper (t : string) (children : option Tree)   (* h(props.tag, { ref: containerRef }, ...) *)
| Items (vs : list nat).                          (* the array the default slot returned *)

Inductive Mounted :=
| NotMounted
| MountedWrapper (t : string) (e : Element) (children : option Tree)
| MountedItems (vs : list nat)
| MountedComment.

(** The framework's bookkeeping for one LazyRender instance. *)
Record Host := {
  slots : Slots;
  mounted : Mounted;
  render_dirty : bool;               (* the render effect has been triggered *)
  visible_seen : bool;               (* old value of watch(isVisible) *)
  target_seen : option Element;      (* old value of watch(target) *)
  pending_ref : option Element;      (* template ref to set after the render *)
  emitted : list (string * bool);    (* events the instance has emitted *)
  errors : list Error }.             (* errors handed to the error handler *)

Record State := {
  tracker : Tracker;
  vars : Setup;
  heap : Heap;
  host : Host }.

Definition set_tracker (f : Tracker -> Tracker) (s : State) : State :=
  {| tracker := f (tracker s); vars := vars s; heap := heap s; host := host s |}.
Definition set_vars (f : Setup -> Setup) (s : State) : State :=
  {| tracker := tracker s; vars := f (vars s); heap := heap s; host := host s |}.
Definition set_heap (f : Heap -> Heap) (s : State) : State :=
  {| tracker := tracker s; vars := vars s; heap := f (heap s); host := host s |}.
Definition set_host (f : Host -> Host) (s : State) : State :=
  {| tracker := tracker s; vars := vars s; heap := heap s; host := f (host s) |}.

Definition set_containerRef (e : option Element) (v : Setup) : Setup :=
  {| containerRef := e; render := render v; currentVNode := currentVNode v |}.
Definition set_saved_render (f : option RenderFn) (v : Setup) : Setup :=
  {| containerRef := containerRef v; render := f; currentVNode := currentVNode v |}.
Definition set_currentVNode (n : option nat) (v : Setup) : Setup :=
  {| containerRef := containerRef v; render := render v; currentVNode := n |}.

(** [h(type, props)]: a fresh, unmounted virtual node. *)
Definition alloc_vnode (d : VNodeDesc) (h : Heap) : nat * Heap :=
  let n := next_vnode h in
  (n, {| vnodes := <[n := {| v_type := d_type d; v_data := d_data d;
                             component := None; el := None |}]> (vnodes h);
         instances := instances h; next_vnode := S n;
         next_instance := next_instance h; next_element := next_element h;
         created := created h; destroyed := destroyed h |}).

Fixpoint alloc_vnodes (ds : list VNodeDesc) (h : Heap) : list nat * Heap :=
  match ds with
  | [] => ([], h)
  | d :: ds' =>
      let '(n, h1) := alloc_vnode d h in
      let '(ns, h2) := alloc_vnodes ds' h1 in
      (n :: ns, h2)
  end.

(** The render function [setup] returns (lines 88-95). *)
Definition render_fn (props : LazyRenderProps) (s : State) : Completion RenderOutput * State :=
  if negb (isVisible (tracker s)) && negb (bool_decide (is_Some (currentVNode (vars s)))) then
    (Normal (Wrapper (tag props) (slot_fallback (slots (host s)))), s)
  else
    match slot_default (slots (host s)) with
    | None => (Throw TypeError, s)                     (* vnode![0] on undefined *)
    | Some ds =>
        let '(vs, h') := alloc_vnodes ds (heap s) in
        (Normal (Items vs),
         set_vars (set_currentVNode (head vs)) (set_heap (λ _, h') s))
    end.

(** The callback of [watch(isVisible, ..., { flush: 'post' })] (lines 71-84).
    [currentVNode.component!] on a node that is not a component is null,
    and reading or writing [component.render] then throws, after
    [containerRef] has been assigned.  A handle that is not in the heap
    cannot occur; those branches throw as well. *)
Definition visible_watch_cb (visible : bool) (s : State) : Completion unit * State :=
  match currentVNode (vars s) with
  | None => (Normal (), s)
  | Some v =>
      match vnodes (heap s) !! v with
      | None => (Throw TypeError, s)
      | Some vn =>
          let s1 := set_vars (set_containerRef (el vn)) s in
          match component vn with
          | None => (Throw TypeError, s1)             (* component is null *)
          | Some c =>
              match instances (heap s1) !! c with
              | None => (Throw TypeError, s1)
              | Some i =>
                  if negb visible then
                    let _render := Component.render i in
                    let s2 := set_heap (set_instances (insert c (set_render (SubTreeOf c) i))) s1 in
                    (Normal (), set_vars (set_saved_render (Some _render)) s2)
                  else
                    let f := match render (vars s1) with
                             | Some r => r
                             | None => Component.render i
                             end in
                    (Normal (), set_heap (set_instances (insert c (set_render f i))) s1)
              end
          end
      end
  end.

(** ** The renderer (framework) *)

Definition set_mounted (m : Mounted) (h : Host) : Host :=
  {| slots := slots h; mounted := m; render_dirty := render_dirty h;
     visible_seen := visible_seen h; target_seen := target_seen h;
     pending_ref := pending_ref h; emitted := emitted h; errors := errors h |}.
Definition set_slots (sl : Slots) (h : Host) : Host :=
  {| slots := sl; mounted := mounted h; render_dirty := render_dirty h;
     visible_seen := visible_seen h; target_seen := target_seen h;
     pending_ref := pending_ref h; emitted := emitted h; errors := errors h |}.
Definition set_render_dirty (b : bool) (h : Host) : Host :=
  {| slots := slots h; mounted := mounted h; render_dirty := b;
     visible_seen := visible_seen h; target_seen := target_seen h;
     pending_ref := pending_ref h; emitted := emitted h; errors := errors h |}.
Definition set_visible_seen (b : bool) (h : Host) : Host :=
  {| slots := slots h; mounted := mounted h; render_dirty := render_dirty h;
     visible_seen := b; target_seen := target_seen h;
     pending_ref := pending_ref h; emitted := emitted h; errors := errors h |}.
Definition set_target_seen (e : option Element) (h : Host) : Host :=
  {| slots := slots h; mounted := mounted h; render_dirty := render_dirty h;
     visible_seen := visible_seen h; target_seen := e;
     pending_ref := pending_ref h; emitted := emitted h; errors := errors h |}.
Definition set_pending_ref (e : option Element) (h : Host) : Host :=
  {| slots := slots h; mounted := mounted h; render_dirty := render_dirty h;
     visible_seen := visible_seen h; target_seen := target_seen h;
     pending_ref := e; emitted := emitted h; errors := errors h |}.
Definition add_error (e : Error) (h : Host) : Host :=
  {| slots := slots h; mounted := mounted h; render_dirty := render_dirty h;
     visible_seen := visible_seen h; target_seen := target_seen h;
     pending_ref := pending_ref h; emitted := emitted h; errors := errors h ++ [e] |}.

(** The instance's [emit].  [setup] takes only [slots] from its context and
    the component declares no [emits]: none of the closures above calls it. *)
Definition emit (event : string) (payload : bool) (h : Host) : Host :=
  {| slots := slots h; mounted := mounted h; render_dirty := render_dirty h;
     visible_seen := visible_seen h; target_seen := target_seen h;
     pending_ref := pending_ref h; emitted := emitted h ++ [(event, payload)];
     errors := errors h |}.

Definition set_component_el (c : option nat) (e : option Element) (vn : VNode) : VNode :=
  {| v_type := v_type vn; v_data := v_data vn; component := c; el := e |}.

(** Mounting a node creates its element and, for a component node, a new
    instance whose first render fills [subTree]. *)
Definition mount_vnode (v : nat) (h : Heap) : Heap :=
  match vnodes h !! v with
  | None => h
  | Some vn =>
      let e := next_element h in
      match v_type vn with
      | TComponent name =>
          let c := next_instance h in
          {| vnodes := <[v := set_component_el (Some c) (Some e) vn]> (vnodes h);
             instances :=
               <[c := {| Component.type := name; Component.data := v_data vn;
                         Component.render := SetupRender c;
                         Component.subTree := {| rendered_by := name;
                                                 rendered_from := v_data vn |} |}]>
                 (instances h);
             next_vnode := next_vnode h; next_instance := S c; next_element := S e;
             created := created h ++ [c]; destroyed := destroyed h |}
      | TElement _ =>
          {| vnodes := <[v := set_component_el None (Some e) vn]> (vnodes h);
             instances := instances h;
             next_vnode := next_vnode h; next_instance := next_instance h;
             next_element := S e;
             created := created h; destroyed := destroyed h |}
      end
  end.

Definition unmount_vnode (v : nat) (h : Heap) : Heap :=
  match vnodes h !! v with
  | Some {| component := Some c |} =>
      {| vnodes := vnodes h; instances := instances h;
         next_vnode := next_vnode h; next_instance := next_instance h;
         next_element := next_element h;
         created := created h; destroyed := destroyed h ++ [c] |}
  | _ => h
  end.

(** One update of a mounted instance: its current [render] is called and
    the result becomes its [subTree]. *)
Definition update_instance (c : nat) (h : Heap) : Heap :=
  match instances h !! c with
  | None => h
  | Some i =>
      match call_render (Component.render i) (instances h) with
      | None => h
      | Some t => set_instances (insert c (set_subTree t i)) h
      end
  end.

(** Patching an old node with a new one of the same type hands the
    instance and the element over to the new node; an instance whose props
    changed is updated.  Nodes of different types are replaced. *)
Definition patch_vnode (o n : nat) (h : Heap) : Heap :=
  match vnodes h !! o, vnodes h !! n with
  | Some vo, Some vn =>
      if decide (v_type vo = v_type vn) then
        let h1 := set_vnodes (insert n (set_component_el (component vo) (el vo) vn)) h in
        match component vo with
        | Some c =>
            if decide (v_data vo = v_data vn) then h1
            else update_instance c (set_instances (alter (set_data (v_data vn)) c) h1)
        | None => h1
        end
      else mount_vnode n (unmount_vnode o h)
  | _, _ => h
  end.

Definition mount_children (news : list nat) (h : Heap) : Heap :=
  fold_left (λ h n, mount_vnode n h) news h.

Definition unmount_children (olds : list nat) (h : Heap) : Heap :=
  fold_left (λ h o, unmount_vnode o h) olds h.

(** Children are matched by position; surplus new nodes are mounted and
    surplus old nodes removed.  This is what Vue's diff of the items does
    as long as the old and the new item at each position have the same
    type, and when one item is replaced by one item; items that carry keys
    or that change places between two renders are not described. *)
Fixpoint patch_children (olds news : list nat) (h : Heap) : Heap :=
  match olds, news with
  | o :: olds', n :: news' => patch_children olds' news' (patch_vnode o n h)
  | [], _ => mount_children news h
  | _, [] => unmount_children olds h
  end.

(** Removing what is mounted; removing the wrapper unsets its template ref. *)
Definition unmount_mounted (s : State) : State :=
  match mounted (host s) with
  | MountedWrapper _ _ _ => set_vars (set_containerRef None) s
  | MountedItems vs => set_heap (unmount_children vs) s
  | _ => s
  end.

Definition mount_wrapper (t : string) (ch : option Tree) (s : State) : State :=
  let e := next_element (heap s) in
  set_host (λ h, set_pending_ref (Some e) (set_mounted (MountedWrapper t e ch) h))
    (set_heap (λ h, {| vnodes := vnodes h; instances := instances h;
                       next_vnode := next_vnode h; next_instance := next_instance h;
                       next_element := S e;
                       created := created h; destroyed := destroyed h |}) s).

Definition patch_root (out : RenderOutput) (s : State) : State :=
  match out with
  | Wrapper t ch =>
      match mounted (host s) with
      | MountedWrapper t' e _ =>
          if decide (t = t') then
            set_host (λ h, set_pending_ref (Some e) (set_mounted (MountedWrapper t e ch) h)) s
          else mount_wrapper t ch (unmount_mounted s)
      | _ => mount_wrapper t ch (unmount_mounted s)
      end
  | Items vs =>
      match mounted (host s) with
      | MountedItems olds =>
          set_host (set_mounted (MountedItems vs)) (set_heap (patch_children olds vs) s)
      | _ =>
          set_host (set_mounted (MountedItems vs))
            (set_heap (mount_children vs) (unmount_mounted s))
      end
  end.

(** ** The scheduler (framework) *)

(** The render job: the render function runs and its result is patched
    in; a render function that throws leaves a comment node. *)
Definition render_job (props : LazyRenderProps) (s : State) : State :=
  let '(r, s1) := render_fn props s in
  let s2 := match r with
            | Normal out => patch_root out s1
            | Throw e => set_host (λ h, set_mounted MountedComment (add_error e h))
                           (unmount_mounted s1)
            end in
  set_host (set_render_dirty false) s2.

(** A watcher runs its callback only when the watched value differs from
    the value it saw last. *)
Definition flush_target_watcher (s : State) : State :=
  if decide (containerRef (vars s) = target_seen (host s)) then s
  else set_tracker (target_watch_job (containerRef (vars s)))
         (set_host (set_target_seen (containerRef (vars s))) s).

Definition flush_ref (s : State) : State :=
  match pending_ref (host s) with
  | None => s
  | Some e => set_vars (set_containerRef (Some e)) (set_host (set_pending_ref None) s)
  end.

Definition flush_visible_watcher (s : State) : State :=
  let b := isVisible (tracker s) in
  if decide (b = visible_seen (host s)) then s
  else
    let '(r, s1) := visible_watch_cb b (set_host (set_visible_seen b) s) in
    match r with
    | Normal _ => s1
    | Throw e => set_host (add_error e) s1
    end.

(** After the render job: the watcher of the target (flush 'pre') for a
    ref unset by the patch, then the post-render queue (template ref,
    watcher of [isVisible]), then the watcher of the target again. *)
Definition post_render (s : State) : State :=
  flush_target_watcher (flush_visible_watcher (flush_ref (flush_target_watcher s))).

(** One tick: the render job if the instance is dirty, then the rest. *)
Definition flush (props : LazyRenderProps) (s : State) : State :=
  post_render (if render_dirty (host s) then render_job props s else s).

(** The state [setup] leaves behind: [containerRef] is null, [render] is
    undefined, [currentVNode] is null; nothing is mounted yet and the
    first render is due. *)
Definition setup_state (t : Tracker) (sl : Slots) : State :=
  {| tracker := t;
     vars := {| containerRef := None; render := None; currentVNode := None |};
     heap := empty_heap;
     host := {| slots := sl; mounted := NotMounted; render_dirty := true;
                visible_seen := false; target_seen := None;
                pending_ref := None; emitted := []; errors := [] |} |}.

(** Where Vue's error handling takes an error to: to the application's
    [errorHandler] or, in a production build, to [console.error]; or, in a
    development build without handler, back to the caller. *)
Inductive ErrorHandling := Reported | Rethrown.

Section Setup.

Variable parse_margin : string -> bool.

(** [setup(props, { slots })] (lines 54-96). *)
Definition setup (props : LazyRenderProps) (sl : Slots) : Completion State :=
  let! t := useIntersectionObserver parse_margin None (init props) in
  Normal (setup_state t sl).

(** Mounting: [setup], then the first tick.  [Throw e] says that [setup]
    ended with the error [e], so that the component has no state; what the
    application gets to see of it is [mount_outcome]. *)
Definition mount (props : LazyRenderProps) (sl : Slots) : Completion State :=
  let! s := setup props sl in
  Normal (flush props s).

(** What [app.mount] leaves behind (framework).  Vue calls [setup] under
    its error handling: with an [app.config.errorHandler], or in a
    production build, an error of [setup] is reported there, the component
    stays without render function and a comment node is mounted in its
    place; a development build without handler throws the error on to the
    caller of [app.mount]. *)
Definition mount_outcome (eh : ErrorHandling) (props : LazyRenderProps) (sl : Slots)
  : Completion (Mounted * list Error) :=
  match mount props sl with
  | Normal s => Normal (mounted (host s), errors (host s))
  | Throw e =>
      match eh with
      | Reported => Normal (MountedComment, [e])
      | Rethrown => Throw e
      end
  end.

End Setup.

(** ** Events *)

Inductive Event :=
| Deliver (entries : list IntersectionObserverEntry)  (* the observer calls back *)
| SlotsChanged (sl : Slots)                            (* the parent re-renders *)
| DataChanged (c : nat) (d : Data)                     (* data an instance reads changes *)
| Update (c : nat)                                     (* the scheduler re-renders an instance *)
| Flush.                                               (* a scheduler tick *)

Definition step (props : LazyRenderProps) (ev : Event) (s : State) : State :=
  match ev with
  | Deliver entries =>
      match observer_callback entries (tracker s) with
      | Normal t =>
          let changed := negb (eqb (isVisible t) (isVisible (tracker s))) in
          set_host (λ h, set_render_dirty (render_dirty h || changed) h)
            (set_tracker (λ _, t) s)
      | Throw _ => s   (* the error goes to the observer's caller, not to Vue *)
      end
  | SlotsChanged sl => set_host (λ h, set_render_dirty true (set_slots sl h)) s
  | DataChanged c d => set_heap (set_instances (alter (set_data d) c)) s
  | Update c => set_heap (update_instance c) s
  | Flush => flush props s
  end.

Definition run (props : LazyRenderProps) (evs : list Event) (s : State) : State :=
  fold_left (λ s ev, step props ev s) evs s.

(** A visibility transition: the observer reports one entry and the
    scheduler runs its tick. *)
Definition transition (props : LazyRenderProps) (entry : IntersectionObserverEntry)
    (s : State) : State :=
  flush props (step props (Deliver [entry]) s).

Definition transitions (props : LazyRenderProps) (entries : list IntersectionObserverEntry)
    (s : State) : State :=
  fold_left (λ s e, transition props e s) entries s.

(** ** Vocabulary of the properties *)

(** Number of [disconnect] requests an observer has received. *)
Definition disconnects (o : IntersectionObserver) : nat :=
  length (filter (λ c, c = Disconnect) (calls o)).

(** An options bag the constructor rejects: a threshold outside [0,1] or a
    margin the parser refuses. *)
Definition invalid_options (parse_margin : string -> bool)
    (o : IntersectionObserverInit) : Prop :=
  (∃ q, q ∈ thresholds_of (threshold o) ∧ (q < 0 ∨ 1 < q)%Q)
  ∨ (∃ m, rootMargin o = Some m ∧ parse_margin m = false).

(** The instance behind [currentVNode], the one the watcher of
    [isVisible] freezes and unfreezes. *)
Definition tracked (s : State) : option nat :=
  v ← currentVNode (vars s); vn ← vnodes (heap s) !! v; component vn.

(** The notifications the test suite looks for after a sequence of visibility
    transitions: one [change] per transition, carrying the new value. *)
Definition change_notifications (entries : list IntersectionObserverEntry)
  : list (string * bool) :=
  (λ e, ("change", isIntersecting e)) <$> entries.

(** The reading of "no callback for the old target is processed after the
    replacement": once the watcher has moved from [old] to [new], entries
    that all belong to [old] leave [isVisible] as it was. *)
Definition old_target_entries_ignored : Prop :=
  ∀ (t : Tracker) (old new : Element) (entries : list IntersectionObserverEntry)
    (t' : Tracker),
    cleanup t = Some old → old ≠ new →
    Forall (λ e, target e = old) entries →
    observer_callback entries (target_watch_job (Some new) t) = Normal t' →
    isVisible t' = isVisible (target_watch_job (Some new) t).

(** What is on screen, and what the render function would return now. *)
Definition shows_placeholder (s : State) : bool :=
  match mounted (host s) with
  | MountedWrapper _ _ _ => true
  | _ => false
  end.

Definition returns_placeholder (props : LazyRenderProps) (s : State) : bool :=
  match (render_fn props s).1 with
  | Normal (Wrapper _ _) => true
  | _ => false
  end.

(** The three states of the specification, read off the code: the
    instance awaits its first visibility as long as [currentVNode] is
    unset; afterwards it is frozen exactly when the tracked instance
    carries the override. *)
Inductive Phase := AwaitingFirstVisibility | LiveMounted | FrozenMounted.

Definition phase (s : State) : Phase :=
  match currentVNode (vars s) with
  | None => AwaitingFirstVisibility
  | Some _ =>
      match c ← tracked s; instances (heap s) !! c with
      | Some {| Component.render := SubTreeOf _ |} => FrozenMounted
      | _ => LiveMounted
      end
  end.

(** The two kinds of state a LazyRender instance is in between ticks. *)
Definition awaiting_inv (sl : Slots) (s : State) : Prop :=
  isVisible (tracker s) = false
  ∧ currentVNode (vars s) = None
  ∧ shows_placeholder s = true
  ∧ render_dirty (host s) = false
  ∧ slots (host s) = sl.

Definition realised_inv (sl : Slots) (s : State) : Prop :=
  (∃ v vs, currentVNode (vars s) = Some v
           ∧ mounted (host s) = MountedItems (v :: vs))
  ∧ render_dirty (host s) = false
  ∧ slots (host s) = sl.

(** The tracker follows the target reference: the watcher has seen its
    current value, the registered clean-up is for that value, and the
    observer's targets are that element or nothing. *)
Definition tracker_consistent (s : State) : Prop :=
  cleanup (tracker s) = target_seen (host s)
  ∧ targets (observer (tracker s)) = option_list (target_seen (host s)).

Definition synced (s : State) : Prop :=
  tracker_consistent s ∧ target_seen (host s) = containerRef (vars s).

(** A virtual node as [h] returns it. *)
Definition fresh_vnode (d : VNodeDesc) : VNode :=
  {| v_type := d_type d; v_data := d_data d; component := None; el := None |}.

Definition lookups (h : Heap) (vs : list nat) : list (option VNode) :=
  (λ v, vnodes h !! v) <$> vs.

(** A mounted node [x] realises the description [d]. *)
Definition realises (x : VNode) (d : VNodeDesc) : Prop :=
  v_type x = d_type d ∧ v_data x = d_data d.

(** Before the first visibility: the wrapper is mounted and observed. *)
Definition waiting (sl : Slots) (ew : Element) (s : State) : Prop :=
  awaiting_inv sl s
  ∧ synced s
  ∧ pending_ref (host s) = None
  ∧ visible_seen (host s) = false
  ∧ (∃ t ch, mounted (host s) = MountedWrapper t ew ch)
  ∧ containerRef (vars s) = Some ew
  ∧ (ew < next_element (heap s))%nat
  ∧ created (heap s) = []
  ∧ destroyed (heap s) = [].

(** After the first visibility: the items [xs] are mounted; [xs] records,
    for each item, its instance and its element. *)
Definition settled (sl : Slots) (xs : list VNode) (s : State) : Prop :=
  slots (host s) = sl
  ∧ render_dirty (host s) = false
  ∧ pending_ref (host s) = None
  ∧ visible_seen (host s) = isVisible (tracker s)
  ∧ synced s
  ∧ (∃ vs, mounted (host s) = MountedItems vs
           ∧ currentVNode (vars s) = head vs
           ∧ Forall (λ v, v < next_vnode (heap s)) vs
           ∧ lookups (heap s) vs = Some <$> xs)
  ∧ (∃ ds, slot_default sl = Some ds ∧ Forall2 realises xs ds)
  ∧ Forall (λ x, is_Some (el x)) xs
  ∧ containerRef (vars s) = head xs ≫= el
  ∧ created (heap s) = omap component xs
  ∧ destroyed (heap s) = [].

(** The items on screen, with their instances and elements. *)
Definition on_screen (s : State) : list (option VNode) :=
  match mounted (host s) with
  | MountedItems vs => lookups (heap s) vs
  | _ => []
  end.

(** A small instance used to exercise the statements below: a component
    followed by a paragraph in the default slot, a fallback, default
    options, and a margin parser that accepts everything. *)
Definition any_margin (m : string) : bool := true.

Definition example_props : LazyRenderProps :=
  {| tag := "div";
     init := {| root := None; rootMargin := None; threshold := ThresholdUnset |} |}.

Definition example_slots : Slots :=
  {| slot_default := Some [{| d_type := TComponent 0; d_data := 0 |};
                           {| d_type := TElement "p"; d_data := 0 |}];
     slot_fallback := Some {| rendered_by := 1; rendered_from := 0 |} |}.

Definition entry_for (b : bool) : IntersectionObserverEntry :=
  {| target := 0; isIntersecting := b |}.

Definition example_mounted : State :=
  flush example_props
    (setup_state {| isVisible := false;
                    observer := {| targets := []; calls := [] |};
                    cleanup := None |} example_slots).

(** Events under which a frozen instance stays frozen: the observer
    reports nothing visible, and the default slot keeps a component of
    the same type in first position. *)
Definition frozen_safe (name : CompName) (ev : Event) : Prop :=
  match ev with
  | Deliver [] => True
  | Deliver (e :: _) => isIntersecting e = false
  | SlotsChanged sl =>
      ∃ d ds, slot_default sl = Some (d :: ds) ∧ d_type d = TComponent name
  | _ => True
  end.

(** No node of [S] belongs to instance [c]. *)
Definition avoids (c : nat) (S : list nat) (h : Heap) : Prop :=
  (c < next_instance h)%nat
  ∧ ∀ k y, k ∈ S → vnodes h !! k = Some y → component y ≠ Some c.

(** The first item on screen is a component of type [name] whose instance
    is [c]; it is the node [currentVNode] points to, and no other item on
    screen shares its instance. *)
Definition tracks (c : nat) (name : CompName) (s : State) : Prop :=
  pending_ref (host s) = None
  ∧ (∃ d ds, slot_default (slots (host s)) = Some (d :: ds)
             ∧ d_type d = TComponent name)
  ∧ (∃ v vs x, mounted (host s) = MountedItems (v :: vs)
               ∧ currentVNode (vars s) = Some v
               ∧ vnodes (heap s) !! v = Some x
               ∧ v_type x = TComponent name
               ∧ component x = Some c
               ∧ Forall (λ w, w < next_vnode (heap s))%nat (v :: vs)
               ∧ avoids c vs (heap s))
  ∧ c ∉ destroyed (heap s).

Definition live (c : nat) (name : CompName) (s : State) : Prop :=
  tracks c name s
  ∧ isVisible (tracker s) = true
  ∧ visible_seen (host s) = true
  ∧ ∃ i, instances (heap s) !! c = Some i
         ∧ Component.type i = name
         ∧ Component.render i = SetupRender c.

Definition frozen (c : nat) (name : CompName) (t : Tree) (s : State) : Prop :=
  tracks c name s
  ∧ isVisible (tracker s) = false
  ∧ visible_seen (host s) = false
  ∧ render (vars s) = Some (SetupRender c)
  ∧ ∃ i, instances (heap s) !! c = Some i
         ∧ Component.type i = name
         ∧ Component.render i = SubTreeOf c
         ∧ Component.subTree i = t.

(** ** Vocabulary of the further properties *)

(** The props as declared with their defaults (lines 36-53): [root] null,
    [tag] 'div', [rootMargin] and [threshold] undefined. *)
Definition default_props : LazyRenderProps :=
  {| tag := "div";
     init := {| root := None; rootMargin := None; threshold := ThresholdUnset |} |}.

(** The watcher of the target run once for each value of a list. *)
Definition watch_targets (tgts : list (option Element)) (t : Tracker) : Tracker :=
  fold_left (λ t el, target_watch_job el t) tgts t.

Definition is_observe (c : ObserverCall) : bool :=
  match c with Observe _ => true | _ => false end.

Definition is_unobserve (c : ObserverCall) : bool :=
  match c with Unobserve _ => true | _ => false end.

Definition observe_count (o : IntersectionObserver) : nat :=
  length (List.filter is_observe (calls o)).

Definition unobserve_count (o : IntersectionObserver) : nat :=
  length (List.filter is_unobserve (calls o)).

(** What [isVisible] is after a list of events, starting from [b]: of each
    delivery the first entry counts, nothing else writes it. *)
Definition visible_after (b : bool) (evs : list Event) : bool :=
  fold_left (λ b ev, match ev with
                     | Deliver (e :: _) => isIntersecting e
                     | _ => b
                     end) evs b.

(** Deliveries of one entry each, with no tick in between. *)
Definition deliveries (entries : list IntersectionObserverEntry) : list Event :=
  (λ e, Deliver [e]) <$> entries.

(** Number of changes from hidden to visible along a list of values. *)
Fixpoint rising_edges (b : bool) (bs : list bool) : nat :=
  match bs with
  | [] => 0
  | b' :: bs' => (if negb b && b' then 1 else 0) + rising_edges b' bs'
  end.

(** Between ticks, before the real content has ever been produced. *)
Definition unrealised (sl : Slots) (s : State) : Prop :=
  currentVNode (vars s) = None
  ∧ render_dirty (host s) = false
  ∧ slots (host s) = sl
  ∧ shows_placeholder s = negb (isVisible (tracker s)).

(** [waiting], with what the wrapper is made of and nothing gone wrong. *)
Definition waiting_clean (props : LazyRenderProps) (sl : Slots) (ew : Element)
    (s : State) : Prop :=
  waiting sl ew s
  ∧ mounted (host s) = MountedWrapper (tag props) ew (slot_fallback sl)
  ∧ render (vars s) = None
  ∧ errors (host s) = [].

(** After the first visibility, in regular use: the tracked instance is
    live while visible and frozen while hidden, and no error was reported. *)
Definition healthy (c : nat) (name : CompName) (s : State) : Prop :=
  errors (host s) = []
  ∧ render_dirty (host s) = false
  ∧ if isVisible (tracker s) then live c name s else ∃ t, frozen c name t s.

(** Number of changes of value along a list. *)
Fixpoint changes (b : bool) (bs : list bool) : nat :=
  match bs with
  | [] => 0
  | b' :: bs' => (if eqb b' b then 0 else 1) + changes b' bs'
  end.

(** Every instance a node refers to, and every destroyed one, has been
    created, and a node that has an instance is a component node. *)
Definition bounded (h : Heap) : Prop :=
  (∀ k y c, vnodes h !! k = Some y → component y = Some c
            → (c < next_instance h)%nat ∧ ∃ name, v_type y = TComponent name)
  ∧ Forall (λ c, (c < next_instance h)%nat) (destroyed h).

(** Two instance maps with the same keys and the same type at each key. *)
Definition same_types (m m' : gmap nat Component.instance) : Prop :=
  ∀ c, Component.type <$> m' !! c = Component.type <$> m !! c.

(** What is mounted is really there: instance handles are handed out in
    order; a node that has an element is, if a component, backed by an
    instance of its type and, if an element, by none; no instance was
    created twice. *)
Definition grounded (h : Heap) : Prop :=
  (∀ c, (next_instance h ≤ c)%nat → instances h !! c = None)
  ∧ (∀ k x, vnodes h !! k = Some x → is_Some (el x) →
            match v_type x with
            | TComponent name =>
                ∃ c i, component x = Some c ∧ instances h !! c = Some i
                       ∧ Component.type i = name
            | TElement _ => component x = None
            end)
  ∧ NoDup (created h)
  ∧ Forall (λ c, (c < next_instance h)%nat) (created h).

(** The mounted node [x] embodies the description [d] in the heap [h]: it
    has an element, and a component has an instance of its type in [h],
    while an element has none. *)
Definition embodies (h : Heap) (x : VNode) (d : VNodeDesc) : Prop :=
  is_Some (el x)
  ∧ match d_type d with
    | TComponent name =>
        ∃ c i, component x = Some c ∧ instances h !! c = Some i
               ∧ Component.type i = name
    | TElement _ => component x = None
    end.

(** * Properties *)

(** ** The tracker *)

Lemma in_unit_interval_false (q : Q) :
  (q < 0 ∨ 1 < q)%Q → in_unit_interval q = false.
Proof.
  intros H. unfold in_unit_interval.
  apply andb_false_iff.
  destruct H as [H | H]; [left | right];
    apply not_true_is_false; rewrite Qle_bool_iff; intros Hle;
    apply (Qlt_irrefl q).
  - eapply Qlt_le_trans; eauto.
  - eapply Qle_lt_trans; eauto.
Qed.

Lemma forallb_unit_interval_false (qs : list Q) (q : Q) :
  q ∈ qs → (q < 0 ∨ 1 < q)%Q → forallb in_unit_interval qs = false.
Proof.
  intros Hin Hq. apply not_true_is_false. intros Hall.
  rewrite forallb_forall in Hall.
  apply list_elem_of_In in Hin. specialize (Hall q Hin).
  rewrite (in_unit_interval_false q Hq) in Hall. discriminate.
Qed.

Lemma constructor_rejects pm (o : IntersectionObserverInit) :
  invalid_options pm o →
  ∃ e, InvalidConfiguration e ∧ new_IntersectionObserver pm o = Throw e.
Proof.
  intros [(q & Hin & Hq) | (m & Hm & Hp)]; unfold new_IntersectionObserver.
  - rewrite (forallb_unit_interval_false _ q Hin Hq).
    destruct (rootMargin o) as [m|]; [destruct (pm m)|].
    + exists RangeError. split; [by left | done].
    + exists SyntaxError. split; [by right | done].
    + exists RangeError. split; [by left | done].
  - rewrite Hm, Hp. exists SyntaxError. split; [by right | done].
Qed.

(** C8. When a threshold lies outside [0,1] or the margin string is
    malformed, the error of the observer's constructor comes out of
    [useIntersectionObserver], whatever the target, and out of [setup]:
    nothing in between catches it, no state is built, nothing is observed
    and nothing is left for a later tick.  Mounting then shows it to the
    application in the way Vue is set up to: reported, with a comment node
    in place of the component, or thrown on to the caller. *)
Theorem invalid_configuration_thrown_at_setup pm (props : LazyRenderProps) (sl : Slots) :
  invalid_options pm (init props) →
  ∃ e, InvalidConfiguration e
       ∧ (∀ tgt, useIntersectionObserver pm tgt (init props) = Throw e)
       ∧ setup pm props sl = Throw e
       ∧ mount_outcome pm Reported props sl = Normal (MountedComment, [e])
       ∧ mount_outcome pm Rethrown props sl = Throw e.
Proof.
  intros H. destruct (constructor_rejects pm _ H) as (e & He & Hc).
  exists e. split; [done|].
  unfold mount_outcome, mount, setup, useIntersectionObserver. rewrite Hc. by cbn.
Qed.

Lemma invalid_configuration_thrown_at_setup_witness :
  let props := {| tag := "div";
                  init := {| root := None; rootMargin := None;
                             threshold := ThresholdList [0; 3 # 2]%Q |} |} in
  let sl := {| slot_default := None; slot_fallback := None |} in
  ∃ e, InvalidConfiguration e
       ∧ (∀ tgt, useIntersectionObserver (λ _, true) tgt (init props) = Throw e)
       ∧ setup (λ _, true) props sl = Throw e
       ∧ mount_outcome (λ _, true) Reported props sl = Normal (MountedComment, [e])
       ∧ mount_outcome (λ _, true) Rethrown props sl = Throw e.
Proof.
  intros props sl.
  apply (invalid_configuration_thrown_at_setup (λ _, true) props sl).
  left. exists (3 # 2)%Q. split.
  - cbn. apply list_elem_of_In. right. by left.
  - right. reflexivity.
Defined.

(** C7. Each teardown sends the observer exactly one [disconnect], after
    which no target is observed; a second [stop] leaves the observer with
    the same (empty) set of targets and changes nothing else of the
    tracker, and [stop] on a tracker that observes nothing leaves it
    observing nothing.  [stop] is a total function: it cannot throw. *)
Theorem stop_disconnects_once_and_again_is_noop (t : Tracker) :
  disconnects (observer (stop t)) = S (disconnects (observer t))
  ∧ disconnects (observer (unmount_tracker t)) = S (disconnects (observer t))
  ∧ targets (observer (stop t)) = []
  ∧ targets (observer (unmount_tracker t)) = []
  ∧ targets (observer (stop (stop t))) = targets (observer (stop t))
  ∧ isVisible (stop (stop t)) = isVisible (stop t)
  ∧ cleanup (stop (stop t)) = cleanup (stop t)
  ∧ (∀ b cs c,
       targets (observer (stop {| isVisible := b;
                                  observer := {| targets := []; calls := cs |};
                                  cleanup := c |})) = []).
Proof.
  assert (Hd : ∀ o, disconnects (disconnect o) = S (disconnects o)).
  { intros o. unfold disconnects, disconnect; cbn.
    rewrite filter_app, length_app. cbn. case_decide; [cbn; lia | done]. }
  assert (Hu : ∀ e o, disconnects (unobserve e o) = disconnects o).
  { intros e o. unfold disconnects, unobserve; cbn.
    rewrite filter_app, length_app. cbn. case_decide; [done | cbn; lia]. }
  repeat split; try done.
  - apply Hd.
  - unfold unmount_tracker, run_cleanup.
    destruct (cleanup t); unfold stop; cbn [observer]; rewrite Hd; [apply f_equal, Hu | done].
Qed.

(** C6, as stated, fails: with element 10 replaced by element 11, an
    entry that belongs to element 10 and arrives afterwards still sets
    [isVisible]. *)
Lemma old_target_entry_sets_isVisible : ¬ old_target_entries_ignored.
Proof.
  intros H.
  set (t0 := target_watch_job (Some 10)
               {| isVisible := false;
                  observer := {| targets := []; calls := [] |};
                  cleanup := None |}).
  specialize (H t0 10 11 [{| target := 10; isIntersecting := true |}]
                {| isVisible := true;
                   observer := observer (target_watch_job (Some 11) t0);
                   cleanup := cleanup (target_watch_job (Some 11) t0) |}).
  cbn in H. discriminate H; try done.
  by repeat constructor.
Qed.

(** C6, amended. When the watcher runs for a target replaced by a new
    element, it sends [unobserve] for the old element and then [observe]
    for the new one, which is then the observer's only target; the
    callback takes the flag of the first entry it is handed, whatever the
    entry's target. *)
Theorem target_replacement_swaps_observation (t : Tracker) (old new : Element) :
  cleanup t = Some old →
  targets (observer t) = [old] →
  calls (observer (target_watch_job (Some new) t))
    = calls (observer t) ++ [Unobserve old; Observe new]
  ∧ targets (observer (target_watch_job (Some new) t)) = [new]
  ∧ cleanup (target_watch_job (Some new) t) = Some new
  ∧ isVisible (target_watch_job (Some new) t) = isVisible t
  ∧ ∀ e es,
      observer_callback (e :: es) (target_watch_job (Some new) t)
      = Normal {| isVisible := isIntersecting e;
                  observer := observer (target_watch_job (Some new) t);
                  cleanup := cleanup (target_watch_job (Some new) t) |}.
Proof.
  intros Hc Ht.
  unfold target_watch_job, run_cleanup. rewrite Hc. cbn. rewrite Ht.
  repeat split.
  - by rewrite <- app_assoc.
  - assert (Hf : filter (λ x : Element, x ≠ old) [old] = []).
    { rewrite filter_cons, filter_nil.
      rewrite decide_False; [done | intros Hne; by apply Hne]. }
    rewrite Hf. rewrite decide_False; [done | apply not_elem_of_nil].
Qed.

Lemma target_replacement_swaps_observation_witness :
  let t := {| isVisible := true;
              observer := {| targets := [10]; calls := [Observe 10] |};
              cleanup := Some 10 |} in
  calls (observer (target_watch_job (Some 11) t))
    = [Observe 10; Unobserve 10; Observe 11]
  ∧ targets (observer (target_watch_job (Some 11) t)) = [11].
Proof.
  intros t.
  destruct (target_replacement_swaps_observation t 10 11 eq_refl eq_refl)
    as (H1 & H2 & _).
  split; [exact H1 | exact H2].
Defined.

(** ** What each step leaves alone *)

Ltac unfold_state_ops :=
  unfold set_tracker, set_vars, set_heap, set_host, set_containerRef,
    set_saved_render, set_currentVNode, set_mounted, set_slots,
    set_render_dirty, set_visible_seen, set_target_seen, set_pending_ref,
    add_error, set_instances, set_vnodes in *.

Lemma visible_watch_cb_frame (visible : bool) (s : State) :
  host (visible_watch_cb visible s).2 = host s
  ∧ tracker (visible_watch_cb visible s).2 = tracker s
  ∧ currentVNode (vars (visible_watch_cb visible s).2) = currentVNode (vars s)
  ∧ vnodes (heap (visible_watch_cb visible s).2) = vnodes (heap s)
  ∧ created (heap (visible_watch_cb visible s).2) = created (heap s)
  ∧ destroyed (heap (visible_watch_cb visible s).2) = destroyed (heap s)
  ∧ next_vnode (heap (visible_watch_cb visible s).2) = next_vnode (heap s)
  ∧ next_instance (heap (visible_watch_cb visible s).2) = next_instance (heap s).
Proof.
  unfold visible_watch_cb. unfold_state_ops.
  repeat case_match; cbn; done.
Qed.

Lemma flush_visible_watcher_frame (s : State) :
  tracker (flush_visible_watcher s) = tracker s
  ∧ currentVNode (vars (flush_visible_watcher s)) = currentVNode (vars s)
  ∧ mounted (host (flush_visible_watcher s)) = mounted (host s)
  ∧ slots (host (flush_visible_watcher s)) = slots (host s)
  ∧ render_dirty (host (flush_visible_watcher s)) = render_dirty (host s)
  ∧ pending_ref (host (flush_visible_watcher s)) = pending_ref (host s)
  ∧ target_seen (host (flush_visible_watcher s)) = target_seen (host s)
  ∧ emitted (host (flush_visible_watcher s)) = emitted (host s)
  ∧ visible_seen (host (flush_visible_watcher s)) = isVisible (tracker s)
  ∧ vnodes (heap (flush_visible_watcher s)) = vnodes (heap s)
  ∧ created (heap (flush_visible_watcher s)) = created (heap s)
  ∧ destroyed (heap (flush_visible_watcher s)) = destroyed (heap s)
  ∧ next_vnode (heap (flush_visible_watcher s)) = next_vnode (heap s).
Proof.
  unfold flush_visible_watcher.
  destruct (decide (isVisible (tracker s) = visible_seen (host s))) as [He|He];
    [by rewrite He|].
  pose proof (visible_watch_cb_frame (isVisible (tracker s))
                (set_host (set_visible_seen (isVisible (tracker s))) s)) as H.
  destruct (visible_watch_cb _ _) as [r s1]. cbn in H.
  destruct H as (Hh & Ht & Hc & Hv & Hcr & Hde & Hnv & _).
  destruct r; unfold_state_ops; cbn;
    rewrite ?Hh, ?Ht, ?Hc, ?Hv, ?Hcr, ?Hde, ?Hnv; done.
Qed.

Lemma flush_visible_watcher_containerRef (s : State) (v : nat) (x : VNode) :
  isVisible (tracker s) ≠ visible_seen (host s) →
  currentVNode (vars s) = Some v →
  vnodes (heap s) !! v = Some x →
  containerRef (vars (flush_visible_watcher s)) = el x.
Proof.
  intros Hne Hc Hv. unfold flush_visible_watcher.
  rewrite decide_False by done.
  unfold visible_watch_cb. unfold_state_ops. cbn. rewrite Hc, Hv.
  repeat case_match; simplify_eq; cbn; done.
Qed.

Lemma flush_ref_none (s : State) :
  pending_ref (host s) = None → flush_ref s = s.
Proof. intros H. unfold flush_ref. by rewrite H. Qed.

Lemma flush_ref_frame (s : State) :
  tracker (flush_ref s) = tracker s
  ∧ heap (flush_ref s) = heap s
  ∧ currentVNode (vars (flush_ref s)) = currentVNode (vars s)
  ∧ render (vars (flush_ref s)) = render (vars s)
  ∧ mounted (host (flush_ref s)) = mounted (host s)
  ∧ slots (host (flush_ref s)) = slots (host s)
  ∧ render_dirty (host (flush_ref s)) = render_dirty (host s)
  ∧ visible_seen (host (flush_ref s)) = visible_seen (host s)
  ∧ target_seen (host (flush_ref s)) = target_seen (host s)
  ∧ emitted (host (flush_ref s)) = emitted (host s)
  ∧ pending_ref (host (flush_ref s)) = None.
Proof.
  unfold flush_ref. unfold_state_ops.
  destruct (pending_ref (host s)) eqn:E; cbn; done.
Qed.

Lemma flush_target_watcher_frame (s : State) :
  vars (flush_target_watcher s) = vars s
  ∧ heap (flush_target_watcher s) = heap s
  ∧ isVisible (tracker (flush_target_watcher s)) = isVisible (tracker s)
  ∧ mounted (host (flush_target_watcher s)) = mounted (host s)
  ∧ slots (host (flush_target_watcher s)) = slots (host s)
  ∧ render_dirty (host (flush_target_watcher s)) = render_dirty (host s)
  ∧ visible_seen (host (flush_target_watcher s)) = visible_seen (host s)
  ∧ pending_ref (host (flush_target_watcher s)) = pending_ref (host s)
  ∧ emitted (host (flush_target_watcher s)) = emitted (host s)
  ∧ target_seen (host (flush_target_watcher s)) = containerRef (vars s).
Proof.
  unfold flush_target_watcher. unfold_state_ops.
  case_decide as He; [by rewrite He|].
  unfold target_watch_job, target_watch_cb, run_cleanup.
  repeat case_match; cbn; done.
Qed.

Lemma render_fn_frame (props : LazyRenderProps) (s : State) :
  host (render_fn props s).2 = host s
  ∧ tracker (render_fn props s).2 = tracker s
  ∧ containerRef (vars (render_fn props s).2) = containerRef (vars s)
  ∧ render (vars (render_fn props s).2) = render (vars s)
  ∧ instances (heap (render_fn props s).2) = instances (heap s)
  ∧ created (heap (render_fn props s).2) = created (heap s)
  ∧ destroyed (heap (render_fn props s).2) = destroyed (heap s).
Proof.
  unfold render_fn. unfold_state_ops.
  assert (Ha : ∀ ds h, instances (alloc_vnodes ds h).2 = instances h
                       ∧ created (alloc_vnodes ds h).2 = created h
                       ∧ destroyed (alloc_vnodes ds h).2 = destroyed h).
  { induction ds as [|d ds IH]; intros h; cbn; [done|].
    specialize (IH (alloc_vnode d h).2).
    destruct (alloc_vnodes ds _) as [ns h2]. cbn in *. done. }
  repeat case_match; cbn; try done.
  match goal with H : alloc_vnodes ?ds ?h = _ |- _ =>
    specialize (Ha ds h); rewrite H in Ha end.
  cbn in Ha. destruct Ha as (? & ? & ?). done.
Qed.

Lemma patch_root_emitted (out : RenderOutput) (s : State) :
  emitted (host (patch_root out s)) = emitted (host s).
Proof.
  unfold patch_root, mount_wrapper, unmount_mounted. unfold_state_ops.
  repeat case_match; cbn; done.
Qed.

Lemma render_job_emitted (props : LazyRenderProps) (s : State) :
  emitted (host (render_job props s)) = emitted (host s).
Proof.
  unfold render_job.
  pose proof (render_fn_frame props s) as (Hh & _).
  destruct (render_fn props s) as [r s1]. cbn in Hh.
  destruct r; cbn.
  - by rewrite patch_root_emitted, Hh.
  - unfold unmount_mounted. unfold_state_ops.
    repeat case_match; cbn; by rewrite Hh.
Qed.

Lemma flush_emitted (props : LazyRenderProps) (s : State) :
  emitted (host (flush props s)) = emitted (host s).
Proof.
  unfold flush, post_render.
  destruct (flush_target_watcher_frame
              (flush_visible_watcher (flush_ref (flush_target_watcher
                 (if render_dirty (host s) then render_job props s else s)))))
    as (_ & _ & _ & _ & _ & _ & _ & _ & -> & _).
  destruct (flush_visible_watcher_frame
              (flush_ref (flush_target_watcher
                 (if render_dirty (host s) then render_job props s else s))))
    as (_ & _ & _ & _ & _ & _ & _ & -> & _).
  destruct (flush_ref_frame
              (flush_target_watcher
                 (if render_dirty (host s) then render_job props s else s)))
    as (_ & _ & _ & _ & _ & _ & _ & _ & _ & -> & _).
  destruct (flush_target_watcher_frame
              (if render_dirty (host s) then render_job props s else s))
    as (_ & _ & _ & _ & _ & _ & _ & _ & -> & _).
  destruct (render_dirty (host s)); [apply render_job_emitted | done].
Qed.

Lemma step_emitted (props : LazyRenderProps) (ev : Event) (s : State) :
  emitted (host (step props ev s)) = emitted (host s).
Proof.
  destruct ev; cbn; unfold_state_ops; try done.
  - destruct (observer_callback entries (tracker s)); done.
  - apply flush_emitted.
Qed.

Lemma run_emitted (props : LazyRenderProps) (evs : list Event) (s : State) :
  emitted (host (run props evs s)) = emitted (host s).
Proof.
  revert s. induction evs as [|ev evs IH]; intros s; cbn; [done|].
  unfold run in IH. by rewrite IH, step_emitted.
Qed.

(** ** Change notifications *)

(** C1 (what the code does). A mounted LazyRender never emits anything:
    whatever the observer delivers and however the scheduler runs, the
    list of emitted events stays empty.  In particular a delivered
    visibility transition is not followed by a [change] notification. *)
Theorem no_change_notification_is_emitted pm (props : LazyRenderProps) (sl : Slots)
    (evs : list Event) :
  match mount pm props sl with
  | Normal s0 => emitted (host (run props evs s0)) = []
  | Throw _ => True
  end.
Proof.
  destruct (mount pm props sl) as [s0|e] eqn:Hm; [|done].
  rewrite run_emitted.
  unfold mount, setup in Hm.
  destruct (useIntersectionObserver pm None (init props)) as [t|]; cbn in Hm; [|done].
  injection Hm as <-. by rewrite flush_emitted.
Qed.

Lemma first_visibility_emits_nothing :
  emitted (host (transitions example_props [entry_for true] example_mounted)) = []
  ∧ change_notifications [entry_for true] = [("change", true)].
Proof. split; reflexivity. Qed.

(** ** Placeholder and real subtree *)

Lemma flush_shape (props : LazyRenderProps) (s s1 : State) :
  s1 = (if render_dirty (host s) then render_job props s else s) →
  currentVNode (vars (flush props s)) = currentVNode (vars s1)
  ∧ mounted (host (flush props s)) = mounted (host s1)
  ∧ render_dirty (host (flush props s)) = render_dirty (host s1)
  ∧ slots (host (flush props s)) = slots (host s1)
  ∧ isVisible (tracker (flush props s)) = isVisible (tracker s1).
Proof.
  intros Hs1. unfold flush, post_render. rewrite <- Hs1.
  destruct (flush_target_watcher_frame
              (flush_visible_watcher (flush_ref (flush_target_watcher s1))))
    as (-> & _ & -> & -> & -> & -> & _).
  destruct (flush_visible_watcher_frame (flush_ref (flush_target_watcher s1)))
    as (-> & -> & -> & -> & -> & _).
  destruct (flush_ref_frame (flush_target_watcher s1))
    as (-> & _ & -> & _ & -> & -> & -> & _).
  destruct (flush_target_watcher_frame s1) as (-> & _ & -> & -> & -> & -> & _).
  done.
Qed.

Lemma alloc_vnodes_head (d : VNodeDesc) (ds : list VNodeDesc) (h : Heap) :
  head (alloc_vnodes (d :: ds) h).1 = Some (next_vnode h).
Proof. cbn. by destruct (alloc_vnodes ds _). Qed.

#[local] Arguments patch_root : simpl never.

Lemma patch_root_shape (out : RenderOutput) (s : State) :
  currentVNode (vars (patch_root out s)) = currentVNode (vars s)
  ∧ tracker (patch_root out s) = tracker s
  ∧ slots (host (patch_root out s)) = slots (host s)
  ∧ render_dirty (host (patch_root out s)) = render_dirty (host s)
  ∧ match out with
    | Wrapper _ _ => shows_placeholder (patch_root out s) = true
    | Items vs => mounted (host (patch_root out s)) = MountedItems vs
    end.
Proof.
  unfold patch_root, shows_placeholder, mount_wrapper, unmount_mounted.
  unfold_state_ops. repeat case_match; cbn; done.
Qed.

Lemma render_job_wrapper (props : LazyRenderProps) (s : State) :
  isVisible (tracker s) = false →
  currentVNode (vars s) = None →
  currentVNode (vars (render_job props s)) = None
  ∧ shows_placeholder (render_job props s) = true
  ∧ tracker (render_job props s) = tracker s
  ∧ slots (host (render_job props s)) = slots (host s)
  ∧ render_dirty (host (render_job props s)) = false.
Proof.
  intros Hv Hc. unfold render_job, render_fn. rewrite Hv, Hc. cbn.
  destruct (patch_root_shape
              (Wrapper (tag props) (slot_fallback (slots (host s)))) s)
    as (H1 & H2 & H3 & _ & H5).
  unfold shows_placeholder in *. unfold_state_ops. cbn.
  rewrite H1, H2, H3. done.
Qed.

Lemma render_job_items (props : LazyRenderProps) (s : State)
    (d : VNodeDesc) (ds : list VNodeDesc) :
  slot_default (slots (host s)) = Some (d :: ds) →
  isVisible (tracker s) = true ∨ currentVNode (vars s) ≠ None →
  (∃ v vs, currentVNode (vars (render_job props s)) = Some v
           ∧ mounted (host (render_job props s)) = MountedItems (v :: vs))
  ∧ tracker (render_job props s) = tracker s
  ∧ slots (host (render_job props s)) = slots (host s)
  ∧ render_dirty (host (render_job props s)) = false.
Proof.
  intros Hs Hor. unfold render_job, render_fn. rewrite Hs.
  assert (negb (isVisible (tracker s))
          && negb (bool_decide (is_Some (currentVNode (vars s)))) = false) as ->.
  { destruct Hor as [-> | Hc]; [done|].
    destruct (currentVNode (vars s)); [|done].
    rewrite bool_decide_true by eauto. by rewrite andb_false_r. }
  pose proof (alloc_vnodes_head d ds (heap s)) as Hh.
  destruct (alloc_vnodes (d :: ds) (heap s)) as [vs h'] eqn:Ha. cbn in Hh.
  destruct vs as [|v vs]; [done|]. cbn in Hh.
  match goal with |- context [patch_root ?o ?x] =>
    destruct (patch_root_shape o x) as (H1 & H2 & H3 & _ & H5) end.
  unfold_state_ops. cbn in *.
  rewrite H1, H2, H3, H5. split; [|done]. by exists v, vs.
Qed.

Lemma deliver_one (props : LazyRenderProps) (e : IntersectionObserverEntry) (s : State) :
  isVisible (tracker (step props (Deliver [e]) s)) = isIntersecting e
  ∧ vars (step props (Deliver [e]) s) = vars s
  ∧ heap (step props (Deliver [e]) s) = heap s
  ∧ mounted (host (step props (Deliver [e]) s)) = mounted (host s)
  ∧ slots (host (step props (Deliver [e]) s)) = slots (host s)
  ∧ render_dirty (host (step props (Deliver [e]) s))
    = render_dirty (host s) || negb (eqb (isIntersecting e) (isVisible (tracker s))).
Proof. cbn. unfold_state_ops. cbn. done. Qed.

Lemma mount_awaiting pm (props : LazyRenderProps) (sl : Slots) (s0 : State) :
  mount pm props sl = Normal s0 → awaiting_inv sl s0.
Proof.
  unfold mount, setup, useIntersectionObserver. intros Hm.
  destruct (new_IntersectionObserver pm (init props)) as [o|]; cbn in Hm; [|done].
  injection Hm as <-.
  match goal with |- awaiting_inv _ (flush _ ?s) =>
    destruct (flush_shape props s (render_job props s) eq_refl)
      as (H1 & H2 & H3 & H4 & H5);
    destruct (render_job_wrapper props s eq_refl eq_refl) as (R1 & R2 & R3 & R4 & R5)
  end.
  unfold awaiting_inv, shows_placeholder in *.
  rewrite H1, H2, H3, H4, H5, R1, R3, R4, R5. done.
Qed.

#[local] Arguments step : simpl never.

Lemma transition_awaiting (props : LazyRenderProps) (sl : Slots)
    (d : VNodeDesc) (ds : list VNodeDesc) (e : IntersectionObserverEntry) (s : State) :
  slot_default sl = Some (d :: ds) →
  awaiting_inv sl s →
  if isIntersecting e then realised_inv sl (transition props e s)
  else awaiting_inv sl (transition props e s).
Proof.
  intros Hsl (Hv & Hc & Hp & Hd & Hs). unfold transition.
  destruct (deliver_one props e s) as (D1 & D2 & D3 & D4 & D5 & D6).
  rewrite Hd, Hv in D6.
  destruct (isIntersecting e) eqn:He; cbn in D6.
  - destruct (flush_shape props (step props (Deliver [e]) s)
                (render_job props (step props (Deliver [e]) s)))
      as (H1 & H2 & H3 & H4 & H5); [by rewrite D6|].
    destruct (render_job_items props (step props (Deliver [e]) s) d ds)
      as (R1 & R2 & R3 & R4).
    { by rewrite D5, Hs. }
    { left. by rewrite D1. }
    unfold realised_inv. rewrite H1, H2, H3, H4, R3, R4, D5. done.
  - destruct (flush_shape props (step props (Deliver [e]) s)
                (step props (Deliver [e]) s))
      as (H1 & H2 & H3 & H4 & H5); [by rewrite D6|].
    unfold awaiting_inv, shows_placeholder in *.
    rewrite H1, H2, H3, H4, H5, D1, D2, D4, D5, D6. done.
Qed.

Lemma transition_realised (props : LazyRenderProps) (sl : Slots)
    (d : VNodeDesc) (ds : list VNodeDesc) (e : IntersectionObserverEntry) (s : State) :
  slot_default sl = Some (d :: ds) →
  realised_inv sl s →
  realised_inv sl (transition props e s).
Proof.
  intros Hsl ((v & vs & Hc & Hm) & Hd & Hs). unfold transition.
  destruct (deliver_one props e s) as (D1 & D2 & D3 & D4 & D5 & D6).
  unfold realised_inv.
  destruct (render_dirty (host (step props (Deliver [e]) s))) eqn:Hdirty.
  - destruct (flush_shape props (step props (Deliver [e]) s)
                (render_job props (step props (Deliver [e]) s)))
      as (H1 & H2 & H3 & H4 & H5); [by rewrite Hdirty|].
    destruct (render_job_items props (step props (Deliver [e]) s) d ds)
      as (R1 & R2 & R3 & R4).
    { by rewrite D5, Hs. }
    { right. by rewrite D2, Hc. }
    rewrite H1, H2, H3, H4, R3, R4, D5. done.
  - destruct (flush_shape props (step props (Deliver [e]) s)
                (step props (Deliver [e]) s))
      as (H1 & H2 & H3 & H4 & H5); [by rewrite Hdirty|].
    rewrite H1, H2, H3, H4, D2, D4, D5, Hdirty.
    split; [by exists v, vs | done].
Qed.

Lemma transitions_realised (props : LazyRenderProps) (sl : Slots)
    (d : VNodeDesc) (ds : list VNodeDesc)
    (entries : list IntersectionObserverEntry) (s : State) :
  slot_default sl = Some (d :: ds) →
  realised_inv sl s →
  realised_inv sl (transitions props entries s).
Proof.
  intros Hsl. revert s. induction entries as [|e es IH]; intros s Hr; [done|].
  cbn. apply IH. by eapply transition_realised.
Qed.

Lemma transitions_awaiting (props : LazyRenderProps) (sl : Slots)
    (d : VNodeDesc) (ds : list VNodeDesc)
    (entries : list IntersectionObserverEntry) (s : State) :
  slot_default sl = Some (d :: ds) →
  awaiting_inv sl s →
  (awaiting_inv sl (transitions props entries s)
   ∧ Forall (λ e, isIntersecting e = false) entries)
  ∨ (realised_inv sl (transitions props entries s)
     ∧ ¬ Forall (λ e, isIntersecting e = false) entries).
Proof.
  intros Hsl. revert s. induction entries as [|e es IH]; intros s Ha.
  - left. by split.
  - cbn. pose proof (transition_awaiting props sl d ds e s Hsl Ha) as Ht.
    destruct (isIntersecting e) eqn:He.
    + right. split; [by eapply transitions_realised|].
      intros Hall. apply Forall_cons in Hall as [Hf _]. congruence.
    + destruct (IH _ Ht) as [[Hi Hall] | [Hi Hall]].
      * left. split; [done | by constructor].
      * right. split; [done|]. intros Hc. apply Forall_cons in Hc as [_ Hc]. done.
Qed.

Lemma awaiting_returns_placeholder (props : LazyRenderProps) (sl : Slots) (s : State) :
  awaiting_inv sl s →
  shows_placeholder s = true ∧ returns_placeholder props s = true
  ∧ currentVNode (vars s) = None.
Proof.
  intros (Hv & Hc & Hp & _). repeat split; [done| |done].
  unfold returns_placeholder, render_fn. by rewrite Hv, Hc.
Qed.

Lemma realised_returns_items (props : LazyRenderProps) (sl : Slots)
    (d : VNodeDesc) (ds : list VNodeDesc) (s : State) :
  slot_default sl = Some (d :: ds) →
  realised_inv sl s →
  shows_placeholder s = false ∧ returns_placeholder props s = false
  ∧ currentVNode (vars s) ≠ None.
Proof.
  intros Hsl ((v & vs & Hc & Hm) & _ & Hs).
  unfold shows_placeholder, returns_placeholder, render_fn.
  rewrite Hm, Hc, Hs, Hsl. rewrite bool_decide_true by eauto.
  rewrite andb_false_r.
  destruct (alloc_vnodes (d :: ds) (heap s)). done.
Qed.

(** C2. Mount a LazyRender whose default slot yields at least one item
    and deliver any sequence of visibility transitions.  What is shown,
    and what the render function returns, is the placeholder exactly when
    [currentVNode] is still unset (the instance awaits its first
    visibility), which is the case exactly when no visible entry has been
    delivered so far; and once [currentVNode] is set, no further sequence
    of transitions brings the placeholder back. *)
Theorem placeholder_iff_awaiting_first_visibility pm (props : LazyRenderProps)
    (sl : Slots) (d : VNodeDesc) (ds : list VNodeDesc) (s0 : State)
    (entries : list IntersectionObserverEntry) :
  mount pm props sl = Normal s0 →
  slot_default sl = Some (d :: ds) →
  (shows_placeholder (transitions props entries s0) = true
     ↔ phase (transitions props entries s0) = AwaitingFirstVisibility)
  ∧ (returns_placeholder props (transitions props entries s0) = true
     ↔ phase (transitions props entries s0) = AwaitingFirstVisibility)
  ∧ (phase (transitions props entries s0) = AwaitingFirstVisibility
     ↔ Forall (λ e, isIntersecting e = false) entries)
  ∧ (∀ more,
       phase (transitions props entries s0) ≠ AwaitingFirstVisibility →
       shows_placeholder (transitions props more (transitions props entries s0)) = false
       ∧ returns_placeholder props
           (transitions props more (transitions props entries s0)) = false
       ∧ phase (transitions props more (transitions props entries s0))
         ≠ AwaitingFirstVisibility).
Proof.
  intros Hm Hsl.
  assert (Hph : ∀ s, phase s = AwaitingFirstVisibility ↔ currentVNode (vars s) = None).
  { intros s. unfold phase. destruct (currentVNode (vars s)); [|done].
    split; [|done]. repeat case_match; done. }
  pose proof (mount_awaiting pm props sl s0 Hm) as Ha.
  destruct (transitions_awaiting props sl d ds entries s0 Hsl Ha)
    as [[Hi Hall] | [Hi Hall]].
  - destruct (awaiting_returns_placeholder props sl _ Hi) as (H1 & H2 & H3).
    rewrite !Hph. repeat split; try done.
    all: exfalso; match goal with Hne : _ ≠ _ |- _ => apply Hne end; by apply Hph.
  - destruct (realised_returns_items props sl d ds _ Hsl Hi) as (H1 & H2 & H3).
    rewrite !Hph. repeat split; try done; try congruence.
    all: intros;
      destruct (realised_returns_items props sl d ds _ Hsl
                  (transitions_realised props sl d ds more _ Hsl Hi))
        as (M1 & M2 & M3); rewrite ?Hph; done.
Qed.

Lemma placeholder_iff_awaiting_first_visibility_witness :
  ∃ s0, mount any_margin example_props example_slots = Normal s0
        ∧ (shows_placeholder
             (transitions example_props
                [entry_for false; entry_for true; entry_for false] s0) = true
           ↔ phase (transitions example_props
                      [entry_for false; entry_for true; entry_for false] s0)
             = AwaitingFirstVisibility).
Proof.
  epose proof (placeholder_iff_awaiting_first_visibility any_margin example_props
                 example_slots {| d_type := TComponent 0; d_data := 0 |}
                 [{| d_type := TElement "p"; d_data := 0 |}] _
                 [entry_for false; entry_for true; entry_for false]
                 eq_refl eq_refl) as (H1 & _).
  eexists. split; [reflexivity | exact H1].
Defined.

(** The restriction to a default slot with an item is needed.  A LazyRender
    mounted with a fallback slot only never sets [currentVNode]: after a
    visible and then a hidden entry the render function returns the
    placeholder again and the placeholder is back on screen, although a
    visible entry has been delivered. *)
Lemma placeholder_returns_without_default_slot :
  ∃ s0, mount any_margin example_props
          {| slot_default := None;
             slot_fallback := Some {| rendered_by := 1; rendered_from := 0 |} |}
        = Normal s0
        ∧ returns_placeholder example_props
            (transitions example_props [entry_for true; entry_for false] s0) = true
        ∧ shows_placeholder
            (transitions example_props [entry_for true; entry_for false] s0) = true
        ∧ ¬ Forall (λ e, isIntersecting e = false) [entry_for true; entry_for false].
Proof.
  eexists. split; [reflexivity|]. split; [by vm_compute|]. split; [by vm_compute|].
  intros H. apply Forall_cons in H as [H _]. by cbn in H.
Qed.

(** ** The tracker follows the target reference *)

Lemma flush_target_watcher_synced (s : State) :
  tracker_consistent s → synced (flush_target_watcher s).
Proof.
  intros [Hc Ht]. unfold flush_target_watcher, synced, tracker_consistent.
  case_decide as He; [by rewrite He|].
  unfold_state_ops. cbn.
  unfold target_watch_job, run_cleanup. rewrite Hc.
  destruct (target_seen (host s)) as [old|] eqn:Hold;
    destruct (containerRef (vars s)) as [new|] eqn:Hnew; cbn; try done.
  - cbn in Ht. rewrite Ht.
    assert (Hf : filter (λ x : Element, x ≠ old) [old] = []).
    { rewrite filter_cons, filter_nil.
      rewrite decide_False; [done | intros Hne; by apply Hne]. }
    rewrite Hf. rewrite decide_False; [done | apply not_elem_of_nil].
  - cbn in Ht. rewrite Ht. rewrite filter_cons, filter_nil.
    rewrite decide_False; [done | intros Hne; by apply Hne].
  - cbn in Ht. rewrite Ht. rewrite decide_False; [done | apply not_elem_of_nil].
Qed.

Lemma render_job_tracker (props : LazyRenderProps) (s : State) :
  tracker (render_job props s) = tracker s
  ∧ target_seen (host (render_job props s)) = target_seen (host s).
Proof.
  unfold render_job.
  pose proof (render_fn_frame props s) as (Hh & Ht & _).
  destruct (render_fn props s) as [r s1]. cbn in Hh, Ht.
  destruct r as [out|e]; cbn.
  - unfold patch_root, mount_wrapper, unmount_mounted. unfold_state_ops.
    repeat case_match; cbn; rewrite ?Hh, ?Ht; done.
  - unfold unmount_mounted. unfold_state_ops.
    repeat case_match; cbn; rewrite ?Hh, ?Ht; done.
Qed.

Lemma flush_synced (props : LazyRenderProps) (s : State) :
  tracker_consistent s → synced (flush props s).
Proof.
  intros Hs. unfold flush, post_render. apply flush_target_watcher_synced.
  set (s1 := if render_dirty (host s) then render_job props s else s).
  assert (H1 : tracker_consistent s1).
  { unfold s1, tracker_consistent in *. destruct (render_dirty (host s)); [|done].
    destruct (render_job_tracker props s) as [-> ->]. done. }
  destruct (flush_target_watcher_synced s1 H1) as [H2 _].
  unfold tracker_consistent in *.
  destruct (flush_visible_watcher_frame (flush_ref (flush_target_watcher s1)))
    as (-> & _ & _ & _ & _ & _ & -> & _).
  destruct (flush_ref_frame (flush_target_watcher s1))
    as (-> & _ & _ & _ & _ & _ & _ & _ & -> & _).
  done.
Qed.

Lemma step_synced (props : LazyRenderProps) (ev : Event) (s : State) :
  synced s → synced (step props ev s).
Proof.
  intros [Hc Hs]. destruct ev; unfold step.
  - unfold synced, tracker_consistent in *.
    destruct entries; cbn; unfold_state_ops; cbn; done.
  - done.
  - done.
  - unfold synced, tracker_consistent in *. unfold_state_ops. cbn. done.
  - by apply flush_synced.
Qed.

Lemma run_synced (props : LazyRenderProps) (evs : list Event) (s : State) :
  synced s → synced (run props evs s).
Proof.
  revert s. induction evs as [|ev evs IH]; intros s Hs; [done|].
  cbn. apply IH. by apply step_synced.
Qed.

Lemma synced_targets (s : State) :
  synced s → targets (observer (tracker s)) = option_list (containerRef (vars s)).
Proof. intros [[_ Ht] Hs]. by rewrite <- Hs. Qed.

(** ** The heap under the renderer *)

Lemma alloc_vnodes_spec (ds : list VNodeDesc) (h : Heap) :
  (alloc_vnodes ds h).1 = seq (next_vnode h) (length ds)
  ∧ next_vnode (alloc_vnodes ds h).2 = next_vnode h + length ds
  ∧ instances (alloc_vnodes ds h).2 = instances h
  ∧ next_instance (alloc_vnodes ds h).2 = next_instance h
  ∧ next_element (alloc_vnodes ds h).2 = next_element h
  ∧ created (alloc_vnodes ds h).2 = created h
  ∧ destroyed (alloc_vnodes ds h).2 = destroyed h
  ∧ (∀ k, k < next_vnode h → vnodes (alloc_vnodes ds h).2 !! k = vnodes h !! k)
  ∧ lookups (alloc_vnodes ds h).2 (alloc_vnodes ds h).1 = Some ∘ fresh_vnode <$> ds.
Proof.
  revert h. induction ds as [|d ds IH]; intros h.
  - cbn. repeat split; try done; lia.
  - cbn [alloc_vnodes]. unfold alloc_vnode.
    match goal with |- context [alloc_vnodes ds ?h1] =>
      specialize (IH h1); destruct (alloc_vnodes ds h1) as [ns h2] end.
    cbn in IH |- *.
    destruct IH as (I1 & I2 & I3 & I4 & I5 & I6 & I7 & I8 & I9).
    repeat split; try done.
    + by rewrite I1.
    + lia.
    + intros k Hk. rewrite I8 by lia. apply lookup_insert_ne. lia.
    + unfold lookups in *. cbn. rewrite I9. f_equal.
      rewrite I8 by lia. apply lookup_insert_eq.
Qed.

Lemma realises_reuse (x : VNode) (d : VNodeDesc) :
  realises x d → set_component_el (component x) (el x) (fresh_vnode d) = x.
Proof. intros [Ht Hd]. destruct x; cbn in *. by subst. Qed.

Lemma patch_vnode_reuse (o n : nat) (h : Heap) (x : VNode) (d : VNodeDesc) :
  vnodes h !! o = Some x →
  vnodes h !! n = Some (fresh_vnode d) →
  realises x d →
  patch_vnode o n h = set_vnodes (insert n x) h.
Proof.
  intros Ho Hn Hr. unfold patch_vnode. rewrite Ho, Hn.
  rewrite (realises_reuse x d Hr).
  destruct Hr as [Ht Hd]. cbn.
  rewrite decide_True by done.
  destruct (component x); [|done].
  by rewrite decide_True.
Qed.

Lemma lookups_insert_ne (h h1 : Heap) (vs : list nat) (n : nat) (x : VNode) :
  vnodes h1 = <[n := x]> (vnodes h) →
  n ∉ vs → lookups h1 vs = lookups h vs.
Proof.
  intros Hv Hn. unfold lookups. rewrite Hv.
  induction vs as [|v vs IH]; [done|].
  cbn. rewrite not_elem_of_cons in Hn. destruct Hn as [Hne Hn].
  rewrite lookup_insert_ne by done. f_equal. by apply IH.
Qed.

Lemma patch_children_reuse (xs : list VNode) :
  ∀ (ds : list VNodeDesc) (olds news : list nat) (h : Heap),
    lookups h olds = Some <$> xs →
    lookups h news = Some ∘ fresh_vnode <$> ds →
    Forall2 realises xs ds →
    NoDup news →
    (∀ o, o ∈ olds → o ∉ news) →
    instances (patch_children olds news h) = instances h
    ∧ created (patch_children olds news h) = created h
    ∧ destroyed (patch_children olds news h) = destroyed h
    ∧ next_vnode (patch_children olds news h) = next_vnode h
    ∧ (∀ k, k ∉ news → vnodes (patch_children olds news h) !! k = vnodes h !! k)
    ∧ lookups (patch_children olds news h) news = Some <$> xs.
Proof.
  induction xs as [|x xs IH]; intros ds olds news h Ho Hn Hr Hnd Hdis.
  - apply Forall2_nil_inv_l in Hr as ->.
    destruct olds; [|done]. destruct news; [|done]. cbn. done.
  - apply Forall2_cons_inv_l in Hr as (d & ds' & Hxd & Hr & ->).
    destruct olds as [|o olds]; [done|]. destruct news as [|n news]; [done|].
    unfold lookups in Ho, Hn. cbn in Ho, Hn.
    injection Ho as Ho Hos. injection Hn as Hn Hns.
    apply NoDup_cons in Hnd as [Hnn Hnd].
    cbn [patch_children]. rewrite (patch_vnode_reuse o n h x d Ho Hn Hxd).
    set (h1 := set_vnodes (insert n x) h).
    destruct (IH ds' olds news h1) as (I1 & I2 & I3 & I4 & I5 & I6); try done.
    + rewrite (lookups_insert_ne h h1 olds n x); [done | done |].
      intros Hin. apply (Hdis n); [by right | by left].
    + by rewrite (lookups_insert_ne h h1 news n x).
    + intros o' Ho' Hin. apply (Hdis o'); [by right | by right].
    + repeat split; try done.
      * intros k Hk. rewrite not_elem_of_cons in Hk. destruct Hk as [Hkn Hk].
        rewrite I5 by done. unfold h1. cbn. by apply lookup_insert_ne.
      * unfold lookups in *. cbn. rewrite I6. f_equal.
        rewrite I5 by done. unfold h1. cbn. apply lookup_insert_eq.
Qed.

Lemma mount_vnode_fresh (n : nat) (h : Heap) (d : VNodeDesc) :
  vnodes h !! n = Some (fresh_vnode d) →
  ∃ x, vnodes (mount_vnode n h) = <[n := x]> (vnodes h)
       ∧ realises x d
       ∧ el x = Some (next_element h)
       ∧ next_element (mount_vnode n h) = S (next_element h)
       ∧ created (mount_vnode n h) = created h ++ omap component [x]
       ∧ destroyed (mount_vnode n h) = destroyed h
       ∧ next_vnode (mount_vnode n h) = next_vnode h.
Proof.
  intros Hn. unfold mount_vnode. rewrite Hn. cbn.
  destruct (d_type d) eqn:Hd; eexists; (split; [reflexivity|]);
    unfold realises; cbn; rewrite ?Hd, ?app_nil_r; eauto 10.
Qed.

Lemma mount_children_spec (ds : list VNodeDesc) :
  ∀ (news : list nat) (h : Heap),
    lookups h news = Some ∘ fresh_vnode <$> ds →
    NoDup news →
    ∃ xs, lookups (mount_children news h) news = Some <$> xs
          ∧ Forall2 realises xs ds
          ∧ Forall (λ x, ∃ e, el x = Some e ∧ (next_element h ≤ e)%nat) xs
          ∧ created (mount_children news h) = created h ++ omap component xs
          ∧ destroyed (mount_children news h) = destroyed h
          ∧ next_vnode (mount_children news h) = next_vnode h
          ∧ (∀ k, k ∉ news → vnodes (mount_children news h) !! k = vnodes h !! k).
Proof.
  induction ds as [|d ds IH]; intros news h Hn Hnd.
  - destruct news; [|done]. exists []. cbn. rewrite app_nil_r. done.
  - destruct news as [|n news]; [done|].
    unfold lookups in Hn. cbn in Hn. injection Hn as Hn Hns.
    apply NoDup_cons in Hnd as [Hnn Hnd].
    destruct (mount_vnode_fresh n h d Hn) as (x & Hv & Hx & He & Hne & Hc & Hd & Hnv).
    unfold mount_children. cbn [fold_left]. fold (mount_children news (mount_vnode n h)).
    destruct (IH news (mount_vnode n h)) as (xs & I1 & I2 & I3 & I4 & I5 & I6 & I7);
      [by rewrite (lookups_insert_ne h _ news n x)|done|].
    exists (x :: xs). repeat split.
    + unfold lookups in *. cbn. rewrite I1. f_equal.
      rewrite I7 by done. rewrite Hv. apply lookup_insert_eq.
    + by constructor.
    + constructor; [by eauto|].
      eapply Forall_impl; [exact I3|]. cbn. intros y (e & Hy & Hle).
      exists e. split; [done | lia].
    + rewrite I4, Hc. cbn. destruct (component x); cbn; by rewrite <- app_assoc.
    + by rewrite I5.
    + by rewrite I6.
    + intros k Hk. rewrite not_elem_of_cons in Hk. destruct Hk as [Hkn Hk].
      rewrite I7 by done. rewrite Hv. by apply lookup_insert_ne.
Qed.

(** ** From mounting to the first visibility and beyond *)

Lemma mount_waiting pm (props : LazyRenderProps) (sl : Slots) (s0 : State) :
  mount pm props sl = Normal s0 → ∃ ew, waiting sl ew s0.
Proof.
  intros Hm. exists 0. split; [by eapply mount_awaiting|].
  unfold mount, setup, useIntersectionObserver, new_IntersectionObserver in Hm.
  assert (s0 = flush props
            (setup_state {| isVisible := false;
                            observer := {| targets := []; calls := [] |};
                            cleanup := None |} sl)) as ->.
  { repeat case_match; cbn in Hm; try done; by injection Hm as <-. }
  vm_compute. repeat split; eauto.
Qed.

Lemma post_render_settled (sl : Slots) (xs : list VNode) (vs : list nat) (a : State) :
  tracker_consistent a →
  pending_ref (host a) = None →
  render_dirty (host a) = false →
  slots (host a) = sl →
  mounted (host a) = MountedItems vs →
  currentVNode (vars a) = head vs →
  Forall (λ v, v < next_vnode (heap a)) vs →
  lookups (heap a) vs = Some <$> xs →
  (∃ ds, slot_default sl = Some ds ∧ Forall2 realises xs ds) →
  Forall (λ x, is_Some (el x)) xs →
  xs ≠ [] →
  created (heap a) = omap component xs →
  destroyed (heap a) = [] →
  isVisible (tracker a) ≠ visible_seen (host a) →
  settled sl xs
    (flush_target_watcher (flush_visible_watcher (flush_ref (flush_target_watcher a)))).
Proof.
  intros Htc Hp Hd Hs Hm Hc Hlt Hl Hds Hel Hne Hcr Hde Hvis.
  pose proof (flush_target_watcher_synced a Htc) as [Hb _].
  destruct (flush_target_watcher_frame a)
    as (B1 & B2 & B3 & B4 & B5 & B6 & B7 & B8 & _ & _).
  set (b := flush_target_watcher a) in *.
  rewrite (flush_ref_none b) by (by rewrite B8).
  destruct (flush_visible_watcher_frame b)
    as (C1 & C2 & C3 & C4 & C5 & C6 & C7 & _ & C9 & C10 & C11 & C12 & C13).
  destruct xs as [|x xs']; [done|]. destruct vs as [|v vs']; [done|].
  unfold lookups in Hl. cbn in Hl. injection Hl as Hv Hl'.
  assert (C14 : containerRef (vars (flush_visible_watcher b)) = el x).
  { apply (flush_visible_watcher_containerRef b v x).
    - by rewrite B3, B7.
    - by rewrite B1, Hc.
    - by rewrite B2. }
  set (c := flush_visible_watcher b) in *.
  assert (Hcc : tracker_consistent c).
  { unfold tracker_consistent in *. by rewrite C1, C7. }
  pose proof (flush_target_watcher_synced c Hcc) as Hsync.
  destruct (flush_target_watcher_frame c)
    as (D1 & D2 & D3 & D4 & D5 & D6 & D7 & D8 & _ & _).
  unfold settled. rewrite D1, D2, D3, D4, D5, D6, D7, D8.
  rewrite C2, C3, C4, C5, C6, C9, C11, C12, C13, C14, C1.
  rewrite B1, B2, B4, B5, B6, B8.
  repeat split; try done.
  - apply Hsync.
  - apply Hsync.
  - apply Hsync.
  - exists (v :: vs'). repeat split; try done.
    unfold lookups. rewrite C10, B2. cbn. by rewrite Hv, <- Hl'.
Qed.

Lemma deliver_one_rest (props : LazyRenderProps) (e : IntersectionObserverEntry) (s : State) :
  observer (tracker (step props (Deliver [e]) s)) = observer (tracker s)
  ∧ cleanup (tracker (step props (Deliver [e]) s)) = cleanup (tracker s)
  ∧ target_seen (host (step props (Deliver [e]) s)) = target_seen (host s)
  ∧ pending_ref (host (step props (Deliver [e]) s)) = pending_ref (host s)
  ∧ visible_seen (host (step props (Deliver [e]) s)) = visible_seen (host s).
Proof. unfold step. cbn. unfold_state_ops. cbn. done. Qed.

Lemma render_fn_items (props : LazyRenderProps) (s : State) (ds : list VNodeDesc) :
  slot_default (slots (host s)) = Some ds →
  isVisible (tracker s) = true ∨ currentVNode (vars s) ≠ None →
  render_fn props s
  = (Normal (Items (alloc_vnodes ds (heap s)).1),
     set_vars (set_currentVNode (head (alloc_vnodes ds (heap s)).1))
       (set_heap (λ _, (alloc_vnodes ds (heap s)).2) s)).
Proof.
  intros Hs Hor. unfold render_fn. rewrite Hs.
  assert (negb (isVisible (tracker s))
          && negb (bool_decide (is_Some (currentVNode (vars s)))) = false) as ->.
  { destruct Hor as [-> | Hc]; [done|].
    destruct (currentVNode (vars s)); [|done].
    rewrite bool_decide_true by eauto. by rewrite andb_false_r. }
  by destruct (alloc_vnodes ds (heap s)).
Qed.

Lemma render_job_first (props : LazyRenderProps) (s : State) (ds : list VNodeDesc)
    (t : string) (e : Element) (ch : option Tree) :
  slot_default (slots (host s)) = Some ds →
  isVisible (tracker s) = true ∨ currentVNode (vars s) ≠ None →
  mounted (host s) = MountedWrapper t e ch →
  render_job props s
  = set_host (set_render_dirty false)
      (set_host (set_mounted (MountedItems (alloc_vnodes ds (heap s)).1))
         (set_heap (mount_children (alloc_vnodes ds (heap s)).1)
            (set_vars (set_containerRef None)
               (set_vars (set_currentVNode (head (alloc_vnodes ds (heap s)).1))
                  (set_heap (λ _, (alloc_vnodes ds (heap s)).2) s))))).
Proof.
  intros Hs Hor Hm. unfold render_job.
  rewrite (render_fn_items props s ds Hs Hor).
  unfold patch_root, unmount_mounted. cbn [host set_vars set_heap]. by rewrite Hm.
Qed.

Lemma render_job_next (props : LazyRenderProps) (s : State) (ds : list VNodeDesc)
    (olds : list nat) :
  slot_default (slots (host s)) = Some ds →
  isVisible (tracker s) = true ∨ currentVNode (vars s) ≠ None →
  mounted (host s) = MountedItems olds →
  render_job props s
  = set_host (set_render_dirty false)
      (set_host (set_mounted (MountedItems (alloc_vnodes ds (heap s)).1))
         (set_heap (patch_children olds (alloc_vnodes ds (heap s)).1)
            (set_vars (set_currentVNode (head (alloc_vnodes ds (heap s)).1))
               (set_heap (λ _, (alloc_vnodes ds (heap s)).2) s)))).
Proof.
  intros Hs Hor Hm. unfold render_job.
  rewrite (render_fn_items props s ds Hs Hor).
  unfold patch_root. cbn [host set_vars set_heap]. by rewrite Hm.
Qed.

Lemma seq_lt (n len : nat) : Forall (λ v, v < n + len) (seq n len).
Proof. apply Forall_forall. intros v Hv. apply elem_of_seq in Hv. lia. Qed.

Lemma transition_waiting_visible (props : LazyRenderProps) (sl : Slots) (ew : Element)
    (d : VNodeDesc) (ds : list VNodeDesc) (e : IntersectionObserverEntry) (s : State) :
  slot_default sl = Some (d :: ds) →
  waiting sl ew s →
  isIntersecting e = true →
  ∃ xs, settled sl xs (transition props e s)
        ∧ Forall (λ x, ∃ e', el x = Some e' ∧ (ew < e')%nat) xs.
Proof.
  intros Hsl ((Hv & Hc & _ & Hd & Hs) & ((Hcl & Htg) & Hsy) & Hp & Hvs
              & (t & ch & Hm) & Href & Hew & Hcr & Hde) He.
  unfold transition.
  destruct (deliver_one props e s) as (D1 & D2 & D3 & D4 & D5 & D6).
  destruct (deliver_one_rest props e s) as (E1 & E2 & E3 & E4 & E5).
  set (s' := step props (Deliver [e]) s) in *.
  unfold flush, post_render. rewrite D6, Hd, Hv, He. cbn [orb negb eqb].
  rewrite (render_job_first props s' (d :: ds) t ew ch);
    [| by rewrite D5, Hs | left; by rewrite D1 | by rewrite D4].
  destruct (alloc_vnodes_spec (d :: ds) (heap s'))
    as (A1 & A2 & A3 & A4 & A5 & A6 & A7 & A8 & A9).
  set (news := (alloc_vnodes (d :: ds) (heap s')).1) in *.
  set (h1 := (alloc_vnodes (d :: ds) (heap s')).2) in *.
  destruct (mount_children_spec (d :: ds) news h1 A9)
    as (xs & M1 & M2 & M3 & M4 & M5 & M6 & M7).
  { rewrite A1. apply NoDup_seq. }
  assert (M3' : Forall (λ x, ∃ e', el x = Some e' ∧ (ew < e')%nat) xs).
  { eapply Forall_impl; [exact M3|]. cbn. intros y (e' & Hy & Hle).
    exists e'. split; [done|]. rewrite A5, D3 in Hle. lia. }
  exists xs. split; [|done].
  apply (post_render_settled sl xs news); unfold_state_ops; cbn.
  - unfold tracker_consistent. cbn. by rewrite E1, E2, E3.
  - by rewrite E4.
  - done.
  - by rewrite D5.
  - done.
  - done.
  - rewrite M6, A2, A1. apply seq_lt.
  - done.
  - eauto.
  - eapply Forall_impl; [exact M3|]. cbn. intros y (e' & -> & _). eauto.
  - intros ->. by apply Forall2_nil_inv_l in M2.
  - by rewrite M4, A6, D3, Hcr.
  - by rewrite M5, A7, D3.
  - by rewrite D1, E5, Hvs, He.
Qed.

Lemma flush_quiet (props : LazyRenderProps) (s : State) :
  render_dirty (host s) = false →
  target_seen (host s) = containerRef (vars s) →
  pending_ref (host s) = None →
  visible_seen (host s) = isVisible (tracker s) →
  flush props s = s.
Proof.
  intros Hd Ht Hp Hv. unfold flush, post_render. rewrite Hd.
  assert (Hw : flush_target_watcher s = s).
  { unfold flush_target_watcher. by rewrite decide_True. }
  rewrite Hw, (flush_ref_none s Hp).
  assert (Hvw : flush_visible_watcher s = s).
  { unfold flush_visible_watcher. by rewrite decide_True. }
  by rewrite Hvw, Hw.
Qed.

Lemma transition_waiting_hidden (props : LazyRenderProps) (sl : Slots) (ew : Element)
    (e : IntersectionObserverEntry) (s : State) :
  waiting sl ew s →
  isIntersecting e = false →
  waiting sl ew (transition props e s).
Proof.
  intros ((Hv & Hc & Hsp & Hd & Hs) & ((Hcl & Htg) & Hsy) & Hp & Hvs
          & (t & ch & Hm) & Href & Hew & Hcr & Hde) He.
  unfold transition.
  destruct (deliver_one props e s) as (D1 & D2 & D3 & D4 & D5 & D6).
  destruct (deliver_one_rest props e s) as (E1 & E2 & E3 & E4 & E5).
  rewrite Hd, Hv, He in D6. cbn in D6.
  rewrite flush_quiet;
    [| done | by rewrite E3, D2 | by rewrite E4 | by rewrite E5, D1, Hvs, He].
  unfold waiting, awaiting_inv, synced, tracker_consistent, shows_placeholder.
  rewrite D1, D2, D3, D4, D5, D6, E1, E2, E3, E4, E5.
  unfold shows_placeholder in Hsp.
  repeat split; try done. by exists t, ch.
Qed.

Lemma transition_settled (props : LazyRenderProps) (sl : Slots) (xs : list VNode)
    (e : IntersectionObserverEntry) (s : State) :
  xs ≠ [] →
  settled sl xs s →
  settled sl xs (transition props e s).
Proof.
  intros Hne (Hs & Hd & Hp & Hvs & ((Hcl & Htg) & Hsy)
              & (vs & Hm & Hc & Hlt & Hl) & (ds & Hsl & Hr) & Hel & Href & Hcr & Hde).
  unfold transition.
  destruct (deliver_one props e s) as (D1 & D2 & D3 & D4 & D5 & D6).
  destruct (deliver_one_rest props e s) as (E1 & E2 & E3 & E4 & E5).
  rewrite Hd in D6. cbn [orb] in D6.
  destruct (eqb (isIntersecting e) (isVisible (tracker s))) eqn:Heq; cbn in D6.
  - apply eqb_prop in Heq.
    rewrite flush_quiet;
      [| done | by rewrite E3, D2 | by rewrite E4 | by rewrite E5, D1, Hvs].
    unfold settled, synced, tracker_consistent.
    rewrite D1, D2, D3, D4, D5, D6, E1, E2, E3, E4, E5.
    repeat split; try done; eauto; congruence.
  - apply eqb_false_iff in Heq.
    set (s' := step props (Deliver [e]) s) in *.
    assert (Hcur : currentVNode (vars s') ≠ None).
    { rewrite D2, Hc. destruct vs; [|done].
      unfold lookups in Hl. cbn in Hl. by destruct xs. }
    unfold flush, post_render. rewrite D6.
    rewrite (render_job_next props s' ds vs);
      [| by rewrite D5, Hs | by right | by rewrite D4].
    destruct (alloc_vnodes_spec ds (heap s'))
      as (A1 & A2 & A3 & A4 & A5 & A6 & A7 & A8 & A9).
    set (news := (alloc_vnodes ds (heap s')).1) in *.
    set (h1 := (alloc_vnodes ds (heap s')).2) in *.
    assert (Hold : lookups h1 vs = Some <$> xs).
    { rewrite <- Hl. unfold lookups.
      rewrite <- D3. clear -A8 Hlt D3. rewrite <- D3 in Hlt.
      induction Hlt as [|v vs' Hv Hall IH]; [done|].
      cbn. f_equal; [by apply A8 | apply IH]. }
    destruct (patch_children_reuse xs ds vs news h1 Hold A9 Hr)
      as (P1 & P2 & P3 & P4 & P5 & P6).
    { rewrite A1. apply NoDup_seq. }
    { intros o Ho Hin. rewrite A1 in Hin. apply elem_of_seq in Hin.
      rewrite Forall_forall in Hlt. specialize (Hlt o Ho). rewrite D3 in Hin. lia. }
    apply (post_render_settled sl xs news); unfold_state_ops; cbn.
    + unfold tracker_consistent. cbn. by rewrite E1, E2, E3.
    + by rewrite E4.
    + done.
    + by rewrite D5.
    + done.
    + done.
    + rewrite P4, A2, A1. apply seq_lt.
    + done.
    + eauto.
    + done.
    + done.
    + by rewrite P2, A6, D3.
    + by rewrite P3, A7, D3.
    + by rewrite D1, E5, Hvs.
Qed.

Lemma transitions_settled (props : LazyRenderProps) (sl : Slots) (xs : list VNode)
    (entries : list IntersectionObserverEntry) (s : State) :
  xs ≠ [] →
  settled sl xs s →
  settled sl xs (transitions props entries s).
Proof.
  intros Hne. revert s. induction entries as [|e es IH]; intros s Hs; [done|].
  cbn. apply IH. by apply transition_settled.
Qed.

Lemma settled_nonempty (sl : Slots) (xs : list VNode) (d : VNodeDesc)
    (ds : list VNodeDesc) (s : State) :
  slot_default sl = Some (d :: ds) → settled sl xs s → xs ≠ [].
Proof.
  intros Hsl (_ & _ & _ & _ & _ & _ & (ds' & Hsl' & Hr) & _) ->.
  rewrite Hsl in Hsl'. injection Hsl' as <-. by apply Forall2_nil_inv_l in Hr.
Qed.

Lemma transitions_waiting (props : LazyRenderProps) (sl : Slots) (ew : Element)
    (d : VNodeDesc) (ds : list VNodeDesc)
    (entries : list IntersectionObserverEntry) (s : State) :
  slot_default sl = Some (d :: ds) →
  waiting sl ew s →
  (Forall (λ e, isIntersecting e = false) entries
   ∧ waiting sl ew (transitions props entries s))
  ∨ (Exists (λ e, isIntersecting e = true) entries
     ∧ ∃ xs, settled sl xs (transitions props entries s)
             ∧ Forall (λ x, ∃ e', el x = Some e' ∧ (ew < e')%nat) xs).
Proof.
  intros Hsl. revert s. induction entries as [|e es IH]; intros s Hw.
  - left. by split.
  - cbn. destruct (isIntersecting e) eqn:He.
    + right. split; [by left|].
      destruct (transition_waiting_visible props sl ew d ds e s Hsl Hw He)
        as (xs & Hx & Hel).
      exists xs. split; [|done]. apply transitions_settled; [|done].
      by eapply settled_nonempty.
    + destruct (IH _ (transition_waiting_hidden props sl ew e s Hw He))
        as [[Hall Hi] | [Hex Hi]].
      * left. split; [by constructor | done].
      * right. split; [by right | done].
Qed.

(** ** The observed target *)

(** C10. The wrapper element [ew] is the target reference and the only
    observed element as long as only hidden entries have been delivered.
    Once a visible entry has been delivered, the target reference is the
    root element of the first item of the real subtree, a different
    element from the wrapper, and that element is the only one observed,
    through all further transitions.  In every state reached by any
    events the observer's targets are exactly the element the target
    reference holds, so nothing is observed while it is null. *)
Theorem observed_target_is_wrapper_then_real_root pm (props : LazyRenderProps)
    (sl : Slots) (d : VNodeDesc) (ds : list VNodeDesc) (s0 : State) :
  mount pm props sl = Normal s0 →
  slot_default sl = Some (d :: ds) →
  ∃ ew,
    (∀ entries,
       Forall (λ e, isIntersecting e = false) entries →
       (∃ t ch, mounted (host (transitions props entries s0)) = MountedWrapper t ew ch)
       ∧ containerRef (vars (transitions props entries s0)) = Some ew
       ∧ targets (observer (tracker (transitions props entries s0))) = [ew])
    ∧ (∀ entries,
         Exists (λ e, isIntersecting e = true) entries →
         ∃ x e,
           head (on_screen (transitions props entries s0)) = Some (Some x)
           ∧ el x = Some e
           ∧ e ≠ ew
           ∧ containerRef (vars (transitions props entries s0)) = Some e
           ∧ targets (observer (tracker (transitions props entries s0))) = [e])
    ∧ (∀ evs,
         targets (observer (tracker (run props evs s0)))
         = option_list (containerRef (vars (run props evs s0)))).
Proof.
  intros Hm Hsl.
  destruct (mount_waiting pm props sl s0 Hm) as (ew & Hw).
  exists ew. repeat split.
  - destruct (transitions_waiting props sl ew d ds entries s0 Hsl Hw)
      as [[_ Hwb] | [Hexb _]].
    + by destruct Hwb as (_ & _ & _ & _ & Hmt & _).
    + exfalso. apply Exists_exists in Hexb as (e & Hin & He).
      rewrite Forall_forall in H. specialize (H e Hin). congruence.
  - destruct (transitions_waiting props sl ew d ds entries s0 Hsl Hw)
      as [[_ Hwb] | [Hexb _]].
    + by destruct Hwb as (_ & _ & _ & _ & _ & Href & _).
    + exfalso. apply Exists_exists in Hexb as (e & Hin & He).
      rewrite Forall_forall in H. specialize (H e Hin). congruence.
  - destruct (transitions_waiting props sl ew d ds entries s0 Hsl Hw)
      as [[_ Hwb] | [Hexb _]].
    + destruct Hwb as (_ & Hsy & _ & _ & _ & Href & _).
      by rewrite (synced_targets _ Hsy), Href.
    + exfalso. apply Exists_exists in Hexb as (e & Hin & He).
      rewrite Forall_forall in H. specialize (H e Hin). congruence.
  - intros entries Hex.
    destruct (transitions_waiting props sl ew d ds entries s0 Hsl Hw)
      as [[Hall _] | [_ (xs & Hs & Hel)]].
    { exfalso. apply Exists_exists in Hex as (e & Hin & He).
      rewrite Forall_forall in Hall. specialize (Hall e Hin). congruence. }
    pose proof (settled_nonempty sl xs d ds _ Hsl Hs) as Hne.
    destruct Hs as (_ & _ & _ & _ & Hsy & (vs & Hmt & _ & _ & Hl) & _ & _ & Href & _).
    destruct xs as [|x xs]; [done|].
    apply Forall_cons in Hel as [(e & Hx & Hlt) _].
    exists x, e. unfold on_screen. rewrite Hmt, Hl.
    rewrite (synced_targets _ Hsy), Href. cbn. rewrite Hx.
    repeat split; try done. lia.
  - intros evs. apply synced_targets, run_synced.
    by destruct Hw as (_ & Hsy & _).
Qed.

Lemma observed_target_is_wrapper_then_real_root_witness :
  ∃ s0, mount any_margin example_props example_slots = Normal s0
        ∧ ∃ ew,
            targets (observer (tracker (transitions example_props [entry_for false] s0)))
            = [ew]
            ∧ ∃ e, e ≠ ew
                   ∧ targets (observer (tracker
                        (transitions example_props [entry_for true; entry_for false] s0)))
                     = [e].
Proof.
  epose proof (observed_target_is_wrapper_then_real_root any_margin example_props
                 example_slots {| d_type := TComponent 0; d_data := 0 |}
                 [{| d_type := TElement "p"; d_data := 0 |}] _ eq_refl eq_refl)
    as (ew & H1 & H2 & _).
  eexists. split; [reflexivity|].
  exists ew.
  destruct (H1 [entry_for false]) as (_ & _ & T1); [by repeat constructor|].
  destruct (H2 [entry_for true; entry_for false]) as (x & e & _ & _ & Hne & _ & T2);
    [by left|].
  split; [exact T1|]. exists e. split; [exact Hne | exact T2].
Defined.

(** ** Freezing and unfreezing *)

Lemma update_instance_other (c k : nat) (h : Heap) :
  k ≠ c → instances (update_instance k h) !! c = instances h !! c.
Proof.
  intros Hk. unfold update_instance, set_instances.
  repeat case_match; cbn; try done. by rewrite lookup_insert_ne.
Qed.

Lemma update_instance_frame (k : nat) (h : Heap) :
  vnodes (update_instance k h) = vnodes h
  ∧ next_vnode (update_instance k h) = next_vnode h
  ∧ next_instance (update_instance k h) = next_instance h
  ∧ created (update_instance k h) = created h
  ∧ destroyed (update_instance k h) = destroyed h.
Proof. unfold update_instance, set_instances. repeat case_match; cbn; done. Qed.

Lemma mount_vnode_avoids (c : nat) (S : list nat) (n : nat) (h : Heap) :
  avoids c S h →
  avoids c S (mount_vnode n h)
  ∧ instances (mount_vnode n h) !! c = instances h !! c
  ∧ (∀ k, k ≠ n → vnodes (mount_vnode n h) !! k = vnodes h !! k)
  ∧ next_vnode (mount_vnode n h) = next_vnode h
  ∧ destroyed (mount_vnode n h) = destroyed h.
Proof.
  intros [Hc Hav]. unfold mount_vnode, avoids.
  destruct (vnodes h !! n) as [vn|] eqn:Hn; [|done].
  destruct (v_type vn); cbn.
  - repeat split; try done.
    + lia.
    + intros k y Hk Hy. destruct (decide (k = n)) as [->|Hne].
      * rewrite lookup_insert_eq in Hy. injection Hy as <-. cbn. intros [=]. lia.
      * rewrite lookup_insert_ne in Hy by done. eauto.
    + apply lookup_insert_ne. lia.
    + intros k Hk. by apply lookup_insert_ne.
  - repeat split; try done.
    + intros k y Hk Hy. destruct (decide (k = n)) as [->|Hne].
      * rewrite lookup_insert_eq in Hy. by injection Hy as <-.
      * rewrite lookup_insert_ne in Hy by done. eauto.
    + intros k Hk. by apply lookup_insert_ne.
Qed.

Lemma unmount_vnode_avoids (c : nat) (S : list nat) (o : nat) (h : Heap) :
  o ∈ S →
  avoids c S h →
  c ∉ destroyed h →
  avoids c S (unmount_vnode o h)
  ∧ instances (unmount_vnode o h) = instances h
  ∧ vnodes (unmount_vnode o h) = vnodes h
  ∧ next_vnode (unmount_vnode o h) = next_vnode h
  ∧ c ∉ destroyed (unmount_vnode o h).
Proof.
  intros Ho [Hc Hav] Hd. unfold unmount_vnode, avoids.
  destruct (vnodes h !! o) as [[ty da [c'|] e]|] eqn:Hn; cbn; try done.
  repeat split; try done.
  rewrite not_elem_of_app. split; [done|].
  rewrite list_elem_of_singleton. intros ->.
  by apply (Hav o _ Ho Hn).
Qed.

Lemma patch_vnode_avoids (c : nat) (S : list nat) (o n : nat) (h : Heap) :
  o ∈ S →
  avoids c S h →
  c ∉ destroyed h →
  avoids c S (patch_vnode o n h)
  ∧ instances (patch_vnode o n h) !! c = instances h !! c
  ∧ (∀ k, k ≠ n → vnodes (patch_vnode o n h) !! k = vnodes h !! k)
  ∧ next_vnode (patch_vnode o n h) = next_vnode h
  ∧ c ∉ destroyed (patch_vnode o n h).
Proof.
  intros Ho Hav Hd. unfold patch_vnode.
  destruct (vnodes h !! o) as [vo|] eqn:Hvo; [|done].
  destruct (vnodes h !! n) as [vn|] eqn:Hvn; [|done].
  case_decide as Hty.
  - pose proof (proj2 Hav o vo Ho Hvo) as Hne.
    set (h1 := set_vnodes (insert n (set_component_el (component vo) (el vo) vn)) h).
    assert (H1 : avoids c S h1
                 ∧ instances h1 !! c = instances h !! c
                 ∧ (∀ k, k ≠ n → vnodes h1 !! k = vnodes h !! k)
                 ∧ next_vnode h1 = next_vnode h
                 ∧ c ∉ destroyed h1).
    { unfold h1, avoids, set_vnodes. cbn. repeat split; try done.
      - apply Hav.
      - intros k y Hk Hy. destruct (decide (k = n)) as [->|Hkn].
        + rewrite lookup_insert_eq in Hy. by injection Hy as <-.
        + rewrite lookup_insert_ne in Hy by done. by apply (proj2 Hav k y).
      - intros k Hk. by apply lookup_insert_ne. }
    destruct (component vo) as [c'|] eqn:Hc'; [|done].
    case_decide; [done|].
    assert (Hcc : c' ≠ c) by congruence.
    destruct H1 as ([A1 A2] & A3 & A4 & A5 & A6).
    destruct (update_instance_frame c' (set_instances (alter (set_data (v_data vn)) c') h1))
      as (U1 & U2 & U3 & U4 & U5).
    unfold avoids. rewrite U1, U2, U3, U5.
    rewrite update_instance_other by done. cbn.
    rewrite lookup_alter_ne by done.
    repeat split; done.
  - destruct (unmount_vnode_avoids c S o h Ho Hav Hd) as (B1 & B2 & B3 & B4 & B5).
    destruct (mount_vnode_avoids c S n _ B1) as (C1 & C2 & C3 & C4 & C5).
    rewrite C2, C4, C5, B2, B4. repeat split; try done.
    + apply C1.
    + apply C1.
    + intros k Hk. rewrite C3 by done. by rewrite B3.
Qed.

Lemma mount_children_avoids (c : nat) (S : list nat) (news : list nat) :
  ∀ h, avoids c S h →
       avoids c S (mount_children news h)
       ∧ instances (mount_children news h) !! c = instances h !! c
       ∧ (∀ k, k ∉ news → vnodes (mount_children news h) !! k = vnodes h !! k)
       ∧ next_vnode (mount_children news h) = next_vnode h
       ∧ destroyed (mount_children news h) = destroyed h.
Proof.
  induction news as [|n news IH]; intros h Hav; [done|].
  unfold mount_children. cbn [fold_left]. fold (mount_children news (mount_vnode n h)).
  destruct (mount_vnode_avoids c S n h Hav) as (A1 & A2 & A3 & A4 & A5).
  destruct (IH _ A1) as (B1 & B2 & B3 & B4 & B5).
  rewrite B2, B4, B5, A2, A4, A5. repeat split; try done.
  - apply B1.
  - apply B1.
  - intros k Hk. rewrite not_elem_of_cons in Hk. destruct Hk as [Hkn Hk].
    rewrite B3 by done. by apply A3.
Qed.

Lemma unmount_children_avoids (c : nat) (S : list nat) (olds : list nat) :
  ∀ h, (∀ o, o ∈ olds → o ∈ S) →
       avoids c S h →
       c ∉ destroyed h →
       avoids c S (unmount_children olds h)
       ∧ instances (unmount_children olds h) = instances h
       ∧ vnodes (unmount_children olds h) = vnodes h
       ∧ next_vnode (unmount_children olds h) = next_vnode h
       ∧ c ∉ destroyed (unmount_children olds h).
Proof.
  induction olds as [|o olds IH]; intros h Hin Hav Hd; [done|].
  unfold unmount_children. cbn [fold_left].
  fold (unmount_children olds (unmount_vnode o h)).
  destruct (unmount_vnode_avoids c S o h (Hin o ltac:(by left)) Hav Hd)
    as (A1 & A2 & A3 & A4 & A5).
  destruct (IH (unmount_vnode o h)) as (B1 & B2 & B3 & B4 & B5); try done.
  { intros o' Ho'. apply Hin. by right. }
  rewrite B2, B3, B4, A2, A3, A4. done.
Qed.

Lemma patch_children_avoids (c : nat) (S : list nat) (olds : list nat) :
  ∀ news h,
    (∀ o, o ∈ olds → o ∈ S) →
    avoids c S h →
    c ∉ destroyed h →
    avoids c S (patch_children olds news h)
    ∧ instances (patch_children olds news h) !! c = instances h !! c
    ∧ (∀ k, k ∉ news → vnodes (patch_children olds news h) !! k = vnodes h !! k)
    ∧ next_vnode (patch_children olds news h) = next_vnode h
    ∧ c ∉ destroyed (patch_children olds news h).
Proof.
  induction olds as [|o olds IH]; intros news h Hin Hav Hd.
  - cbn. destruct (mount_children_avoids c S news h Hav) as (A1 & A2 & A3 & A4 & A5).
    rewrite A5. by destruct news.
  - destruct news as [|n news].
    + cbn [patch_children].
      destruct (unmount_children_avoids c S (o :: olds) h Hin Hav Hd)
        as (A1 & A2 & A3 & A4 & A5).
      rewrite A2, A3. done.
    + cbn [patch_children].
      destruct (patch_vnode_avoids c S o n h (Hin o ltac:(by left)) Hav Hd)
        as (A1 & A2 & A3 & A4 & A5).
      destruct (IH news (patch_vnode o n h)) as (B1 & B2 & B3 & B4 & B5); try done.
      { intros o' Ho'. apply Hin. by right. }
      rewrite B2, B4, A2, A4. repeat split; try done.
      * apply B1.
      * apply B1.
      * intros k Hk. rewrite not_elem_of_cons in Hk. destruct Hk as [Hkn Hk].
        rewrite B3 by done. by apply A3.
Qed.

Lemma patch_vnode_tracked (c : nat) (name : CompName) (o n : nat) (h : Heap)
    (x : VNode) (d : VNodeDesc) (i : Component.instance) :
  vnodes h !! o = Some x →
  v_type x = TComponent name →
  component x = Some c →
  vnodes h !! n = Some (fresh_vnode d) →
  d_type d = TComponent name →
  instances h !! c = Some i →
  vnodes (patch_vnode o n h)
    = <[n := set_component_el (Some c) (el x) (fresh_vnode d)]> (vnodes h)
  ∧ next_vnode (patch_vnode o n h) = next_vnode h
  ∧ next_instance (patch_vnode o n h) = next_instance h
  ∧ created (patch_vnode o n h) = created h
  ∧ destroyed (patch_vnode o n h) = destroyed h
  ∧ ∃ i', instances (patch_vnode o n h) !! c = Some i'
          ∧ Component.type i' = Component.type i
          ∧ Component.render i' = Component.render i
          ∧ (Component.render i = SubTreeOf c
             → Component.subTree i' = Component.subTree i).
Proof.
  intros Ho Hty Hc Hn Hd Hi. unfold patch_vnode. rewrite Ho, Hn. cbn.
  rewrite decide_True by congruence. rewrite Hc.
  case_decide as Hda.
  - cbn. repeat split; try done. by exists i.
  - match goal with |- context [update_instance c ?h1] =>
      destruct (update_instance_frame c h1) as (U1 & U2 & U3 & U4 & U5);
      rewrite U1, U2, U3, U4, U5; set (h' := h1) end.
    cbn. repeat split; try done.
    assert (Ha : instances h' !! c = Some (set_data (d_data d) i)).
    { unfold h'. cbn. rewrite lookup_alter_eq. by rewrite Hi. }
    unfold update_instance. rewrite Ha. cbn.
    destruct (call_render _ _) as [t|] eqn:Hr.
    + cbn. rewrite lookup_insert_eq. eexists. split; [done|]. cbn.
      repeat split; try done.
      intros Hf. rewrite Hf in Hr. cbn in Hr.
      rewrite lookup_alter_eq, Hi in Hr. cbn in Hr. congruence.
    + rewrite Ha. eexists. split; [done|]. cbn. done.
Qed.

Lemma lookups_fresh (h : Heap) (vs : list nat) :
  ∀ ds, lookups h vs = Some ∘ fresh_vnode <$> ds →
        ∀ k y, k ∈ vs → vnodes h !! k = Some y → component y = None.
Proof.
  induction vs as [|v vs IH]; intros ds Hl k y Hk Hy.
  - by apply elem_of_nil in Hk.
  - destruct ds as [|d ds]; [done|].
    unfold lookups in Hl. cbn in Hl. injection Hl as Hv Hl.
    apply elem_of_cons in Hk as [->|Hk].
    + rewrite Hv in Hy. by injection Hy as <-.
    + by apply (IH ds Hl k y).
Qed.

Lemma render_job_tracks (props : LazyRenderProps) (c : nat) (name : CompName)
    (s : State) (i : Component.instance) :
  tracks c name s →
  instances (heap s) !! c = Some i →
  tracks c name (render_job props s)
  ∧ (∃ i', instances (heap (render_job props s)) !! c = Some i'
           ∧ Component.type i' = Component.type i
           ∧ Component.render i' = Component.render i
           ∧ (Component.render i = SubTreeOf c
              → Component.subTree i' = Component.subTree i))
  ∧ tracker (render_job props s) = tracker s
  ∧ render (vars (render_job props s)) = render (vars s)
  ∧ visible_seen (host (render_job props s)) = visible_seen (host s)
  ∧ slots (host (render_job props s)) = slots (host s)
  ∧ render_dirty (host (render_job props s)) = false.
Proof.
  intros (Hp & (d & ds & Hsl & Hd)
          & (v & vs & x & Hm & Hc & Hv & Hty & Hco & Hlt & Hav) & Hde) Hi.
  rewrite (render_job_next props s (d :: ds) (v :: vs));
    [| done | right; by rewrite Hc | done].
  destruct (alloc_vnodes_spec (d :: ds) (heap s))
    as (A1 & A2 & A3 & A4 & A5 & A6 & A7 & A8 & A9).
  set (h1 := (alloc_vnodes (d :: ds) (heap s)).2) in *.
  cbn [length seq] in A1. rewrite A1 in A9 |- *.
  set (n := next_vnode (heap s)) in *. set (ns := seq (S n) (length ds)) in *.
  unfold lookups in A9. cbn in A9. injection A9 as Hn Hns.
  apply Forall_cons in Hlt as [Hvlt Hvslt].
  assert (Hv1 : vnodes h1 !! v = Some x) by (by rewrite A8).
  assert (Hi1 : instances h1 !! c = Some i) by (by rewrite A3).
  destruct (patch_vnode_tracked c name v n h1 x d i Hv1 Hty Hco Hn Hd Hi1)
    as (T1 & T2 & T3 & T4 & T5 & i' & T6 & T7 & T8 & T9).
  set (h2 := patch_vnode v n h1) in *.
  assert (Hav2 : avoids c (vs ++ ns) h2).
  { split; [rewrite T3, A4; apply Hav|].
    intros k y Hk Hy. rewrite T1 in Hy. apply elem_of_app in Hk as [Hk|Hk].
    - rewrite Forall_forall in Hvslt. specialize (Hvslt k Hk).
      rewrite lookup_insert_ne in Hy by (unfold n; lia).
      rewrite A8 in Hy by done. by apply (proj2 Hav k y).
    - pose proof Hk as Hk'. apply elem_of_seq in Hk'.
      rewrite lookup_insert_ne in Hy by lia.
      by rewrite (lookups_fresh h1 ns ds Hns k y Hk Hy). }
  destruct (patch_children_avoids c (vs ++ ns) vs ns h2)
    as (B1 & B2 & B3 & B4 & B5).
  { intros o Ho. apply elem_of_app. by left. }
  { done. }
  { by rewrite T5, A7. }
  assert (Hnn : n ∉ ns).
  { intros Hin. apply elem_of_seq in Hin. lia. }
  unfold_state_ops. cbn. cbn [patch_children]. fold h2.
  repeat split; try done.
  - eauto.
  - exists n, ns, (set_component_el (Some c) (el x) (fresh_vnode d)).
    repeat split; try done.
    + rewrite B3 by done. rewrite T1. apply lookup_insert_eq.
    + constructor.
      * cbn [heap]. rewrite B4, T2, A2. cbn. unfold n. lia.
      * eapply Forall_impl; [apply (seq_lt (S n) (length ds))|].
        intros w Hw. cbn [heap]. rewrite B4, T2, A2. cbn in *. unfold n in Hw. lia.
    + apply B1.
    + intros k y Hk. apply (proj2 B1 k y). apply elem_of_app. by right.
  - rewrite B2. exists i'. done.
Qed.

Lemma tracks_ext (c : nat) (name : CompName) (s s' : State) :
  pending_ref (host s') = pending_ref (host s) →
  slots (host s') = slots (host s) →
  mounted (host s') = mounted (host s) →
  currentVNode (vars s') = currentVNode (vars s) →
  vnodes (heap s') = vnodes (heap s) →
  next_vnode (heap s') = next_vnode (heap s) →
  next_instance (heap s') = next_instance (heap s) →
  destroyed (heap s') = destroyed (heap s) →
  tracks c name s → tracks c name s'.
Proof.
  intros E1 E2 E3 E4 E5 E6 E7 E8. unfold tracks, avoids.
  by rewrite E1, E2, E3, E4, E5, E6, E7, E8.
Qed.

Lemma flush_visible_watcher_tracked (s : State) (v : nat) (x : VNode) (c : nat)
    (i : Component.instance) :
  isVisible (tracker s) ≠ visible_seen (host s) →
  currentVNode (vars s) = Some v →
  vnodes (heap s) !! v = Some x →
  component x = Some c →
  instances (heap s) !! c = Some i →
  instances (heap (flush_visible_watcher s))
    = <[c := set_render (if isVisible (tracker s)
                         then default (Component.render i) (render (vars s))
                         else SubTreeOf c) i]> (instances (heap s))
  ∧ render (vars (flush_visible_watcher s))
    = (if isVisible (tracker s) then render (vars s) else Some (Component.render i))
  ∧ next_instance (heap (flush_visible_watcher s)) = next_instance (heap s).
Proof.
  intros Hne Hc Hv Hco Hi. unfold flush_visible_watcher.
  rewrite decide_False by done.
  unfold visible_watch_cb. unfold_state_ops. cbn. rewrite Hc, Hv, Hco. cbn.
  rewrite Hi. destruct (isVisible (tracker s)); cbn; [|done].
  by destruct (render (vars s)).
Qed.

Lemma post_render_quiet (s : State) :
  pending_ref (host s) = None →
  isVisible (tracker s) = visible_seen (host s) →
  heap (post_render s) = heap s
  ∧ vars (post_render s) = vars s
  ∧ isVisible (tracker (post_render s)) = isVisible (tracker s)
  ∧ mounted (host (post_render s)) = mounted (host s)
  ∧ slots (host (post_render s)) = slots (host s)
  ∧ render_dirty (host (post_render s)) = render_dirty (host s)
  ∧ visible_seen (host (post_render s)) = visible_seen (host s)
  ∧ pending_ref (host (post_render s)) = None.
Proof.
  intros Hp Hv. unfold post_render.
  destruct (flush_target_watcher_frame s) as (A1 & A2 & A3 & A4 & A5 & A6 & A7 & A8 & _).
  set (a := flush_target_watcher s) in *.
  rewrite (flush_ref_none a) by (by rewrite A8).
  assert (Hb : flush_visible_watcher a = a).
  { unfold flush_visible_watcher. rewrite decide_True; [done|]. by rewrite A3, A7. }
  rewrite Hb.
  destruct (flush_target_watcher_frame a) as (B1 & B2 & B3 & B4 & B5 & B6 & B7 & B8 & _).
  rewrite B1, B2, B3, B4, B5, B6, B7, B8, A1, A2, A3, A4, A5, A6, A7, A8. done.
Qed.

Lemma post_render_toggle (c : nat) (name : CompName) (s : State)
    (i : Component.instance) :
  tracks c name s →
  isVisible (tracker s) ≠ visible_seen (host s) →
  instances (heap s) !! c = Some i →
  tracks c name (post_render s)
  ∧ instances (heap (post_render s))
    = <[c := set_render (if isVisible (tracker s)
                         then default (Component.render i) (render (vars s))
                         else SubTreeOf c) i]> (instances (heap s))
  ∧ render (vars (post_render s))
    = (if isVisible (tracker s) then render (vars s) else Some (Component.render i))
  ∧ isVisible (tracker (post_render s)) = isVisible (tracker s)
  ∧ visible_seen (host (post_render s)) = isVisible (tracker s)
  ∧ slots (host (post_render s)) = slots (host s)
  ∧ render_dirty (host (post_render s)) = render_dirty (host s).
Proof.
  intros Ht Hne Hi. unfold post_render.
  pose proof Ht as (Hp & _ & (v & vs & x & Hm & Hc & Hv & Hty & Hco & _) & _).
  destruct (flush_target_watcher_frame s) as (A1 & A2 & A3 & A4 & A5 & A6 & A7 & A8 & _).
  set (a := flush_target_watcher s) in *.
  rewrite (flush_ref_none a) by (by rewrite A8).
  destruct (flush_visible_watcher_tracked a v x c i) as (T1 & T2 & T3).
  { by rewrite A3, A7. }
  { by rewrite A1. }
  { by rewrite A2. }
  { done. }
  { by rewrite A2. }
  destruct (flush_visible_watcher_frame a)
    as (C1 & C2 & C3 & C4 & C5 & C6 & C7 & _ & C9 & C10 & C11 & C12 & C13).
  set (b := flush_visible_watcher a) in *.
  destruct (flush_target_watcher_frame b) as (B1 & B2 & B3 & B4 & B5 & B6 & B7 & B8 & _).
  rewrite B1, B2, B3, B5, B6, B7, T1, T2, C1, C4, C5, C9, A1, A2, A3, A5, A6.
  split; [|done].
  apply (tracks_ext c name s); try done.
  - by rewrite B8, C6, A8.
  - by rewrite B5, C4, A5.
  - by rewrite B4, C3, A4.
  - by rewrite B1, C2, A1.
  - by rewrite B2, C10, A2.
  - by rewrite B2, C13, A2.
  - by rewrite B2, T3, A2.
  - by rewrite B2, C12, A2.
Qed.

Lemma tracks_tracked (c : nat) (name : CompName) (s : State) :
  tracks c name s → tracked s = Some c.
Proof.
  intros (_ & _ & (v & vs & x & _ & Hc & Hv & _ & Hco & _) & _).
  unfold tracked. rewrite Hc. cbn. rewrite Hv. done.
Qed.

Lemma frozen_flush (props : LazyRenderProps) (c : nat) (name : CompName) (t : Tree)
    (s : State) :
  frozen c name t s → frozen c name t (flush props s).
Proof.
  intros (Ht & Hv & Hs & Hr & i & Hi & Hn & Hf & Hst). unfold flush.
  set (s1 := if render_dirty (host s) then render_job props s else s).
  assert (H1 : tracks c name s1
               ∧ isVisible (tracker s1) = false
               ∧ visible_seen (host s1) = false
               ∧ render (vars s1) = Some (SetupRender c)
               ∧ ∃ i', instances (heap s1) !! c = Some i'
                       ∧ Component.type i' = name
                       ∧ Component.render i' = SubTreeOf c
                       ∧ Component.subTree i' = t).
  { unfold s1. destruct (render_dirty (host s)); [|by eauto 10].
    destruct (render_job_tracks props c name s i Ht Hi)
      as (R1 & (i' & R2 & R3 & R4 & R5) & R6 & R7 & R8 & _).
    rewrite R6, R7, R8. split; [exact R1|]. repeat split; try done.
    exists i'. repeat split; try done; try congruence.
    rewrite R5; done. }
  destruct H1 as (T1 & T2 & T3 & T4 & T5).
  pose proof T1 as (Hp1 & _).
  destruct (post_render_quiet s1) as (P1 & P2 & P3 & P4 & P5 & P6 & P7 & P8).
  { done. }
  { by rewrite T2, T3. }
  unfold frozen. rewrite P1, P2, P3, P7. split; [|done].
  apply (tracks_ext c name s1); try done; by rewrite ?P1, ?P2, ?P8.
Qed.

Lemma frozen_step (props : LazyRenderProps) (c : nat) (name : CompName) (t : Tree)
    (ev : Event) (s : State) :
  frozen c name t s → frozen_safe name ev → frozen c name t (step props ev s).
Proof.
  intros Hfz Hsafe. destruct ev as [entries|sl|c' d|c'|].
  - destruct Hfz as (Ht & Hv & Hs & Hr & Hi).
    destruct entries as [|e es]; unfold step; cbn.
    + unfold frozen. unfold_state_ops. cbn.
      split; [by apply (tracks_ext c name s) | done].
    + cbn in Hsafe. unfold frozen. unfold_state_ops. cbn. rewrite Hsafe.
      split; [by apply (tracks_ext c name s) | done].
  - destruct Hfz as (Ht & Hv & Hs & Hr & Hi).
    unfold step, frozen. unfold_state_ops. cbn. split; [|done].
    destruct Ht as (Hp & _ & Hm & Hd). split; [done|]. split; [exact Hsafe|]. done.
  - destruct Hfz as (Ht & Hv & Hs & Hr & i & Hi & Hn & Hf & Hst).
    unfold step, frozen. unfold_state_ops. cbn.
    split; [by apply (tracks_ext c name s)|]. repeat split; try done.
    destruct (decide (c' = c)) as [->|Hne].
    + rewrite lookup_alter_eq, Hi. cbn. eexists. split; [done|]. done.
    + rewrite lookup_alter_ne by done. eauto.
  - destruct Hfz as (Ht & Hv & Hs & Hr & i & Hi & Hn & Hf & Hst).
    destruct (update_instance_frame c' (heap s)) as (U1 & U2 & U3 & U4 & U5).
    unfold step, frozen. unfold_state_ops. cbn.
    split; [by apply (tracks_ext c name s)|]. repeat split; try done.
    destruct (decide (c' = c)) as [->|Hne].
    + unfold update_instance. rewrite Hi, Hf. cbn. rewrite Hi. cbn.
      rewrite lookup_insert_eq. eexists. split; [done|]. done.
    + rewrite update_instance_other by done. eauto.
  - by apply frozen_flush.
Qed.

Lemma frozen_run (props : LazyRenderProps) (c : nat) (name : CompName) (t : Tree)
    (evs : list Event) (s : State) :
  frozen c name t s → Forall (frozen_safe name) evs → frozen c name t (run props evs s).
Proof.
  revert s. induction evs as [|ev evs IH]; intros s Hf Hall; [done|].
  apply Forall_cons in Hall as [Hev Hall].
  cbn. apply IH; [|done]. by apply frozen_step.
Qed.

Lemma freeze_transition (props : LazyRenderProps) (c : nat) (name : CompName)
    (e : IntersectionObserverEntry) (s : State) :
  live c name s →
  isIntersecting e = false →
  ∃ t, frozen c name t (transition props e s).
Proof.
  intros (Ht & Hv & Hs & i & Hi & Hn & Hr) He. unfold transition.
  destruct (deliver_one props e s) as (D1 & D2 & D3 & D4 & D5 & D6).
  destruct (deliver_one_rest props e s) as (E1 & E2 & E3 & E4 & E5).
  set (s' := step props (Deliver [e]) s) in *.
  rewrite Hv, He in D6. cbn in D6. rewrite orb_true_r in D6.
  assert (Ht' : tracks c name s').
  { apply (tracks_ext c name s); try done; by rewrite ?D2, ?D3. }
  unfold flush. rewrite D6.
  destruct (render_job_tracks props c name s' i Ht')
    as (R1 & (i' & R2 & R3 & R4 & R5) & R6 & R7 & R8 & R9 & R10).
  { by rewrite D3. }
  destruct (post_render_toggle c name (render_job props s') i' R1)
    as (P1 & P2 & P3 & P4 & P5 & P6 & P7).
  { by rewrite R6, R8, D1, E5, He, Hs. }
  { done. }
  rewrite R6, D1, He in P2, P3, P4, P5.
  exists (Component.subTree i'). unfold frozen.
  rewrite P2, P3, P4, P5, lookup_insert_eq.
  split; [exact P1|]. repeat split; try done.
  - congruence.
  - eexists. split; [done|]. cbn. repeat split; congruence.
Qed.

Lemma unfreeze_transition (props : LazyRenderProps) (c : nat) (name : CompName)
    (t : Tree) (e : IntersectionObserverEntry) (s : State) :
  frozen c name t s →
  isIntersecting e = true →
  live c name (transition props e s).
Proof.
  intros (Ht & Hv & Hs & Hsaved & i & Hi & Hn & Hr & Hst) He. unfold transition.
  destruct (deliver_one props e s) as (D1 & D2 & D3 & D4 & D5 & D6).
  destruct (deliver_one_rest props e s) as (E1 & E2 & E3 & E4 & E5).
  set (s' := step props (Deliver [e]) s) in *.
  rewrite Hv, He in D6. cbn in D6. rewrite orb_true_r in D6.
  assert (Ht' : tracks c name s').
  { apply (tracks_ext c name s); try done; by rewrite ?D2, ?D3. }
  unfold flush. rewrite D6.
  destruct (render_job_tracks props c name s' i Ht')
    as (R1 & (i' & R2 & R3 & R4 & R5) & R6 & R7 & R8 & R9 & R10).
  { by rewrite D3. }
  destruct (post_render_toggle c name (render_job props s') i' R1)
    as (P1 & P2 & P3 & P4 & P5 & P6 & P7).
  { by rewrite R6, R8, D1, E5, He, Hs. }
  { done. }
  rewrite R6, D1, He in P2, P3, P4, P5. rewrite R7, D2, Hsaved in P2. cbn in P2.
  unfold live. rewrite P2, P4, P5, lookup_insert_eq.
  split; [exact P1|]. repeat split; try done.
  eexists. split; [done|]. cbn. split; [congruence | done].
Qed.

Lemma example_live :
  live 0 0 (transition example_props (entry_for true) example_mounted).
Proof.
  unfold live, tracks, avoids.
  split; [split; [|split; [|split]] | split; [|split]].
  - reflexivity.
  - eexists _, _. split; reflexivity.
  - exists 0, [1],
      {| v_type := TComponent 0; v_data := 0; component := Some 0; el := Some 1 |}.
    split; [reflexivity|]. split; [reflexivity|]. split; [reflexivity|].
    split; [reflexivity|]. split; [reflexivity|]. split; [|split].
    + repeat constructor.
    + vm_compute. lia.
    + intros k y Hk Hy. apply list_elem_of_singleton in Hk as ->.
      vm_compute in Hy. injection Hy as <-. done.
  - vm_compute. apply not_elem_of_nil.
  - reflexivity.
  - reflexivity.
  - eexists. split; [reflexivity|]. split; reflexivity.
Qed.




Lemma unfreeze_keeps_frame (props : LazyRenderProps) (c : nat) (name : CompName)
    (t : Tree) (e : IntersectionObserverEntry) (s : State) :
  frozen c name t s →
  isIntersecting e = true →
  ∃ i, instances (heap (transition props e s)) !! c = Some i
       ∧ Component.subTree i = t
       ∧ Component.render i = SetupRender c.
Proof.
  intros (Ht & Hv & Hs & Hsaved & i & Hi & Hn & Hr & Hst) He. unfold transition.
  destruct (deliver_one props e s) as (D1 & D2 & D3 & D4 & D5 & D6).
  destruct (deliver_one_rest props e s) as (E1 & E2 & E3 & E4 & E5).
  set (s' := step props (Deliver [e]) s) in *.
  rewrite Hv, He in D6. cbn in D6. rewrite orb_true_r in D6.
  assert (Ht' : tracks c name s').
  { apply (tracks_ext c name s); try done; by rewrite ?D2, ?D3. }
  unfold flush. rewrite D6.
  destruct (render_job_tracks props c name s' i Ht')
    as (R1 & (i' & R2 & R3 & R4 & R5) & R6 & R7 & R8 & R9 & R10).
  { by rewrite D3. }
  destruct (post_render_toggle c name (render_job props s') i' R1)
    as (P1 & P2 & P3 & P4 & P5 & P6 & P7).
  { by rewrite R6, R8, D1, E5, He, Hs. }
  { done. }
  rewrite R6, D1, He in P2. rewrite R7, D2, Hsaved in P2. cbn in P2.
  rewrite P2, lookup_insert_eq. eexists. split; [done|]. cbn.
  split; [|done]. rewrite R5 by done. done.
Qed.

(** C4. Resuming leaves a stale frame.  From a live instance that freezes,
    whatever happens while it is frozen (changes of its data and of the
    props its parent hands down included), the transition back to visible
    removes the override, the [render] field of the tracked instance being
    again the function its setup returned; but the callback asks for no
    update of the instance and the render job of that tick still ran with
    the pinned function, so the output after resuming is the frame
    captured at freezing: whenever the data have changed since, it is not
    the tree of the current data. *)
Theorem resumed_output_is_stale (props : LazyRenderProps) (c : nat) (name : CompName)
    (s : State) (e : IntersectionObserverEntry) (evs : list Event)
    (e' : IntersectionObserverEntry) :
  live c name s →
  isIntersecting e = false →
  Forall (frozen_safe name) evs →
  isIntersecting e' = true →
  ∃ i0 i,
    instances (heap (transition props e s)) !! c = Some i0
    ∧ instances (heap (transition props e' (run props evs (transition props e s)))) !! c
      = Some i
    ∧ Component.render i = SetupRender c
    ∧ Component.subTree i = Component.subTree i0
    ∧ (Component.data i ≠ rendered_from (Component.subTree i0)
       → Component.subTree i
         ≠ {| rendered_by := name; rendered_from := Component.data i |}).
Proof.
  intros Hl He Hall He'.
  destruct (freeze_transition props c name e s Hl He) as (t & Hf).
  pose proof (frozen_run props c name t evs _ Hf Hall) as Hf2.
  destruct (unfreeze_keeps_frame props c name t e' _ Hf2 He') as (i & Hi & Hst & Hr).
  pose proof Hf as (_ & _ & _ & _ & i0 & Hi0 & _ & _ & Hst0).
  exists i0, i. split; [done|]. split; [done|]. split; [done|].
  split; [congruence|].
  intros Hne Heq. apply Hne. rewrite Hst0, <- Hst, Heq. done.
Qed.

(** The repository's test 'should resume updates when re-entering
    viewport': enter, leave, the parent hands the child the count 5, enter
    again.  The child's instance then holds 5 and still shows the frame of
    0. *)
Lemma resumed_output_is_stale_witness :
  ∃ i,
    instances
      (heap (transition example_props (entry_for true)
               (run example_props
                  [SlotsChanged
                     {| slot_default := Some [{| d_type := TComponent 0; d_data := 5 |};
                                              {| d_type := TElement "p"; d_data := 0 |}];
                        slot_fallback := Some {| rendered_by := 1; rendered_from := 0 |} |};
                   Flush]
                  (transition example_props (entry_for false)
                     (transition example_props (entry_for true) example_mounted)))))
      !! 0 = Some i
    ∧ Component.data i = 5
    ∧ Component.render i = SetupRender 0
    ∧ Component.subTree i = {| rendered_by := 0; rendered_from := 0 |}
    ∧ Component.subTree i ≠ {| rendered_by := 0; rendered_from := Component.data i |}.
Proof.
  destruct (resumed_output_is_stale example_props 0 0
              (transition example_props (entry_for true) example_mounted)
              (entry_for false)
              [SlotsChanged
                 {| slot_default := Some [{| d_type := TComponent 0; d_data := 5 |};
                                          {| d_type := TElement "p"; d_data := 0 |}];
                    slot_fallback := Some {| rendered_by := 1; rendered_from := 0 |} |};
               Flush]
              (entry_for true) example_live eq_refl)
    as (i0 & i & H0 & H1 & H2 & H3 & H4).
  - repeat constructor. cbn. eauto.
  - reflexivity.
  - exists i. split; [exact H1|].
    assert (Component.data i = 5 ∧ Component.subTree i0 = {| rendered_by := 0; rendered_from := 0 |})
      as [Hd Ht].
    { vm_compute in H0, H1. injection H0 as <-. injection H1 as <-. by split. }
    split; [exact Hd|]. split; [exact H2|]. split; [congruence|].
    apply H4. rewrite Hd, Ht. by cbn.
Defined.

(** ** Several top-level items *)

Lemma visible_watch_cb_other (visible : bool) (st : State) (c' : nat) :
  tracked st ≠ Some c' →
  instances (heap (visible_watch_cb visible st).2) !! c' = instances (heap st) !! c'.
Proof.
  unfold tracked, visible_watch_cb. intros Hne.
  destruct (currentVNode (vars st)) as [v|]; [|done]. cbn in Hne.
  destruct (vnodes (heap st) !! v) as [vn|]; [|done]. cbn in Hne.
  destruct (component vn) as [c|]; [|done].
  assert (c ≠ c') by congruence.
  unfold_state_ops. cbn.
  destruct (instances (heap st) !! c); [|done].
  destruct visible; cbn; by rewrite lookup_insert_ne.
Qed.

(** C9. When the default slot yields two or more items, the render
    function returns all of them, in order, as fresh nodes, and all of
    them are mounted; [currentVNode] is the first one.  The callback of
    the watcher touches no instance other than the one behind
    [currentVNode], and no virtual node at all: the remaining items are
    rendered but take no part in freezing and unfreezing. *)
Theorem only_first_item_is_tracked (props : LazyRenderProps) (s : State)
    (d0 d1 : VNodeDesc) (ds : list VNodeDesc) :
  slot_default (slots (host s)) = Some (d0 :: d1 :: ds) →
  isVisible (tracker s) = true ∨ currentVNode (vars s) ≠ None →
  ∃ v0 vs,
    (render_fn props s).1 = Normal (Items (v0 :: vs))
    ∧ length vs = S (length ds)
    ∧ currentVNode (vars (render_fn props s).2) = Some v0
    ∧ lookups (heap (render_fn props s).2) (v0 :: vs)
      = Some ∘ fresh_vnode <$> (d0 :: d1 :: ds)
    ∧ mounted (host (render_job props s)) = MountedItems (v0 :: vs)
    ∧ (∀ visible st c',
         tracked st ≠ Some c' →
         instances (heap (visible_watch_cb visible st).2) !! c'
         = instances (heap st) !! c')
    ∧ (∀ visible st,
         vnodes (heap (visible_watch_cb visible st).2) = vnodes (heap st)
         ∧ mounted (host (visible_watch_cb visible st).2) = mounted (host st)).
Proof.
  intros Hsl Hor.
  pose proof (render_fn_items props s _ Hsl Hor) as Hr.
  destruct (alloc_vnodes_spec (d0 :: d1 :: ds) (heap s))
    as (A1 & A2 & A3 & A4 & A5 & A6 & A7 & A8 & A9).
  cbn [length seq] in A1.
  exists (next_vnode (heap s)), (S (next_vnode (heap s)) :: seq (S (S (next_vnode (heap s)))) (length ds)).
  unfold render_job. rewrite Hr. cbn [fst snd].
  rewrite A1 in *.
  split; [done|]. split; [cbn; by rewrite length_seq|]. split; [done|].
  split; [exact A9|]. split.
  - match goal with |- context [patch_root ?o ?x] =>
      destruct (patch_root_shape o x) as (_ & _ & _ & _ & H5) end.
    unfold set_host. cbn [host mounted set_render_dirty]. exact H5.
  - split.
    + intros visible st c'. apply visible_watch_cb_other.
    + intros visible st.
      destruct (visible_watch_cb_frame visible st) as (Hh & _ & _ & Hv & _).
      by rewrite Hh, Hv.
Qed.

Lemma only_first_item_is_tracked_witness :
  ∃ v0 vs,
    (render_fn example_props
       (step example_props (Deliver [entry_for true]) example_mounted)).1
    = Normal (Items (v0 :: vs))
    ∧ length vs = 1
    ∧ currentVNode
        (vars (render_fn example_props
                 (step example_props (Deliver [entry_for true]) example_mounted)).2)
      = Some v0.
Proof.
  destruct (only_first_item_is_tracked example_props
              (step example_props (Deliver [entry_for true]) example_mounted)
              {| d_type := TComponent 0; d_data := 0 |}
              {| d_type := TElement "p"; d_data := 0 |} [] eq_refl)
    as (v0 & vs & H1 & H2 & H3 & _).
  - left. reflexivity.
  - exists v0, vs. split; [exact H1|]. split; [exact H2 | exact H3].
Defined.

(** * Further properties *)

(** ** The tracker on its own *)

Lemma observe_counts (e : Element) (o : IntersectionObserver) :
  observe_count (observe e o) = S (observe_count o)
  ∧ unobserve_count (observe e o) = unobserve_count o
  ∧ disconnects (observe e o) = disconnects o.
Proof.
  unfold observe_count, unobserve_count, disconnects, observe. cbn.
  rewrite !List.filter_app, filter_app, !length_app. cbn.
  rewrite decide_False by done. cbn. lia.
Qed.

Lemma unobserve_counts (e : Element) (o : IntersectionObserver) :
  observe_count (unobserve e o) = observe_count o
  ∧ unobserve_count (unobserve e o) = S (unobserve_count o)
  ∧ disconnects (unobserve e o) = disconnects o.
Proof.
  unfold observe_count, unobserve_count, disconnects, unobserve. cbn.
  rewrite !List.filter_app, filter_app, !length_app. cbn.
  rewrite decide_False by done. cbn. lia.
Qed.

Lemma disconnect_counts (o : IntersectionObserver) :
  observe_count (disconnect o) = observe_count o
  ∧ unobserve_count (disconnect o) = unobserve_count o
  ∧ disconnects (disconnect o) = S (disconnects o).
Proof.
  unfold observe_count, unobserve_count, disconnects, disconnect. cbn.
  rewrite !List.filter_app, filter_app, !length_app. cbn.
  rewrite decide_True by done. cbn. lia.
Qed.

Lemma targets_observe_fresh (e : Element) (o : IntersectionObserver) :
  targets o = [] → targets (observe e o) = [e].
Proof.
  intros H. unfold observe. cbn. rewrite H.
  by rewrite decide_False by apply not_elem_of_nil.
Qed.

Lemma targets_unobserve_only (e : Element) (o : IntersectionObserver) :
  targets o = [e] ∨ targets o = [] → targets (unobserve e o) = [].
Proof.
  intros [H|H]; unfold unobserve; cbn; rewrite H; [|done].
  rewrite filter_cons, filter_nil.
  rewrite decide_False; [done | intros Hne; by apply Hne].
Qed.

#[local] Arguments observe : simpl never.
#[local] Arguments unobserve : simpl never.
#[local] Arguments disconnect : simpl never.

Lemma target_watch_job_follows (el el' : option Element) (t : Tracker) :
  cleanup t = el →
  targets (observer t) = option_list el →
  observe_count (observer t)
    = unobserve_count (observer t) + length (targets (observer t)) →
  cleanup (target_watch_job el' t) = el'
  ∧ targets (observer (target_watch_job el' t)) = option_list el'
  ∧ observe_count (observer (target_watch_job el' t))
    = unobserve_count (observer (target_watch_job el' t))
      + length (targets (observer (target_watch_job el' t)))
  ∧ disconnects (observer (target_watch_job el' t)) = disconnects (observer t)
  ∧ isVisible (target_watch_job el' t) = isVisible t.
Proof.
  intros Hc Ht Hb. unfold target_watch_job, run_cleanup. rewrite Hc.
  rewrite Ht in Hb.
  destruct el as [old|]; destruct el' as [new|]; cbn in *.
  - destruct (observe_counts new (unobserve old (observer t))) as (A1 & A2 & A3).
    destruct (unobserve_counts old (observer t)) as (B1 & B2 & B3).
    rewrite A1, A2, A3, B1, B2, B3.
    rewrite (targets_observe_fresh new);
      [| apply targets_unobserve_only; by left].
    cbn. repeat split; try done. lia.
  - destruct (unobserve_counts old (observer t)) as (B1 & B2 & B3).
    rewrite B1, B2, B3.
    rewrite (targets_unobserve_only old) by (by left).
    cbn. repeat split; try done. lia.
  - destruct (observe_counts new (observer t)) as (A1 & A2 & A3).
    rewrite A1, A2, A3. rewrite (targets_observe_fresh new) by done.
    cbn. repeat split; try done. lia.
  - rewrite Ht. done.
Qed.

Lemma watch_targets_follows (tgts : list (option Element)) :
  ∀ (el : option Element) (t : Tracker),
    cleanup t = el →
    targets (observer t) = option_list el →
    observe_count (observer t)
      = unobserve_count (observer t) + length (targets (observer t)) →
    cleanup (watch_targets tgts t) = List.last tgts el
    ∧ targets (observer (watch_targets tgts t)) = option_list (List.last tgts el)
    ∧ observe_count (observer (watch_targets tgts t))
      = unobserve_count (observer (watch_targets tgts t))
        + length (targets (observer (watch_targets tgts t)))
    ∧ disconnects (observer (watch_targets tgts t)) = disconnects (observer t)
    ∧ isVisible (watch_targets tgts t) = isVisible t.
Proof.
  induction tgts as [|el' tgts IH]; intros el t Hc Ht Hb; [by subst|].
  destruct (target_watch_job_follows el el' t Hc Ht Hb) as (A1 & A2 & A3 & A4 & A5).
  destruct (IH el' (target_watch_job el' t) A1 A2 A3) as (B1 & B2 & B3 & B4 & B5).
  assert (Hl : List.last (el' :: tgts) el = List.last tgts el').
  { clear. revert el el'. induction tgts as [|x xs IH]; intros el el'; [done|].
    change (List.last (el' :: x :: xs) el) with (List.last (x :: xs) el).
    by rewrite (IH el x), (IH el' x). }
  unfold watch_targets in *. cbn [fold_left]. rewrite Hl.
  split; [exact B1|]. split; [exact B2|]. split; [exact B3|].
  split; [by rewrite B4, A4 | by rewrite B5, A5].
Qed.

Lemma fresh_tracker_follows pm (tgt : option Element) (o : IntersectionObserverInit)
    (t : Tracker) :
  useIntersectionObserver pm tgt o = Normal t →
  isVisible t = false
  ∧ cleanup t = tgt
  ∧ targets (observer t) = option_list tgt
  ∧ calls (observer t) = Observe <$> option_list tgt.
Proof.
  unfold useIntersectionObserver, new_IntersectionObserver. intros H.
  assert (t = target_watch_job tgt
                {| isVisible := false;
                   observer := {| targets := []; calls := [] |};
                   cleanup := None |}) as ->.
  { repeat case_match; cbn in H; try done; by injection H as <-. }
  destruct tgt; cbn; done.
Qed.

(** X2. The tracker [useIntersectionObserver] returns starts hidden and
    observes its target if there is one.  However often the target
    reference then changes (to another element, to the same one, to null
    and back), after each run of the watcher the observer holds exactly
    the current target and nothing else, so at most one element at a time;
    every [observe] but the one of the current target has been matched by
    an [unobserve], the observer was never disconnected, and the watcher
    never writes [isVisible]. *)
Theorem tracker_observes_exactly_current_target pm (tgt : option Element)
    (o : IntersectionObserverInit) (t : Tracker) (tgts : list (option Element)) :
  useIntersectionObserver pm tgt o = Normal t →
  targets (observer (watch_targets tgts t)) = option_list (List.last tgts tgt)
  ∧ cleanup (watch_targets tgts t) = List.last tgts tgt
  ∧ (length (targets (observer (watch_targets tgts t))) ≤ 1)%nat
  ∧ observe_count (observer (watch_targets tgts t))
    = unobserve_count (observer (watch_targets tgts t))
      + length (targets (observer (watch_targets tgts t)))
  ∧ disconnects (observer (watch_targets tgts t)) = 0
  ∧ isVisible (watch_targets tgts t) = false.
Proof.
  intros H. destruct (fresh_tracker_follows pm tgt o t H) as (F1 & F2 & F3 & F4).
  destruct (watch_targets_follows tgts tgt t F2 F3) as (A1 & A2 & A3 & A4 & A5).
  { unfold observe_count, unobserve_count. rewrite F3, F4. by destruct tgt. }
  rewrite A1, A2, A4, A5, F1. repeat split; try done.
  - destruct (List.last tgts tgt); cbn; lia.
  - by rewrite <- A2.
  - unfold disconnects. rewrite F4. by destruct tgt.
Qed.

Lemma tracker_observes_exactly_current_target_witness :
  ∃ t, useIntersectionObserver any_margin (Some 3) (init default_props) = Normal t
       ∧ targets (observer (watch_targets [None; Some 4; Some 4; Some 5] t)) = [5].
Proof.
  eexists. split; [reflexivity|].
  apply (tracker_observes_exactly_current_target any_margin (Some 3)
           (init default_props) _ [None; Some 4; Some 4; Some 5] eq_refl).
Defined.

(** X3. Unmounting after any history of target changes leaves nothing
    observed and no clean-up registered: the element observed last is
    released by [unobserve] before the one and only [disconnect], and every
    [observe] ever sent has been matched by an [unobserve]. *)
Theorem unmount_releases_every_target pm (tgt : option Element)
    (o : IntersectionObserverInit) (t : Tracker) (tgts : list (option Element)) :
  useIntersectionObserver pm tgt o = Normal t →
  targets (observer (unmount_tracker (watch_targets tgts t))) = []
  ∧ cleanup (unmount_tracker (watch_targets tgts t)) = None
  ∧ observe_count (observer (unmount_tracker (watch_targets tgts t)))
    = unobserve_count (observer (unmount_tracker (watch_targets tgts t)))
  ∧ disconnects (observer (unmount_tracker (watch_targets tgts t))) = 1
  ∧ calls (observer (unmount_tracker (watch_targets tgts t)))
    = calls (observer (watch_targets tgts t))
      ++ (Unobserve <$> option_list (List.last tgts tgt)) ++ [Disconnect].
Proof.
  intros H.
  destruct (fresh_tracker_follows pm tgt o t H) as (F1 & F2 & F3 & F4).
  destruct (watch_targets_follows tgts tgt t F2 F3) as (A2 & A1 & A4 & A5 & _).
  { unfold observe_count, unobserve_count. rewrite F3, F4. by destruct tgt. }
  assert (disconnects (observer t) = 0) as A0.
  { unfold disconnects. rewrite F4. by destruct tgt. }
  rewrite A0 in A5.
  set (t' := watch_targets tgts t) in *.
  unfold unmount_tracker, run_cleanup, stop. rewrite A2.
  destruct (List.last tgts tgt) as [e|]; cbn [observer cleanup option_list fmap list_fmap].
  - destruct (disconnect_counts (unobserve e (observer t'))) as (D1 & D2 & D3).
    destruct (unobserve_counts e (observer t')) as (U1 & U2 & U3).
    rewrite D1, D2, D3, U1, U2, U3, A5. rewrite A1 in A4. cbn in A4.
    repeat split; try done; try lia.
    unfold disconnect, unobserve. cbn. by rewrite <- app_assoc.
  - destruct (disconnect_counts (observer t')) as (D1 & D2 & D3).
    rewrite D1, D2, D3, A5. rewrite A1 in A4. cbn in A4.
    repeat split; try done; lia.
Qed.

Lemma unmount_releases_every_target_witness :
  ∃ t, useIntersectionObserver any_margin None (init default_props) = Normal t
       ∧ calls (observer (unmount_tracker (watch_targets [Some 1; Some 2] t)))
         = [Observe 1; Unobserve 1; Observe 2; Unobserve 2; Disconnect].
Proof.
  eexists. split; [reflexivity|].
  destruct (unmount_releases_every_target any_margin None (init default_props) _
              [Some 1; Some 2] eq_refl) as (_ & _ & _ & _ & H).
  exact H.
Defined.

(** X4. [stop] is not final.  It disconnects the observer, but the watcher
    of the target keeps running: when the target next changes to an
    element, that element is observed again and is the observer's only
    target, whatever the tracker went through before. *)
Theorem stop_does_not_end_watching (t : Tracker) (e : Element) :
  targets (observer (target_watch_job (Some e) (stop t))) = [e]
  ∧ cleanup (target_watch_job (Some e) (stop t)) = Some e
  ∧ last (calls (observer (target_watch_job (Some e) (stop t)))) = Some (Observe e)
  ∧ disconnects (observer (target_watch_job (Some e) (stop t)))
    = S (disconnects (observer t)).
Proof.
  assert (Hd : targets (disconnect (observer t)) = []) by done.
  unfold target_watch_job, run_cleanup, stop. cbn [cleanup observer].
  destruct (cleanup t) as [old|]; cbn [target_watch_cb observer cleanup isVisible].
  - destruct (observe_counts e (unobserve old (disconnect (observer t)))) as (_ & _ & A3).
    destruct (unobserve_counts old (disconnect (observer t))) as (_ & _ & B3).
    destruct (disconnect_counts (observer t)) as (_ & _ & C3).
    rewrite A3, B3, C3.
    rewrite (targets_observe_fresh e);
      [| apply targets_unobserve_only; by right].
    repeat split; try done. unfold observe. cbn. apply last_snoc.
  - destruct (observe_counts e (disconnect (observer t))) as (_ & _ & A3).
    destruct (disconnect_counts (observer t)) as (_ & _ & C3).
    rewrite A3, C3. rewrite (targets_observe_fresh e) by done.
    repeat split; try done. unfold observe. cbn. apply last_snoc.
Qed.

(** ** Visibility *)

Lemma flush_isVisible (props : LazyRenderProps) (s : State) :
  isVisible (tracker (flush props s)) = isVisible (tracker s).
Proof.
  destruct (flush_shape props s _ eq_refl) as (_ & _ & _ & _ & ->).
  destruct (render_dirty (host s)); [|done].
  by destruct (render_job_tracker props s) as [-> _].
Qed.

Lemma step_isVisible (props : LazyRenderProps) (ev : Event) (s : State) :
  isVisible (tracker (step props ev s))
  = match ev with
    | Deliver (e :: _) => isIntersecting e
    | _ => isVisible (tracker s)
    end.
Proof.
  destruct ev as [[|e es]| | | |]; unfold step; try done.
  apply flush_isVisible.
Qed.

(** X5. [isVisible] is written by the observer's callback and by nothing
    else: after any events it is the flag of the first entry of the last
    non-empty delivery (the initial value if there was none); further
    entries of a delivery, empty deliveries, renders, watcher runs, slot
    and data changes leave it alone. *)
Theorem isVisible_is_first_entry_of_last_delivery (props : LazyRenderProps)
    (evs : list Event) (s : State) :
  isVisible (tracker (run props evs s)) = visible_after (isVisible (tracker s)) evs.
Proof.
  revert s. induction evs as [|ev evs IH]; intros s; [done|].
  change (run props (ev :: evs) s) with (run props evs (step props ev s)).
  rewrite IH, step_isVisible. done.
Qed.

(** ** Mounting *)

Lemma mount_state pm (props : LazyRenderProps) (sl : Slots) (s0 : State) :
  mount pm props sl = Normal s0 →
  s0 = flush props
         (setup_state {| isVisible := false;
                         observer := {| targets := []; calls := [] |};
                         cleanup := None |} sl).
Proof.
  unfold mount, setup, useIntersectionObserver, new_IntersectionObserver.
  intros Hm. repeat case_match; cbn in Hm; try done; by injection Hm as <-.
Qed.

Lemma mount_clean pm (props : LazyRenderProps) (sl : Slots) (s0 : State) :
  mount pm props sl = Normal s0 →
  ∃ ew,
    mounted (host s0) = MountedWrapper (tag props) ew (slot_fallback sl)
    ∧ containerRef (vars s0) = Some ew
    ∧ render (vars s0) = None
    ∧ errors (host s0) = [].
Proof.
  intros Hm. rewrite (mount_state pm props sl s0 Hm).
  exists 0. vm_compute. repeat split.
Qed.

(** X6. Whatever the slots are (fallback absent, default absent or
    empty), a mount that gets past the constructor renders the wrapper
    with the tag of the props around what the fallback slot gives (nothing
    if it is absent), reports no error, creates no instance and calls
    [observe] exactly once, for the wrapper element, after that element
    exists; [isVisible] is false and [render] and [currentVNode] are still
    unset. *)
Theorem mount_renders_wrapper_and_observes_it pm (props : LazyRenderProps)
    (sl : Slots) (s0 : State) :
  mount pm props sl = Normal s0 →
  ∃ ew,
    mounted (host s0) = MountedWrapper (tag props) ew (slot_fallback sl)
    ∧ containerRef (vars s0) = Some ew
    ∧ calls (observer (tracker s0)) = [Observe ew]
    ∧ targets (observer (tracker s0)) = [ew]
    ∧ isVisible (tracker s0) = false
    ∧ render (vars s0) = None
    ∧ currentVNode (vars s0) = None
    ∧ errors (host s0) = []
    ∧ created (heap s0) = []
    ∧ instances (heap s0) = ∅.
Proof.
  intros Hm. rewrite (mount_state pm props sl s0 Hm).
  exists 0. vm_compute. repeat split.
Qed.

Lemma mount_renders_wrapper_and_observes_it_witness :
  ∃ s0, mount any_margin default_props
          {| slot_default := None; slot_fallback := None |} = Normal s0
        ∧ ∃ ew, mounted (host s0) = MountedWrapper "div" ew None
                ∧ calls (observer (tracker s0)) = [Observe ew].
Proof.
  eexists. split; [reflexivity|].
  destruct (mount_renders_wrapper_and_observes_it any_margin default_props
              {| slot_default := None; slot_fallback := None |} _ eq_refl)
    as (ew & H1 & _ & H3 & _).
  exists ew. split; [exact H1 | exact H3].
Defined.

(** ** A default slot that is absent or empty *)

Lemma patch_root_errors (out : RenderOutput) (s : State) :
  errors (host (patch_root out s)) = errors (host s).
Proof.
  unfold patch_root, mount_wrapper, unmount_mounted. unfold_state_ops.
  repeat case_match; cbn; done.
Qed.

Lemma render_job_wrapper_errors (props : LazyRenderProps) (s : State) :
  isVisible (tracker s) = false →
  currentVNode (vars s) = None →
  errors (host (render_job props s)) = errors (host s).
Proof.
  intros Hv Hc. unfold render_job, render_fn. rewrite Hv, Hc. cbn.
  unfold set_host. cbn [host errors set_render_dirty].
  apply patch_root_errors.
Qed.

Lemma render_job_absent (props : LazyRenderProps) (s : State) :
  slot_default (slots (host s)) = None →
  isVisible (tracker s) = true →
  currentVNode (vars (render_job props s)) = currentVNode (vars s)
  ∧ shows_placeholder (render_job props s) = false
  ∧ tracker (render_job props s) = tracker s
  ∧ slots (host (render_job props s)) = slots (host s)
  ∧ render_dirty (host (render_job props s)) = false
  ∧ errors (host (render_job props s)) = errors (host s) ++ [TypeError].
Proof.
  intros Hs Hv. unfold render_job, render_fn. rewrite Hs, Hv. cbn.
  unfold shows_placeholder, unmount_mounted. unfold_state_ops.
  repeat case_match; cbn; done.
Qed.

Lemma render_job_empty (props : LazyRenderProps) (s : State) :
  slot_default (slots (host s)) = Some [] →
  isVisible (tracker s) = true →
  currentVNode (vars (render_job props s)) = None
  ∧ shows_placeholder (render_job props s) = false
  ∧ tracker (render_job props s) = tracker s
  ∧ slots (host (render_job props s)) = slots (host s)
  ∧ render_dirty (host (render_job props s)) = false
  ∧ errors (host (render_job props s)) = errors (host s).
Proof.
  intros Hs Hv. unfold render_job.
  rewrite (render_fn_items props s [] Hs (or_introl Hv)). cbn [alloc_vnodes fst snd head].
  match goal with |- context [patch_root ?o ?x] =>
    destruct (patch_root_shape o x) as (H1 & H2 & H3 & _ & H5);
    pose proof (patch_root_errors o x) as H6 end.
  unfold shows_placeholder. unfold set_host at 1 2 3 4 5 6.
  cbn [host vars tracker mounted slots render_dirty errors set_render_dirty].
  rewrite H1, H2, H3, H5, H6. done.
Qed.

Lemma post_render_errors_unrealised (s : State) :
  currentVNode (vars s) = None →
  errors (host (post_render s)) = errors (host s).
Proof.
  intros Hc. unfold post_render.
  assert (Ht : ∀ x, errors (host (flush_target_watcher x)) = errors (host x)).
  { intros x. unfold flush_target_watcher. unfold_state_ops.
    case_decide; done. }
  assert (Hr : ∀ x, errors (host (flush_ref x)) = errors (host x)).
  { intros x. unfold flush_ref. unfold_state_ops. by destruct (pending_ref (host x)). }
  rewrite Ht.
  set (b := flush_ref (flush_target_watcher s)).
  assert (Hcb : currentVNode (vars b) = None).
  { unfold b. destruct (flush_ref_frame (flush_target_watcher s)) as (_ & _ & -> & _).
    by destruct (flush_target_watcher_frame s) as (-> & _). }
  assert (Hv : errors (host (flush_visible_watcher b)) = errors (host b)).
  { unfold flush_visible_watcher, visible_watch_cb. unfold_state_ops.
    case_decide; [done|]. cbn. by rewrite Hcb. }
  rewrite Hv. unfold b. by rewrite Hr, Ht.
Qed.

Lemma transition_isVisible (props : LazyRenderProps) (e : IntersectionObserverEntry)
    (s : State) :
  isVisible (tracker (transition props e s)) = isIntersecting e.
Proof. unfold transition. by rewrite flush_isVisible, step_isVisible. Qed.

Lemma deliver_one_errors (props : LazyRenderProps) (e : IntersectionObserverEntry)
    (s : State) :
  errors (host (step props (Deliver [e]) s)) = errors (host s).
Proof. unfold step. cbn. unfold_state_ops. done. Qed.

Lemma transition_unrealised (props : LazyRenderProps) (sl : Slots)
    (e : IntersectionObserverEntry) (s : State) :
  slot_default sl = None ∨ slot_default sl = Some [] →
  unrealised sl s →
  unrealised sl (transition props e s)
  ∧ errors (host (transition props e s))
    = errors (host s)
      ++ (if negb (isVisible (tracker s)) && isIntersecting e
          then match slot_default sl with None => [TypeError] | Some _ => [] end
          else []).
Proof.
  intros Hsl (Hc & Hd & Hs & Hp). unfold transition.
  destruct (deliver_one props e s) as (D1 & D2 & D3 & D4 & D5 & D6).
  pose proof (deliver_one_errors props e s) as D7.
  set (s' := step props (Deliver [e]) s) in *.
  rewrite Hd in D6. cbn [orb] in D6.
  unfold flush.
  destruct (eqb (isIntersecting e) (isVisible (tracker s))) eqn:Heq.
  - apply eqb_prop in Heq. cbn [negb] in D6. rewrite D6.
    destruct (flush_shape props s' s') as (H1 & H2 & H3 & H4 & H5);
      [by rewrite D6|].
    unfold flush in H1, H2, H3, H4, H5. rewrite D6 in H1, H2, H3, H4, H5.
    rewrite post_render_errors_unrealised by (by rewrite D2).
    unfold unrealised, shows_placeholder in *.
    rewrite H1, H2, H3, H4, H5, D1, D2, D4, D5, D7, Heq.
    split; [done|]. destruct (isVisible (tracker s)); cbn; by rewrite app_nil_r.
  - apply eqb_false_iff in Heq. cbn [negb] in D6. rewrite D6.
    destruct (flush_shape props s' (render_job props s')) as (H1 & H2 & H3 & H4 & H5);
      [by rewrite D6|].
    unfold flush in H1, H2, H3, H4, H5. rewrite D6 in H1, H2, H3, H4, H5.
    unfold unrealised, shows_placeholder in *.
    rewrite H1, H2, H3, H4, H5.
    destruct (isIntersecting e) eqn:He.
    + assert (Hv : isVisible (tracker s) = false) by (by destruct (isVisible (tracker s))).
      rewrite Hv. cbn [negb andb].
      destruct Hsl as [Hsl|Hsl]; rewrite Hsl.
      * destruct (render_job_absent props s') as (R1 & R2 & R3 & R4 & R5 & R6).
        { by rewrite D5, Hs. } { by rewrite D1. }
        rewrite post_render_errors_unrealised by (by rewrite R1, D2).
        unfold shows_placeholder in R2.
        rewrite R1, R2, R3, R4, R5, R6, D1, D2, D5, D7. done.
      * destruct (render_job_empty props s') as (R1 & R2 & R3 & R4 & R5 & R6).
        { by rewrite D5, Hs. } { by rewrite D1. }
        rewrite post_render_errors_unrealised by done.
        unfold shows_placeholder in R2.
        rewrite R1, R2, R3, R4, R5, R6, D1, D5, D7, app_nil_r. done.
    + destruct (render_job_wrapper props s') as (R1 & R2 & R3 & R4 & R5).
      { by rewrite D1. } { by rewrite D2. }
      rewrite post_render_errors_unrealised by done.
      rewrite render_job_wrapper_errors by (by rewrite ?D1, ?D2).
      unfold shows_placeholder in R2.
      rewrite R1, R2, R3, R4, R5, D1, D5, D7, andb_false_r, app_nil_r. done.
Qed.

Lemma transitions_unrealised (props : LazyRenderProps) (sl : Slots)
    (entries : list IntersectionObserverEntry) :
  slot_default sl = None ∨ slot_default sl = Some [] →
  ∀ s, unrealised sl s →
       unrealised sl (transitions props entries s)
       ∧ errors (host (transitions props entries s))
         = errors (host s)
           ++ replicate (rising_edges (isVisible (tracker s)) (isIntersecting <$> entries))
                TypeError
              ≫= (λ x, match slot_default sl with None => [x] | Some _ => [] end).
Proof.
  intros Hsl. induction entries as [|e es IH]; intros s Hu.
  - cbn. by rewrite app_nil_r.
  - destruct (transition_unrealised props sl e s Hsl Hu) as (Hu' & He).
    destruct (IH _ Hu') as (IH1 & IH2).
    change (transitions props (e :: es) s)
      with (transitions props es (transition props e s)).
    split; [done|]. rewrite IH2, He, transition_isVisible. cbn [fmap list_fmap rising_edges].
    rewrite <- app_assoc. f_equal.
    destruct (negb (isVisible (tracker s)) && isIntersecting e); cbn; [|done].
    by destruct (slot_default sl).
Qed.

(** X7. When the default slot is absent or yields no item, the instance
    never leaves the state in which it awaits its first visibility:
    [currentVNode] stays unset through every sequence of transitions, and
    the placeholder is on screen (and is what the render function returns)
    exactly while the last delivered entry is hidden, so it comes back
    each time the element leaves the viewport. *)
Theorem without_content_placeholder_returns pm (props : LazyRenderProps) (sl : Slots)
    (s0 : State) (entries : list IntersectionObserverEntry) :
  mount pm props sl = Normal s0 →
  slot_default sl = None ∨ slot_default sl = Some [] →
  phase (transitions props entries s0) = AwaitingFirstVisibility
  ∧ shows_placeholder (transitions props entries s0)
    = negb (isVisible (tracker (transitions props entries s0)))
  ∧ returns_placeholder props (transitions props entries s0)
    = negb (isVisible (tracker (transitions props entries s0))).
Proof.
  intros Hm Hsl.
  destruct (mount_awaiting pm props sl s0 Hm) as (Hv & Hc & Hp & Hd & Hs).
  destruct (transitions_unrealised props sl entries Hsl s0) as ((U1 & U2 & U3 & U4) & _).
  { unfold unrealised. by rewrite Hv, Hp. }
  unfold phase. rewrite U1, U4. repeat split.
  unfold returns_placeholder, render_fn. rewrite U1, U3. cbn.
  destruct (isVisible (tracker (transitions props entries s0))); cbn; [|done].
  destruct Hsl as [-> | ->]; done.
Qed.

Lemma without_content_placeholder_returns_witness :
  ∃ s0, mount any_margin default_props
          {| slot_default := Some []; slot_fallback := None |} = Normal s0
        ∧ shows_placeholder
            (transitions default_props [entry_for true; entry_for false] s0)
          = negb (isVisible (tracker
               (transitions default_props [entry_for true; entry_for false] s0))).
Proof.
  eexists. split; [reflexivity|].
  destruct (without_content_placeholder_returns any_margin default_props
              {| slot_default := Some []; slot_fallback := None |} _
              [entry_for true; entry_for false] eq_refl) as (_ & H & _).
  - right. reflexivity.
  - exact H.
Defined.

(** X8. With the default slot absent, the render function throws a
    TypeError each time it runs while visible, which is once for every
    change from hidden to visible: after any sequence of transitions the
    errors reported are that many TypeErrors and nothing else.  Hidden
    entries and repeated visible entries report nothing. *)
Theorem absent_default_slot_throws_once_per_appearance pm (props : LazyRenderProps)
    (sl : Slots) (s0 : State) (entries : list IntersectionObserverEntry) :
  mount pm props sl = Normal s0 →
  slot_default sl = None →
  errors (host (transitions props entries s0))
  = replicate (rising_edges false (isIntersecting <$> entries)) TypeError.
Proof.
  intros Hm Hsl.
  destruct (mount_awaiting pm props sl s0 Hm) as (Hv & Hc & Hp & Hd & Hs).
  destruct (mount_clean pm props sl s0 Hm) as (ew & _ & _ & _ & He).
  destruct (transitions_unrealised props sl entries (or_introl Hsl) s0) as (_ & U).
  { unfold unrealised. by rewrite Hv, Hp. }
  rewrite U, He, Hv, Hsl. cbn [app].
  generalize (replicate (rising_edges false (isIntersecting <$> entries)) TypeError).
  intros l. induction l as [|x xs IH]; [done|]. rewrite bind_cons, IH. done.
Qed.

Lemma absent_default_slot_throws_once_per_appearance_witness :
  ∃ s0, mount any_margin default_props
          {| slot_default := None; slot_fallback := None |} = Normal s0
        ∧ errors (host (transitions default_props
                          [entry_for true; entry_for true; entry_for false;
                           entry_for true] s0))
          = [TypeError; TypeError].
Proof.
  eexists. split; [reflexivity|].
  apply (absent_default_slot_throws_once_per_appearance any_margin default_props
           {| slot_default := None; slot_fallback := None |} _
           [entry_for true; entry_for true; entry_for false; entry_for true]
           eq_refl eq_refl).
Defined.

(** ** Several deliveries within one tick *)

Lemma mount_waiting_clean pm (props : LazyRenderProps) (sl : Slots) (s0 : State) :
  mount pm props sl = Normal s0 → ∃ ew, waiting_clean props sl ew s0.
Proof.
  intros Hm.
  destruct (mount_clean pm props sl s0 Hm) as (ew & H1 & H2 & H6 & H8).
  destruct (mount_waiting pm props sl s0 Hm) as (ew' & Hw).
  assert (ew' = ew) as ->.
  { destruct Hw as (_ & _ & _ & _ & _ & Href & _). congruence. }
  by exists ew.
Qed.

Lemma deliveries_frame (props : LazyRenderProps)
    (entries : list IntersectionObserverEntry) :
  ∀ s, vars (run props (deliveries entries) s) = vars s
       ∧ heap (run props (deliveries entries) s) = heap s
       ∧ observer (tracker (run props (deliveries entries) s)) = observer (tracker s)
       ∧ cleanup (tracker (run props (deliveries entries) s)) = cleanup (tracker s)
       ∧ mounted (host (run props (deliveries entries) s)) = mounted (host s)
       ∧ slots (host (run props (deliveries entries) s)) = slots (host s)
       ∧ target_seen (host (run props (deliveries entries) s)) = target_seen (host s)
       ∧ pending_ref (host (run props (deliveries entries) s)) = pending_ref (host s)
       ∧ visible_seen (host (run props (deliveries entries) s)) = visible_seen (host s)
       ∧ errors (host (run props (deliveries entries) s)) = errors (host s).
Proof.
  induction entries as [|e es IH]; intros s; [done|].
  change (run props (deliveries (e :: es)) s)
    with (run props (deliveries es) (step props (Deliver [e]) s)).
  destruct (IH (step props (Deliver [e]) s))
    as (-> & -> & -> & -> & -> & -> & -> & -> & -> & ->).
  destruct (deliver_one props e s) as (_ & -> & -> & -> & -> & _).
  destruct (deliver_one_rest props e s) as (-> & -> & -> & -> & ->).
  by rewrite deliver_one_errors.
Qed.

Lemma deliveries_isVisible (props : LazyRenderProps)
    (entries : list IntersectionObserverEntry) :
  ∀ s, isVisible (tracker (run props (deliveries entries) s))
       = visible_after (isVisible (tracker s)) (deliveries entries).
Proof.
  induction entries as [|e es IH]; intros s; [done|].
  change (run props (deliveries (e :: es)) s)
    with (run props (deliveries es) (step props (Deliver [e]) s)).
  rewrite IH. by destruct (deliver_one props e s) as (-> & _).
Qed.

Lemma flush_keeps_wrapper (props : LazyRenderProps) (sl : Slots) (ew : Element)
    (s : State) :
  isVisible (tracker s) = false →
  currentVNode (vars s) = None →
  containerRef (vars s) = Some ew →
  target_seen (host s) = Some ew →
  pending_ref (host s) = None →
  visible_seen (host s) = false →
  slots (host s) = sl →
  mounted (host s) = MountedWrapper (tag props) ew (slot_fallback sl) →
  vars (flush props s) = vars s
  ∧ heap (flush props s) = heap s
  ∧ observer (tracker (flush props s)) = observer (tracker s)
  ∧ cleanup (tracker (flush props s)) = cleanup (tracker s)
  ∧ isVisible (tracker (flush props s)) = false
  ∧ mounted (host (flush props s)) = mounted (host s)
  ∧ slots (host (flush props s)) = sl
  ∧ target_seen (host (flush props s)) = Some ew
  ∧ pending_ref (host (flush props s)) = None
  ∧ visible_seen (host (flush props s)) = false
  ∧ render_dirty (host (flush props s)) = false
  ∧ errors (host (flush props s)) = errors (host s).
Proof.
  intros Hv Hc Href Hts Hp Hvs Hs Hm.
  destruct (render_dirty (host s)) eqn:Hd.
  - destruct s as [[iv ob cl] [cr rd cv] hp [sl' mt dirty vs ts pr em er]].
    cbn in *. subst.
    unfold flush, post_render, render_job, render_fn, patch_root. cbn.
    rewrite decide_True by done.
    unfold flush_target_watcher, flush_ref, flush_visible_watcher. cbn.
    destruct (decide (Some ew = Some ew)) as [_|]; [|done]. cbn.
    destruct (decide (false = false)) as [_|]; [|done]. cbn.
    destruct (decide (Some ew = Some ew)) as [_|]; [|done]. done.
  - rewrite flush_quiet; try done; try congruence.
Qed.

Lemma deliveries_flush_waiting (props : LazyRenderProps)
    (sl : Slots) (ew : Element) (s : State)
    (entries : list IntersectionObserverEntry) :
  waiting_clean props sl ew s →
  visible_after false (deliveries entries) = false →
  waiting_clean props sl ew (flush props (run props (deliveries entries) s)).
Proof.
  intros (((Hv & Hc & Hsp & Hd & Hs) & ((Hcl & Htg) & Hsy) & Hp & Hvs
           & Hmt & Href & Hew & Hcr & Hde) & Hm & Hr & Her) Hlast.
  destruct (deliveries_frame props entries s)
    as (F1 & F2 & F3 & F4 & F5 & F6 & F7 & F8 & F9 & F10).
  pose proof (deliveries_isVisible props entries s) as Hvis.
  rewrite Hv, Hlast in Hvis.
  set (s' := run props (deliveries entries) s) in *.
  destruct (flush_keeps_wrapper props sl ew s')
    as (G1 & G2 & G3 & G4 & G5 & G6 & G7 & G8 & G9 & G10 & G11 & G12);
    try congruence.
  unfold waiting_clean, waiting, awaiting_inv, synced, tracker_consistent,
    shows_placeholder.
  rewrite G1, G2, G3, G4, G5, G6, G7, G8, G9, G10, G11, G12.
  rewrite F1, F2, F3, F4, F5, F10, Hm, Hc, Href.
  repeat split; try done; try congruence.
  eauto.
Qed.

(** X9. What counts is the visibility at render time.  Before the first
    visibility, any number of deliveries without a tick in between whose
    last entry is hidden, followed by one tick, mount nothing: the same
    wrapper element stays on screen and observed, no observer request is
    sent, the heap is untouched, the watcher of [isVisible] does not run
    and no error is reported, even if some of the deliveries were visible. *)
Theorem toggling_back_within_a_tick_mounts_nothing (props : LazyRenderProps)
    (sl : Slots) (ew : Element) (s : State)
    (entries : list IntersectionObserverEntry) :
  waiting_clean props sl ew s →
  visible_after false (deliveries entries) = false →
  waiting_clean props sl ew (flush props (run props (deliveries entries) s))
  ∧ heap (flush props (run props (deliveries entries) s)) = heap s
  ∧ observer (tracker (flush props (run props (deliveries entries) s)))
    = observer (tracker s)
  ∧ phase (flush props (run props (deliveries entries) s)) = AwaitingFirstVisibility.
Proof.
  intros Hw Hlast.
  pose proof (deliveries_flush_waiting props sl ew s entries Hw Hlast) as Hw'.
  split; [exact Hw'|].
  destruct Hw as (((Hv & Hc & _ & _ & Hs) & (_ & Hsy) & Hp & Hvs & _ & Href & _) & Hm & _).
  destruct (deliveries_frame props entries s)
    as (F1 & F2 & F3 & _ & F5 & F6 & F7 & F8 & F9 & _).
  pose proof (deliveries_isVisible props entries s) as Hvis.
  rewrite Hv, Hlast in Hvis.
  set (s' := run props (deliveries entries) s) in *.
  destruct (flush_keeps_wrapper props sl ew s') as (G1 & G2 & G3 & _);
    try congruence.
  rewrite G2, G3, F2, F3. split; [done|]. split; [done|].
  unfold phase. by rewrite G1, F1, Hc.
Qed.

Lemma toggling_back_within_a_tick_mounts_nothing_witness :
  heap (flush example_props
          (run example_props
             (deliveries [entry_for true; entry_for false; entry_for true; entry_for false])
             example_mounted))
  = heap example_mounted.
Proof.
  destruct (mount_waiting_clean any_margin example_props example_slots
              example_mounted eq_refl) as (ew & Hw).
  destruct (toggling_back_within_a_tick_mounts_nothing example_props example_slots ew
              example_mounted
              [entry_for true; entry_for false; entry_for true; entry_for false]
              Hw eq_refl) as (_ & H & _).
  exact H.
Defined.

(** ** Regular use: a component first in the default slot *)

Lemma flush_target_watcher_errors (s : State) :
  errors (host (flush_target_watcher s)) = errors (host s).
Proof. unfold flush_target_watcher. unfold_state_ops. case_decide; done. Qed.

Lemma flush_ref_errors (s : State) :
  errors (host (flush_ref s)) = errors (host s).
Proof. unfold flush_ref. unfold_state_ops. by destruct (pending_ref (host s)). Qed.

Lemma render_job_items_errors (props : LazyRenderProps) (s : State)
    (ds : list VNodeDesc) :
  slot_default (slots (host s)) = Some ds →
  isVisible (tracker s) = true ∨ currentVNode (vars s) ≠ None →
  errors (host (render_job props s)) = errors (host s).
Proof.
  intros Hs Hv. unfold render_job. rewrite (render_fn_items props s ds Hs Hv).
  unfold set_host at 1. cbn [host errors set_render_dirty].
  by rewrite patch_root_errors.
Qed.

Lemma flush_visible_watcher_errors (s : State) (v : nat) (x : VNode) :
  currentVNode (vars s) = Some v →
  vnodes (heap s) !! v = Some x →
  errors (host (flush_visible_watcher s))
  = errors (host s)
    ++ (if decide (isVisible (tracker s) = visible_seen (host s)) then []
        else match component x with
             | Some c => if instances (heap s) !! c is Some _ then [] else [TypeError]
             | None => [TypeError]
             end).
Proof.
  intros Hc Hv. unfold flush_visible_watcher.
  case_decide; [by rewrite app_nil_r|].
  unfold visible_watch_cb. unfold_state_ops. cbn. rewrite Hc, Hv.
  destruct (component x) as [c|]; cbn; [|done].
  destruct (instances (heap s) !! c); cbn; [|done].
  rewrite app_nil_r. by destruct (isVisible (tracker s)).
Qed.

Lemma post_render_errors (s : State) (v : nat) (x : VNode) :
  currentVNode (vars s) = Some v →
  vnodes (heap s) !! v = Some x →
  errors (host (post_render s))
  = errors (host s)
    ++ (if decide (isVisible (tracker s) = visible_seen (host s)) then []
        else match component x with
             | Some c => if instances (heap s) !! c is Some _ then [] else [TypeError]
             | None => [TypeError]
             end).
Proof.
  intros Hc Hv. unfold post_render.
  destruct (flush_target_watcher_frame s) as (A1 & A2 & A3 & A4 & A5 & A6 & A7 & A8 & _).
  pose proof (flush_target_watcher_errors s) as A9.
  set (a := flush_target_watcher s) in *.
  destruct (flush_ref_frame a) as (B1 & B2 & B3 & _ & _ & _ & _ & B8 & _).
  pose proof (flush_ref_errors a) as B9.
  set (b := flush_ref a) in *.
  rewrite flush_target_watcher_errors.
  rewrite (flush_visible_watcher_errors b v x) by (by rewrite ?B2, ?B3, ?A1, ?A2).
  by rewrite B1, B2, B8, B9, A2, A3, A7, A9.
Qed.

Lemma tracks_slot (c : nat) (name : CompName) (s : State) :
  tracks c name s →
  (∃ ds, slot_default (slots (host s)) = Some ds) ∧ currentVNode (vars s) ≠ None.
Proof.
  intros (_ & (d & ds & Hs & _) & (v & vs & x & _ & Hc & _) & _).
  split; [eauto|]. by rewrite Hc.
Qed.

Lemma transition_tracked_errors (props : LazyRenderProps) (c : nat) (name : CompName)
    (e : IntersectionObserverEntry) (s : State) (i : Component.instance) :
  tracks c name s →
  instances (heap s) !! c = Some i →
  errors (host (transition props e s)) = errors (host s)
  ∧ (render_dirty (host s) = false
     → render_dirty (host (transition props e s)) = false).
Proof.
  intros Ht Hi. unfold transition.
  destruct (deliver_one props e s) as (D1 & D2 & D3 & D4 & D5 & D6).
  destruct (deliver_one_rest props e s) as (E1 & E2 & E3 & E4 & E5).
  pose proof (deliver_one_errors props e s) as D7.
  set (s' := step props (Deliver [e]) s) in *.
  assert (Ht' : tracks c name s').
  { apply (tracks_ext c name s); try done; by rewrite ?D2, ?D3. }
  assert (∃ s1 i1, s1 = (if render_dirty (host s') then render_job props s' else s')
                   ∧ tracks c name s1
                   ∧ instances (heap s1) !! c = Some i1
                   ∧ errors (host s1) = errors (host s)
                   ∧ (render_dirty (host s) = false → render_dirty (host s1) = false))
    as (s1 & i1 & Hs1 & T1 & I1 & Er1 & Dr1).
  { destruct (render_dirty (host s')) eqn:Hd.
    - destruct (render_job_tracks props c name s' i Ht')
        as (R1 & (i' & R2 & _) & _ & _ & _ & _ & R10); [by rewrite D3|].
      destruct (tracks_slot c name s' Ht') as ((ds & Hds) & Hcv).
      exists (render_job props s'), i'.
      split; [done|]. split; [exact R1|]. split; [exact R2|]. split; [|done].
      by rewrite (render_job_items_errors props s' ds Hds (or_intror Hcv)).
    - exists s', i.
      split; [done|]. split; [exact Ht'|]. split; [by rewrite D3|]. split; [done|].
      by intros _. }
  destruct (flush_shape props s' s1 Hs1) as (_ & _ & F3 & _).
  unfold flush. rewrite <- Hs1. unfold flush in F3. rewrite <- Hs1 in F3.
  pose proof T1 as (Hp & _ & (v & vs & x & _ & Hc & Hv & _ & Hco & _) & _).
  rewrite (post_render_errors s1 v x Hc Hv), Hco, I1.
  split.
  - rewrite Er1. case_decide; by rewrite app_nil_r.
  - intros Hd. rewrite F3. by apply Dr1.
Qed.

Lemma mount_children_first_component (name : CompName) (n : nat) (ns : list nat)
    (d : VNodeDesc) (h : Heap) :
  vnodes h !! n = Some (fresh_vnode d) →
  d_type d = TComponent name →
  n ∉ ns →
  (∀ k, k ∈ ns → ∃ y, vnodes h !! k = Some y ∧ component y = None) →
  (∃ x, vnodes (mount_children (n :: ns) h) !! n = Some x
        ∧ v_type x = TComponent name
        ∧ component x = Some (next_instance h))
  ∧ instances (mount_children (n :: ns) h) !! next_instance h
    = Some {| Component.type := name; Component.data := d_data d;
              Component.render := SetupRender (next_instance h);
              Component.subTree := {| rendered_by := name;
                                      rendered_from := d_data d |} |}
  ∧ avoids (next_instance h) ns (mount_children (n :: ns) h)
  ∧ next_vnode (mount_children (n :: ns) h) = next_vnode h
  ∧ destroyed (mount_children (n :: ns) h) = destroyed h.
Proof.
  intros Hn Hd Hnn Hns.
  unfold mount_children. cbn [fold_left]. fold (mount_children ns (mount_vnode n h)).
  set (c := next_instance h). set (h2 := mount_vnode n h).
  assert (V2 : vnodes h2
               = <[n := set_component_el (Some c) (Some (next_element h)) (fresh_vnode d)]>
                   (vnodes h)).
  { unfold h2, mount_vnode. rewrite Hn. cbn. by rewrite Hd. }
  assert (I2 : instances h2 !! c
               = Some {| Component.type := name; Component.data := d_data d;
                         Component.render := SetupRender c;
                         Component.subTree := {| rendered_by := name;
                                                 rendered_from := d_data d |} |}).
  { unfold h2, mount_vnode. rewrite Hn. cbn. rewrite Hd. cbn.
    by rewrite lookup_insert_eq. }
  assert (N2 : next_instance h2 = S c).
  { unfold h2, mount_vnode. rewrite Hn. cbn. by rewrite Hd. }
  assert (W2 : next_vnode h2 = next_vnode h).
  { unfold h2, mount_vnode. rewrite Hn. cbn. by rewrite Hd. }
  assert (D2 : destroyed h2 = destroyed h).
  { unfold h2, mount_vnode. rewrite Hn. cbn. by rewrite Hd. }
  assert (Hav : avoids c ns h2).
  { split; [rewrite N2; lia|]. intros k y Hk Hy.
    rewrite V2, lookup_insert_ne in Hy by (intros ->; done).
    destruct (Hns k Hk) as (y' & Hy' & Hcy). congruence. }
  destruct (mount_children_avoids c ns ns h2 Hav) as (B1 & B2 & B3 & B4 & B5).
  rewrite B2, B3, B4, B5, I2, V2, W2, D2, lookup_insert_eq by done.
  split; [|done]. eexists. split; [done|]. by cbn.
Qed.

Lemma first_visible_healthy (props : LazyRenderProps) (sl : Slots) (ew : Element)
    (name : CompName) (d : VNodeDesc) (ds : list VNodeDesc)
    (e : IntersectionObserverEntry) (s : State) :
  waiting_clean props sl ew s →
  slot_default sl = Some (d :: ds) →
  d_type d = TComponent name →
  isIntersecting e = true →
  ∃ c, healthy c name (transition props e s).
Proof.
  intros (((Hv & Hc & Hsp & Hd & Hs) & ((Hcl & Htg) & Hsy) & Hp & Hvs
           & Hmt & Href & Hew & Hcr & Hde) & Hm & Hr & Her) Hsl Hty He.
  unfold transition.
  destruct (deliver_one props e s) as (D1 & D2 & D3 & D4 & D5 & D6).
  destruct (deliver_one_rest props e s) as (E1 & E2 & E3 & E4 & E5).
  pose proof (deliver_one_errors props e s) as D7.
  set (s' := step props (Deliver [e]) s) in *.
  rewrite Hv, He, Hd in D6. cbn in D6.
  unfold flush. rewrite D6.
  assert (Hsl' : slot_default (slots (host s')) = Some (d :: ds)) by (by rewrite D5, Hs).
  assert (Hv' : isVisible (tracker s') = true) by congruence.
  pose proof (render_job_first props s' (d :: ds) (tag props) ew (slot_fallback sl)
                Hsl' (or_introl Hv') ltac:(by rewrite D4)) as HA.
  destruct (alloc_vnodes_spec (d :: ds) (heap s'))
    as (L1 & L2 & L3 & L4 & L5 & L6 & L7 & L8 & L9).
  set (h1 := (alloc_vnodes (d :: ds) (heap s')).2) in *.
  rewrite L1 in L9, HA. cbn [length seq] in L9, HA, L2.
  set (n := next_vnode (heap s')) in *. set (ns := seq (S n) (length ds)) in *.
  unfold lookups in L9. cbn [fmap list_fmap] in L9.
  change (list_fmap _ _ ?f ?l) with (f <$> l) in L9.
  injection L9 as L9 L10.
  destruct (mount_children_first_component name n ns d h1 L9 Hty)
    as ((x & X1 & X2 & X3) & I & Av & NV & De).
  { unfold ns. rewrite elem_of_seq. lia. }
  { intros k Hk. apply list_elem_of_lookup in Hk as (j & Hj).
    assert (((λ v, vnodes h1 !! v) <$> ns) !! j = Some (vnodes h1 !! k)) as Hl.
    { by rewrite list_lookup_fmap, Hj. }
    rewrite L10, list_lookup_fmap in Hl.
    destruct (ds !! j) as [d'|]; [|done]. cbn in Hl. injection Hl as Hl.
    exists (fresh_vnode d'). by split. }
  set (c := next_instance h1) in *.
  set (A := render_job props s') in *.
  assert (A1 : heap A = mount_children (n :: ns) h1) by (by rewrite HA).
  assert (A2 : tracker A = tracker s') by (by rewrite HA).
  assert (A3 : currentVNode (vars A) = Some n) by (by rewrite HA).
  assert (A4 : render (vars A) = None) by (rewrite HA; cbn; by rewrite D2).
  assert (A5 : mounted (host A) = MountedItems (n :: ns)) by (by rewrite HA).
  assert (A6 : slots (host A) = sl) by (rewrite HA; cbn; by rewrite D5).
  assert (A7 : pending_ref (host A) = None) by (rewrite HA; cbn; by rewrite E4).
  assert (A8 : visible_seen (host A) = false) by (rewrite HA; cbn; by rewrite E5).
  assert (A9 : errors (host A) = []) by (rewrite HA; cbn; by rewrite D7).
  assert (A10 : render_dirty (host A) = false) by (by rewrite HA).
  assert (Ht : tracks c name A).
  { unfold tracks. rewrite A1, A3, A5, A6, A7, NV, De, L7, D3, Hde.
    split; [done|]. split; [eauto|]. split; [|apply not_elem_of_nil].
    exists n, ns, x. repeat split; try done.
    - rewrite L2. apply Forall_forall. intros k Hk.
      change (n :: ns) with (seq n (S (length ds))) in Hk.
      apply elem_of_seq in Hk. cbn [length]. lia.
    - apply Av.
    - apply Av. }
  assert (Hi : instances (heap A) !! c
               = Some {| Component.type := name; Component.data := d_data d;
                         Component.render := SetupRender c;
                         Component.subTree := {| rendered_by := name;
                                                 rendered_from := d_data d |} |})
    by (by rewrite A1).
  assert (Hne : isVisible (tracker A) ≠ visible_seen (host A))
    by (by rewrite A2, A8, Hv').
  destruct (post_render_toggle c name A _ Ht Hne Hi)
    as (P1 & P2 & P3 & P4 & P5 & P6 & P7).
  rewrite A2, Hv' in P2, P3, P4, P5. rewrite A4 in P2. cbn in P2.
  exists c. unfold healthy.
  rewrite (post_render_errors A n x A3), X3, Hi, P4, P7 by (by rewrite A1).
  split; [rewrite A9; by case_decide|]. split; [done|].
  unfold live. rewrite P2, P4, P5, lookup_insert_eq.
  split; [exact P1|]. split; [done|]. split; [done|].
  eexists. split; [done|]. by cbn.
Qed.

Lemma live_same_transition (props : LazyRenderProps) (c : nat) (name : CompName)
    (e : IntersectionObserverEntry) (s : State) :
  live c name s →
  render_dirty (host s) = false →
  isIntersecting e = true →
  live c name (transition props e s).
Proof.
  intros (Ht & Hv & Hs & i & Hi & Hn & Hr) Hd He. unfold transition.
  destruct (deliver_one props e s) as (D1 & D2 & D3 & D4 & D5 & D6).
  destruct (deliver_one_rest props e s) as (E1 & E2 & E3 & E4 & E5).
  set (s' := step props (Deliver [e]) s) in *.
  rewrite Hv, He, Hd in D6. cbn in D6.
  unfold flush. rewrite D6.
  pose proof Ht as (Hp & _).
  destruct (post_render_quiet s') as (Q1 & Q2 & Q3 & Q4 & Q5 & Q6 & Q7 & Q8).
  { by rewrite E4. }
  { by rewrite D1, E5, He, Hs. }
  unfold live. rewrite Q1, Q3, Q7, D1, D3, E5, He, Hs, Hi.
  split; [|eauto 10].
  apply (tracks_ext c name s); try done;
    rewrite ?Q1, ?Q2, ?Q4, ?Q5, ?Q8, ?D2, ?D3, ?D4, ?D5; congruence.
Qed.

Lemma healthy_transition (props : LazyRenderProps) (c : nat) (name : CompName)
    (e : IntersectionObserverEntry) (s : State) :
  healthy c name s → healthy c name (transition props e s).
Proof.
  intros (Her & Hd & Hl).
  assert (∃ i, tracks c name s ∧ instances (heap s) !! c = Some i) as (i & Ht & Hi).
  { destruct (isVisible (tracker s)).
    - destruct Hl as (Ht & _ & _ & i & Hi & _). eauto.
    - destruct Hl as (t & Ht & _ & _ & _ & i & Hi & _). eauto. }
  destruct (transition_tracked_errors props c name e s i Ht Hi) as (E1 & E2).
  unfold healthy. rewrite E1, (E2 Hd), transition_isVisible.
  split; [done|]. split; [done|].
  destruct (isVisible (tracker s)) eqn:Hv, (isIntersecting e) eqn:He.
  - by apply live_same_transition.
  - by apply freeze_transition.
  - destruct Hl as (t & Hf). by apply (unfreeze_transition props c name t).
  - destruct Hl as (t & Hf). exists t. unfold transition.
    apply frozen_flush. apply frozen_step; [done|]. exact He.
Qed.

Lemma transitions_healthy (props : LazyRenderProps) (c : nat) (name : CompName)
    (entries : list IntersectionObserverEntry) :
  ∀ s, healthy c name s → healthy c name (transitions props entries s).
Proof.
  induction entries as [|e es IH]; intros s Hh; [done|].
  apply IH. by apply healthy_transition.
Qed.

Lemma hidden_keeps_waiting_clean (props : LazyRenderProps) (sl : Slots) (ew : Element)
    (e : IntersectionObserverEntry) (s : State) :
  waiting_clean props sl ew s →
  isIntersecting e = false →
  waiting_clean props sl ew (transition props e s).
Proof.
  intros Hw He.
  apply (deliveries_flush_waiting props sl ew s [e] Hw). by cbn.
Qed.

Lemma transitions_reach_healthy (props : LazyRenderProps) (sl : Slots) (ew : Element)
    (name : CompName) (d : VNodeDesc) (ds : list VNodeDesc)
    (entries : list IntersectionObserverEntry) :
  slot_default sl = Some (d :: ds) →
  d_type d = TComponent name →
  Exists (λ e, isIntersecting e = true) entries →
  ∀ s, waiting_clean props sl ew s →
       ∃ c, healthy c name (transitions props entries s).
Proof.
  intros Hsl Hty. induction entries as [|e es IH]; intros Hex s Hw.
  - by apply Exists_nil in Hex.
  - change (transitions props (e :: es) s)
      with (transitions props es (transition props e s)).
    destruct (isIntersecting e) eqn:He.
    + destruct (first_visible_healthy props sl ew name d ds e s Hw Hsl Hty He)
        as (c & Hh).
      exists c. by apply transitions_healthy.
    + apply IH.
      * apply Exists_cons in Hex as [Hex|Hex]; [congruence|done].
      * by apply hidden_keeps_waiting_clean.
Qed.

(** X10. Regular use.  When the first item of the default slot is a
    component, then from the first visible entry on and whatever entries
    follow, one per tick: the tracked instance stays the same one and is
    never destroyed, no error is reported, the component is in the live
    state exactly while [isVisible] holds and in the frozen state
    otherwise, the instance's [render] is its own render function while
    live and the pinned one while frozen, and while frozen the variable
    [render] holds the instance's own render function. *)
Theorem component_is_live_iff_visible pm (props : LazyRenderProps) (sl : Slots)
    (s0 : State) (name : CompName) (d : VNodeDesc) (ds : list VNodeDesc)
    (entries : list IntersectionObserverEntry) :
  mount pm props sl = Normal s0 →
  slot_default sl = Some (d :: ds) →
  d_type d = TComponent name →
  Exists (λ e, isIntersecting e = true) entries →
  ∃ c, ∀ more,
    tracked (transitions props (entries ++ more) s0) = Some c
    ∧ (c ∉ destroyed (heap (transitions props (entries ++ more) s0)))
    ∧ errors (host (transitions props (entries ++ more) s0)) = []
    ∧ phase (transitions props (entries ++ more) s0)
      = (if isVisible (tracker (transitions props (entries ++ more) s0))
         then LiveMounted else FrozenMounted)
    ∧ (∃ i, instances (heap (transitions props (entries ++ more) s0)) !! c = Some i
            ∧ Component.type i = name
            ∧ Component.render i
              = (if isVisible (tracker (transitions props (entries ++ more) s0))
                 then SetupRender c else SubTreeOf c))
    ∧ (isVisible (tracker (transitions props (entries ++ more) s0)) = false
       → render (vars (transitions props (entries ++ more) s0)) = Some (SetupRender c)).
Proof.
  intros Hm Hsl Hty Hex.
  destruct (mount_waiting_clean pm props sl s0 Hm) as (ew & Hw).
  destruct (transitions_reach_healthy props sl ew name d ds entries Hsl Hty Hex s0 Hw)
    as (c & Hh).
  exists c. intros more.
  unfold transitions. rewrite fold_left_app.
  fold (transitions props entries s0).
  fold (transitions props more (transitions props entries s0)).
  pose proof (transitions_healthy props c name more _ Hh) as (Her & _ & Hl).
  set (s := transitions props more (transitions props entries s0)) in *.
  assert (∃ i, tracks c name s ∧ instances (heap s) !! c = Some i
               ∧ Component.type i = name
               ∧ Component.render i
                 = (if isVisible (tracker s) then SetupRender c else SubTreeOf c)
               ∧ (isVisible (tracker s) = false
                  → render (vars s) = Some (SetupRender c)))
    as (i & Ht & Hi & Hn & Hr & Hsv).
  { destruct (isVisible (tracker s)).
    - destruct Hl as (Ht & _ & _ & i & Hi & Hn & Hr). exists i.
      split; [exact Ht|]. by repeat split.
    - destruct Hl as (t & Ht & _ & _ & Hsv & i & Hi & Hn & Hr & _).
      exists i. split; [exact Ht|]. by repeat split. }
  pose proof (tracks_tracked c name s Ht) as Htr.
  pose proof Ht as (_ & _ & (v & vs & x & _ & Hc & _) & Hde).
  split; [done|]. split; [done|]. split; [done|]. split; [|eauto].
  unfold phase. rewrite Hc, Htr. cbn. rewrite Hi.
  destruct i as [ty da re su]. cbn in Hr. subst re.
  by destruct (isVisible (tracker s)).
Qed.

Lemma component_is_live_iff_visible_witness :
  ∃ c, ∀ more,
    phase (transitions example_props ([entry_for false; entry_for true] ++ more)
             example_mounted)
    = (if isVisible (tracker (transitions example_props
                                ([entry_for false; entry_for true] ++ more)
                                example_mounted))
       then LiveMounted else FrozenMounted)
    ∧ tracked (transitions example_props ([entry_for false; entry_for true] ++ more)
                 example_mounted) = Some c.
Proof.
  destruct (component_is_live_iff_visible any_margin example_props example_slots
              example_mounted 0 {| d_type := TComponent 0; d_data := 0 |}
              [{| d_type := TElement "p"; d_data := 0 |}]
              [entry_for false; entry_for true] eq_refl eq_refl eq_refl)
    as (c & H).
  { apply Exists_cons_tl, Exists_cons_hd. reflexivity. }
  exists c. intros more. destruct (H more) as (H1 & _ & _ & H4 & _). by split.
Defined.

(** ** The first item replaced while the content is frozen *)

Lemma bounded_ext (h h' : Heap) :
  vnodes h' = vnodes h → next_instance h' = next_instance h →
  destroyed h' = destroyed h →
  bounded h → bounded h'.
Proof. unfold bounded. intros -> -> ->. done. Qed.

Lemma alloc_vnodes_bounded (ds : list VNodeDesc) :
  ∀ h, bounded h → bounded (alloc_vnodes ds h).2.
Proof.
  induction ds as [|d ds IH]; intros h Hb; [done|].
  cbn [alloc_vnodes]. unfold alloc_vnode.
  match goal with |- context [alloc_vnodes ds ?h1] =>
    specialize (IH h1); destruct (alloc_vnodes ds h1) as [ns h2] end.
  cbn. apply IH. destruct Hb as [Hb1 Hb2]. split; [|done].
  intros k y c Hk Hc. cbn in *.
  destruct (decide (k = next_vnode h)) as [->|Hne].
  - rewrite lookup_insert_eq in Hk. injection Hk as <-. done.
  - rewrite lookup_insert_ne in Hk by done. eauto.
Qed.

Lemma mount_vnode_bounded (n : nat) (h : Heap) :
  bounded h → bounded (mount_vnode n h).
Proof.
  intros [Hb1 Hb2]. unfold mount_vnode.
  destruct (vnodes h !! n) as [vn|] eqn:Hn; [|done].
  destruct (v_type vn) eqn:Hty; (split; [intros k y c Hk Hc|]); cbn in *.
  - destruct (decide (k = n)) as [->|Hne].
    + rewrite lookup_insert_eq in Hk. injection Hk as <-. cbn in Hc.
      injection Hc as <-. split; [lia|]. cbn. eauto.
    + rewrite lookup_insert_ne in Hk by done.
      destruct (Hb1 k y c Hk Hc) as [Hlt Hco]. split; [lia|done].
  - eapply Forall_impl; [exact Hb2|]. cbn. lia.
  - destruct (decide (k = n)) as [->|Hne].
    + rewrite lookup_insert_eq in Hk. injection Hk as <-. done.
    + rewrite lookup_insert_ne in Hk by done. eauto.
  - done.
Qed.

Lemma unmount_vnode_bounded (o : nat) (h : Heap) :
  bounded h → bounded (unmount_vnode o h).
Proof.
  intros [Hb1 Hb2]. unfold unmount_vnode.
  destruct (vnodes h !! o) as [vo|] eqn:Ho; [|done].
  destruct vo as [ty da [c|] e]; [|done].
  split; [done|]. cbn. apply Forall_app. split; [done|].
  apply Forall_singleton. by apply (Hb1 o _ c Ho).
Qed.

Lemma patch_vnode_bounded (o n : nat) (h : Heap) :
  bounded h → bounded (patch_vnode o n h).
Proof.
  intros Hb. unfold patch_vnode.
  destruct (vnodes h !! o) as [vo|] eqn:Ho; [|done].
  destruct (vnodes h !! n) as [vn|] eqn:Hn; [|done].
  case_decide as Hty; [|by apply mount_vnode_bounded, unmount_vnode_bounded].
  assert (H1 : bounded (set_vnodes (insert n (set_component_el (component vo) (el vo) vn)) h)).
  { destruct Hb as [Hb1 Hb2]. split; [|done]. intros k y c Hk Hc. cbn in *.
    destruct (decide (k = n)) as [->|Hne].
    - rewrite lookup_insert_eq in Hk. injection Hk as <-. cbn in Hc. cbn.
      rewrite <- Hty. eauto.
    - rewrite lookup_insert_ne in Hk by done. eauto. }
  destruct (component vo) as [c'|]; [|done].
  case_decide; [done|].
  match goal with |- bounded (update_instance c' ?h1) =>
    destruct (update_instance_frame c' h1) as (U1 & _ & U3 & _ & U5);
    apply (bounded_ext h1); [done|done|done|] end.
  by apply (bounded_ext (set_vnodes (insert n (set_component_el (Some c') (el vo) vn)) h)).
Qed.

Lemma mount_children_bounded (news : list nat) :
  ∀ h, bounded h → bounded (mount_children news h).
Proof.
  induction news as [|n news IH]; intros h Hb; [done|].
  apply IH. by apply mount_vnode_bounded.
Qed.

Lemma unmount_children_bounded (olds : list nat) :
  ∀ h, bounded h → bounded (unmount_children olds h).
Proof.
  induction olds as [|o olds IH]; intros h Hb; [done|].
  apply IH. by apply unmount_vnode_bounded.
Qed.

Lemma patch_children_bounded (olds : list nat) :
  ∀ news h, bounded h → bounded (patch_children olds news h).
Proof.
  induction olds as [|o olds IH]; intros news h Hb.
  - cbn. destruct news; by apply mount_children_bounded.
  - destruct news as [|n news]; cbn [patch_children].
    + by apply unmount_children_bounded.
    + apply IH. by apply patch_vnode_bounded.
Qed.

Lemma unmount_mounted_bounded (s : State) :
  bounded (heap s) → bounded (heap (unmount_mounted s)).
Proof.
  intros Hb. unfold unmount_mounted.
  destruct (mounted (host s)); try done. by apply unmount_children_bounded.
Qed.

Lemma patch_root_bounded (out : RenderOutput) (s : State) :
  bounded (heap s) → bounded (heap (patch_root out s)).
Proof.
  intros Hb. unfold patch_root, mount_wrapper.
  destruct out as [t ch|vs].
  - destruct (mounted (host s)) eqn:Hm; try case_decide; try done;
      apply (bounded_ext (heap (unmount_mounted s))); try done;
      by apply unmount_mounted_bounded.
  - destruct (mounted (host s)) eqn:Hm; cbn;
      try (apply mount_children_bounded; by apply unmount_mounted_bounded).
    by apply patch_children_bounded.
Qed.

Lemma render_job_bounded (props : LazyRenderProps) (s : State) :
  bounded (heap s) → bounded (heap (render_job props s)).
Proof.
  intros Hb. unfold render_job, render_fn.
  destruct (negb _ && negb _).
  - cbn. by apply patch_root_bounded.
  - destruct (slot_default (slots (host s))) as [ds|].
    + pose proof (alloc_vnodes_bounded ds (heap s) Hb) as Ha.
      destruct (alloc_vnodes ds (heap s)) as [vs h']. cbn.
      by apply patch_root_bounded.
    + cbn. by apply unmount_mounted_bounded.
Qed.

Lemma post_render_bounded (s : State) :
  bounded (heap s) → bounded (heap (post_render s)).
Proof.
  intros Hb. unfold post_render.
  destruct (flush_target_watcher_frame s) as (_ & A2 & _).
  set (a := flush_target_watcher s) in *.
  destruct (flush_ref_frame a) as (_ & B2 & _).
  set (b := flush_ref a) in *.
  assert (Hc : bounded (heap (flush_visible_watcher b))).
  { unfold flush_visible_watcher. case_decide; [by rewrite B2, A2|].
    match goal with |- context [visible_watch_cb ?v ?x] =>
      destruct (visible_watch_cb_frame v x) as (_ & _ & _ & V4 & _ & V6 & _ & V8);
      destruct (visible_watch_cb v x) as [r s1] end.
    cbn in V4, V6, V8.
    apply (bounded_ext (heap b)); [by destruct r..|by rewrite B2, A2]. }
  set (c := flush_visible_watcher b) in *.
  by destruct (flush_target_watcher_frame c) as (_ & -> & _).
Qed.

Lemma flush_bounded (props : LazyRenderProps) (s : State) :
  bounded (heap s) → bounded (heap (flush props s)).
Proof.
  intros Hb. unfold flush. apply post_render_bounded.
  destruct (render_dirty (host s)); [by apply render_job_bounded|done].
Qed.

Lemma transitions_bounded (props : LazyRenderProps)
    (entries : list IntersectionObserverEntry) :
  ∀ s, bounded (heap s) → bounded (heap (transitions props entries s)).
Proof.
  induction entries as [|e es IH]; intros s Hb; [done|].
  apply IH. unfold transition. apply flush_bounded.
  by destruct (deliver_one props e s) as (_ & _ & -> & _).
Qed.

Lemma mount_bounded pm (props : LazyRenderProps) (sl : Slots) (s0 : State) :
  mount pm props sl = Normal s0 → bounded (heap s0).
Proof.
  intros Hm. rewrite (mount_state pm props sl s0 Hm).
  apply flush_bounded. split; [|done].
  intros k y c Hk. cbn in Hk. by rewrite lookup_empty in Hk.
Qed.

Lemma mount_vnode_destroyed (n : nat) (h : Heap) :
  destroyed (mount_vnode n h) = destroyed h.
Proof. unfold mount_vnode. repeat case_match; done. Qed.

Lemma unmount_vnode_destroyed (c : nat) (o : nat) (h : Heap) :
  c ∈ destroyed h → c ∈ destroyed (unmount_vnode o h).
Proof.
  intros Hc. unfold unmount_vnode. repeat case_match; try done.
  cbn. apply elem_of_app. by left.
Qed.

Lemma mount_children_spec_destroyed (news : list nat) (h : Heap) :
  destroyed (mount_children news h) = destroyed h.
Proof.
  revert h. induction news as [|n news IH]; intros h; [done|].
  unfold mount_children. cbn [fold_left]. fold (mount_children news (mount_vnode n h)).
  by rewrite IH, mount_vnode_destroyed.
Qed.

Lemma patch_vnode_destroyed (c : nat) (o n : nat) (h : Heap) :
  c ∈ destroyed h → c ∈ destroyed (patch_vnode o n h).
Proof.
  intros Hc. unfold patch_vnode.
  destruct (vnodes h !! o) as [vo|]; [|done].
  destruct (vnodes h !! n) as [vn|]; [|done].
  case_decide.
  - destruct (component vo) as [c'|]; [|done].
    case_decide; [done|].
    match goal with |- _ ∈ destroyed (update_instance c' ?h1) =>
      destruct (update_instance_frame c' h1) as (_ & _ & _ & _ & ->) end.
    done.
  - rewrite mount_vnode_destroyed. by apply unmount_vnode_destroyed.
Qed.

Lemma patch_children_destroyed (c : nat) (olds : list nat) :
  ∀ news h, c ∈ destroyed h → c ∈ destroyed (patch_children olds news h).
Proof.
  induction olds as [|o olds IH]; intros news h Hc.
  - cbn [patch_children]. by rewrite mount_children_spec_destroyed.
  - destruct news as [|n news]; cbn [patch_children].
    + revert h Hc. generalize (o :: olds). intros l.
      induction l as [|o' l IHl]; intros h Hc; [done|].
      apply IHl. by apply unmount_vnode_destroyed.
    + apply IH. by apply patch_vnode_destroyed.
Qed.

Lemma replace_while_frozen (props : LazyRenderProps) (c : nat) (name : CompName)
    (t : Tree) (s : State) (sl' : Slots) (d' : VNodeDesc) (ds' : list VNodeDesc)
    (name' : CompName) :
  frozen c name t s →
  bounded (heap s) →
  slot_default sl' = Some (d' :: ds') →
  d_type d' = TComponent name' →
  name' ≠ name →
  tracks (next_instance (heap s)) name' (flush props (step props (SlotsChanged sl') s))
  ∧ (∃ i', instances (heap (flush props (step props (SlotsChanged sl') s)))
             !! next_instance (heap s) = Some i'
           ∧ Component.type i' = name'
           ∧ Component.render i' = SetupRender (next_instance (heap s)))
  ∧ isVisible (tracker (flush props (step props (SlotsChanged sl') s))) = false
  ∧ visible_seen (host (flush props (step props (SlotsChanged sl') s))) = false
  ∧ render (vars (flush props (step props (SlotsChanged sl') s))) = Some (SetupRender c)
  ∧ c ∈ destroyed (heap (flush props (step props (SlotsChanged sl') s)))
  ∧ (c < next_instance (heap s))%nat
  ∧ errors (host (flush props (step props (SlotsChanged sl') s))) = errors (host s).
Proof.
  intros (Ht & Hv & Hs & Hsaved & i & Hi & Hn & Hr & Hst) Hb Hsl Hty Hne.
  pose proof Ht as (Hp & _ & (v & vs & x & Hm & Hc & Hx & Hxt & Hxc & Hlt & Hav) & Hde).
  set (s' := step props (SlotsChanged sl') s).
  assert (S1 : tracker s' = tracker s) by done.
  assert (S2 : vars s' = vars s) by done.
  assert (S3 : heap s' = heap s) by done.
  assert (S4 : mounted (host s') = mounted (host s)) by done.
  assert (S5 : slots (host s') = sl') by done.
  assert (S6 : render_dirty (host s') = true) by done.
  assert (S7 : pending_ref (host s') = pending_ref (host s)) by done.
  assert (S8 : visible_seen (host s') = visible_seen (host s)) by done.
  assert (S9 : errors (host s') = errors (host s)) by done.
  unfold flush. rewrite S6.
  assert (Hsl' : slot_default (slots (host s')) = Some (d' :: ds')) by (by rewrite S5).
  assert (Hcv : currentVNode (vars s') ≠ None) by (by rewrite S2, Hc).
  pose proof (render_job_next props s' (d' :: ds') (v :: vs) Hsl' (or_intror Hcv)
                ltac:(by rewrite S4)) as HA.
  pose proof (render_job_items_errors props s' (d' :: ds') Hsl' (or_intror Hcv)) as HE.
  pose proof (alloc_vnodes_bounded (d' :: ds') (heap s') ltac:(by rewrite S3)) as Hb1.
  destruct (alloc_vnodes_spec (d' :: ds') (heap s'))
    as (L1 & L2 & L3 & L4 & L5 & L6 & L7 & L8 & L9).
  set (h1 := (alloc_vnodes (d' :: ds') (heap s')).2) in *.
  rewrite L1 in L9, HA. cbn [length seq] in L9, HA, L2.
  rewrite S3 in L2, L3, L4, L5, L6, L7, L8, L9, HA.
  set (n := next_vnode (heap s)) in *. set (ns := seq (S n) (length ds')) in *.
  unfold lookups in L9. cbn [fmap list_fmap] in L9.
  change (list_fmap _ _ ?f ?l) with (f <$> l) in L9.
  injection L9 as L9 L10.
  apply Forall_cons in Hlt as [Hvlt Hvslt].
  assert (Hx1 : vnodes h1 !! v = Some x) by (by rewrite L8).
  set (c' := next_instance (heap s)) in *.
  set (h2 := patch_vnode v n h1).
  assert (P2 : h2 = mount_vnode n (unmount_vnode v h1)).
  { unfold h2, patch_vnode. rewrite Hx1, L9. rewrite decide_False; [done|].
    rewrite Hxt. cbn. rewrite Hty. congruence. }
  set (hU := unmount_vnode v h1) in *.
  assert (U : vnodes hU = vnodes h1 ∧ instances hU = instances h1
              ∧ next_instance hU = c' ∧ next_vnode hU = next_vnode h1
              ∧ destroyed hU = destroyed (heap s) ++ [c]).
  { unfold hU, unmount_vnode. rewrite Hx1. destruct x as [ty da co e].
    cbn in Hxc. subst co. cbn. by rewrite L7. }
  destruct U as (U1 & U2 & U3 & U4 & U5).
  assert (HnU : vnodes hU !! n = Some (fresh_vnode d')) by (by rewrite U1).
  assert (V2 : vnodes h2
               = <[n := set_component_el (Some c') (Some (next_element hU)) (fresh_vnode d')]>
                   (vnodes h1)).
  { rewrite P2. unfold mount_vnode. rewrite HnU. cbn. by rewrite Hty, U3, U1. }
  assert (I2 : instances h2 !! c'
               = Some {| Component.type := name'; Component.data := d_data d';
                         Component.render := SetupRender c';
                         Component.subTree := {| rendered_by := name';
                                                 rendered_from := d_data d' |} |}).
  { rewrite P2. unfold mount_vnode. rewrite HnU. cbn. rewrite Hty. cbn.
    by rewrite U3, lookup_insert_eq. }
  assert (N2 : next_instance h2 = S c').
  { rewrite P2. unfold mount_vnode. rewrite HnU. cbn. by rewrite Hty, U3. }
  assert (W2 : next_vnode h2 = next_vnode h1).
  { rewrite P2. unfold mount_vnode. rewrite HnU. cbn. by rewrite Hty. }
  assert (D2 : destroyed h2 = destroyed (heap s) ++ [c]).
  { by rewrite P2, mount_vnode_destroyed. }
  assert (Hcc : (c < c')%nat) by apply Hav.
  assert (Hav2 : avoids c' (vs ++ ns) h2).
  { split; [rewrite N2; lia|]. intros k y Hk Hy.
    assert (k ≠ n) as Hkn.
    { apply elem_of_app in Hk as [Hk|Hk].
      - rewrite Forall_forall in Hvslt. specialize (Hvslt k Hk). unfold n. lia.
      - unfold ns in Hk. apply elem_of_seq in Hk. lia. }
    rewrite V2, lookup_insert_ne in Hy by done.
    intros Hco. destruct Hb1 as [Hb1 _]. specialize (Hb1 k y c' Hy Hco).
    rewrite L4 in Hb1. unfold c' in Hb1. lia. }
  destruct (patch_children_avoids c' (vs ++ ns) vs ns h2)
    as (B1 & B2 & B3 & B4 & B5); [|done| |].
  { intros o Ho. apply elem_of_app. by left. }
  { rewrite D2. intros Hin. apply elem_of_app in Hin as [Hin|Hin].
    - destruct Hb as [_ Hb]. rewrite Forall_forall in Hb.
      specialize (Hb c' Hin). unfold c' in Hb. lia.
    - apply list_elem_of_singleton in Hin. lia. }
  assert (Hcd : c ∈ destroyed (patch_children vs ns h2)).
  { apply patch_children_destroyed. rewrite D2. apply elem_of_app. right.
    by apply list_elem_of_singleton. }
  set (hF := patch_children vs ns h2) in *.
  set (A := render_job props s') in *.
  assert (A1 : heap A = hF) by (by rewrite HA).
  assert (A2 : tracker A = tracker s) by (by rewrite HA).
  assert (A3 : currentVNode (vars A) = Some n) by (by rewrite HA).
  assert (A4 : render (vars A) = Some (SetupRender c)) by (by rewrite HA).
  assert (A5 : mounted (host A) = MountedItems (n :: ns)) by (by rewrite HA).
  assert (A6 : slots (host A) = sl') by (by rewrite HA).
  assert (A7 : pending_ref (host A) = None) by (by rewrite HA).
  assert (A8 : visible_seen (host A) = false) by (by rewrite HA).
  assert (Hnn : n ∉ ns) by (unfold ns; rewrite elem_of_seq; lia).
  assert (Hxn : vnodes hF !! n
                = Some (set_component_el (Some c') (Some (next_element hU))
                          (fresh_vnode d'))).
  { by rewrite (B3 n Hnn), V2, lookup_insert_eq. }
  assert (HtA : tracks c' name' A).
  { unfold tracks. rewrite A1, A3, A5, A6, A7, B4, W2, L2.
    split; [done|]. split; [eauto|]. split; [|done].
    eexists n, ns, _. split; [done|]. split; [done|]. split; [exact Hxn|].
    split; [by cbn|]. split; [done|]. split.
    - apply Forall_forall. intros k Hk.
      change (n :: ns) with (seq n (S (length ds'))) in Hk.
      apply elem_of_seq in Hk. cbn [length]. lia.
    - split; [apply B1|]. intros k y Hk. apply (proj2 B1).
      apply elem_of_app. by right. }
  destruct (post_render_quiet A) as (Q1 & Q2 & Q3 & Q4 & Q5 & Q6 & Q7 & Q8).
  { done. } { by rewrite A2, A8, Hv. }
  rewrite (post_render_errors A n _ A3 ltac:(by rewrite A1)).
  rewrite decide_True by (by rewrite A2, A8, Hv).
  rewrite Q1, Q2, Q3, Q7, A1, A2, A4, A8, B2, I2, Hv, HE, S9, app_nil_r.
  split.
  { apply (tracks_ext c' name' A); try done;
      rewrite ?Q1, ?Q2, ?Q4, ?Q5, ?Q8; congruence. }
  split; [eexists; split; [done|]; by cbn|]. done.
Qed.

Lemma transitions_snoc (props : LazyRenderProps)
    (entries : list IntersectionObserverEntry) (e : IntersectionObserverEntry)
    (s : State) :
  transitions props (entries ++ [e]) s
  = transition props e (transitions props entries s).
Proof. unfold transitions. by rewrite fold_left_app. Qed.

(** X11. The saved render function outlives the instance it was taken
    from.  The variable [render] is written when the content freezes
    (line 78) and read when it unfreezes (line 81); nothing resets it, and
    [currentVNode] is re-read at each render.  So when the default slot
    holds one component and this is replaced by a component of another
    type while the content is hidden and frozen: the old instance is
    destroyed; the new one is mounted and is not frozen although
    [isVisible] is false; and at the next visible entry the new instance's
    [render] becomes the render function saved from the destroyed
    instance.  No error is reported on the way. *)
Theorem saved_render_outlives_its_instance pm (props : LazyRenderProps)
    (sl sl' : Slots) (s0 : State) (name name' : CompName) (d d' : VNodeDesc)
    (entries : list IntersectionObserverEntry)
    (hidden visible : IntersectionObserverEntry) :
  mount pm props sl = Normal s0 →
  slot_default sl = Some [d] →
  d_type d = TComponent name →
  Exists (λ e, isIntersecting e = true) entries →
  isIntersecting hidden = false →
  slot_default sl' = Some [d'] →
  d_type d' = TComponent name' →
  name' ≠ name →
  isIntersecting visible = true →
  ∃ c c',
    c' ≠ c
    ∧ tracked (transitions props (entries ++ [hidden]) s0) = Some c
    ∧ phase (transitions props (entries ++ [hidden]) s0) = FrozenMounted
    ∧ c ∈ destroyed (heap (flush props (step props (SlotsChanged sl')
                                          (transitions props (entries ++ [hidden]) s0))))
    ∧ tracked (flush props (step props (SlotsChanged sl')
                              (transitions props (entries ++ [hidden]) s0))) = Some c'
    ∧ isVisible (tracker (flush props (step props (SlotsChanged sl')
                                         (transitions props (entries ++ [hidden]) s0))))
      = false
    ∧ phase (flush props (step props (SlotsChanged sl')
                            (transitions props (entries ++ [hidden]) s0))) = LiveMounted
    ∧ tracked (transition props visible
                 (flush props (step props (SlotsChanged sl')
                                 (transitions props (entries ++ [hidden]) s0)))) = Some c'
    ∧ (∃ i, instances (heap (transition props visible
                               (flush props (step props (SlotsChanged sl')
                                  (transitions props (entries ++ [hidden]) s0)))))
              !! c' = Some i
            ∧ Component.type i = name'
            ∧ Component.render i = SetupRender c)
    ∧ errors (host (transition props visible
                      (flush props (step props (SlotsChanged sl')
                                      (transitions props (entries ++ [hidden]) s0))))) = [].
Proof.
  intros Hm Hsl Hty Hex Hh Hsl' Hty' Hne Hvis.
  destruct (mount_waiting_clean pm props sl s0 Hm) as (ew & Hw).
  destruct (transitions_reach_healthy props sl ew name d [] entries Hsl Hty Hex s0 Hw)
    as (c & Hh0).
  pose proof (healthy_transition props c name hidden _ Hh0) as (Her & _ & Hl).
  pose proof (transitions_bounded props (entries ++ [hidden]) s0
                (mount_bounded pm props sl s0 Hm)) as Hb.
  rewrite transitions_snoc in *.
  set (s := transition props hidden (transitions props entries s0)) in *.
  assert (Hv : isVisible (tracker s) = false).
  { unfold s. by rewrite transition_isVisible. }
  rewrite Hv in Hl. destruct Hl as (t & Hf).
  destruct (replace_while_frozen props c name t s sl' d' [] name' Hf Hb Hsl' Hty' Hne)
    as (T1 & (i1 & I1 & N1 & R1) & V1 & VS1 & SV1 & De1 & Hlt & Er1).
  set (c' := next_instance (heap s)) in *.
  set (s1 := flush props (step props (SlotsChanged sl') s)) in *.
  exists c, c'.
  pose proof Hf as (Ht & _ & _ & _ & i & Hi & _ & Hr & _).
  pose proof (tracks_tracked c name s Ht) as Htr.
  pose proof (tracks_tracked c' name' s1 T1) as Htr1.
  split; [lia|]. split; [done|].
  split.
  { pose proof Ht as (_ & _ & (v & vs & x & _ & Hc & _) & _).
    unfold phase. rewrite Hc, Htr. cbn. rewrite Hi.
    destruct i as [ty da re su]. cbn in Hr. by subst re. }
  split; [done|]. split; [done|]. split; [done|].
  split.
  { pose proof T1 as (_ & _ & (v & vs & x & _ & Hc & _) & _).
    unfold phase. rewrite Hc, Htr1. cbn. rewrite I1.
    destruct i1 as [ty da re su]. cbn in R1. by subst re. }
  destruct (transition_tracked_errors props c' name' visible s1 i1 T1 I1) as (E1 & _).
  rewrite E1, Er1.
  unfold transition.
  destruct (deliver_one props visible s1) as (D1 & D2 & D3 & D4 & D5 & D6).
  destruct (deliver_one_rest props visible s1) as (F1 & F2 & F3 & F4 & F5).
  set (s' := step props (Deliver [visible]) s1) in *.
  rewrite V1, Hvis in D6. cbn in D6. rewrite orb_true_r in D6.
  assert (Ht' : tracks c' name' s').
  { apply (tracks_ext c' name' s1); try done; by rewrite ?D2, ?D3. }
  unfold flush. rewrite D6.
  destruct (render_job_tracks props c' name' s' i1 Ht')
    as (J1 & (i' & J2 & J3 & J4 & J5) & J6 & J7 & J8 & J9 & J10).
  { by rewrite D3. }
  destruct (post_render_toggle c' name' (render_job props s') i' J1)
    as (P1 & P2 & P3 & P4 & P5 & P6 & P7).
  { by rewrite J6, J8, D1, F5, Hvis, VS1. }
  { done. }
  rewrite J6, D1, Hvis in P2. rewrite J7, D2, SV1 in P2. cbn in P2.
  split; [by apply (tracks_tracked c' name')|].
  split; [|done].
  rewrite P2, lookup_insert_eq. eexists. split; [done|]. cbn. split; [congruence|done].
Qed.

Lemma saved_render_outlives_its_instance_witness :
  ∃ s0 c c',
    mount any_margin example_props
      {| slot_default := Some [{| d_type := TComponent 0; d_data := 0 |}];
         slot_fallback := None |} = Normal s0
    ∧ c' ≠ c
    ∧ ∃ i, instances
             (heap (transition example_props (entry_for true)
                      (flush example_props
                         (step example_props
                            (SlotsChanged
                               {| slot_default := Some [{| d_type := TComponent 1;
                                                           d_data := 0 |}];
                                  slot_fallback := None |})
                            (transitions example_props
                               ([entry_for true] ++ [entry_for false]) s0)))))
             !! c' = Some i
           ∧ Component.render i = SetupRender c.
Proof.
  eexists.
  edestruct (saved_render_outlives_its_instance any_margin example_props
               {| slot_default := Some [{| d_type := TComponent 0; d_data := 0 |}];
                  slot_fallback := None |}
               {| slot_default := Some [{| d_type := TComponent 1; d_data := 0 |}];
                  slot_fallback := None |}
               _ 0 1 {| d_type := TComponent 0; d_data := 0 |}
               {| d_type := TComponent 1; d_data := 0 |}
               [entry_for true] (entry_for false) (entry_for true)
               eq_refl eq_refl eq_refl)
    as (c & c' & H1 & _ & _ & _ & _ & _ & _ & _ & (i & H9 & _ & H10) & _);
    try reflexivity.
  { apply Exists_cons_hd. reflexivity. }
  { lia. }
  exists c, c'. split; [reflexivity|]. eauto.
Defined.

(** ** A first item that is not a component *)

Lemma patch_root_visible_seen (out : RenderOutput) (s : State) :
  visible_seen (host (patch_root out s)) = visible_seen (host s).
Proof.
  unfold patch_root, mount_wrapper, unmount_mounted. unfold_state_ops.
  repeat case_match; cbn; done.
Qed.

Lemma render_job_items_frame (props : LazyRenderProps) (s : State)
    (ds : list VNodeDesc) :
  slot_default (slots (host s)) = Some ds →
  isVisible (tracker s) = true ∨ currentVNode (vars s) ≠ None →
  visible_seen (host (render_job props s)) = visible_seen (host s)
  ∧ isVisible (tracker (render_job props s)) = isVisible (tracker s).
Proof.
  intros Hs Hv. unfold render_job. rewrite (render_fn_items props s ds Hs Hv).
  match goal with |- context [patch_root ?o ?x] =>
    destruct (patch_root_shape o x) as (_ & H2 & _);
    pose proof (patch_root_visible_seen o x) as H6 end.
  unfold set_host at 1 2. cbn [host tracker visible_seen set_render_dirty].
  by rewrite H2, H6.
Qed.

Lemma post_render_vnodes (s : State) :
  vnodes (heap (post_render s)) = vnodes (heap s)
  ∧ currentVNode (vars (post_render s)) = currentVNode (vars s).
Proof.
  unfold post_render.
  destruct (flush_target_watcher_frame s) as (A1 & A2 & _).
  set (a := flush_target_watcher s) in *.
  destruct (flush_ref_frame a) as (_ & B2 & B3 & _).
  set (b := flush_ref a) in *.
  destruct (flush_visible_watcher_frame b)
    as (_ & C2 & _ & _ & _ & _ & _ & _ & _ & C10 & _).
  set (c := flush_visible_watcher b) in *.
  destruct (flush_target_watcher_frame c) as (D1 & D2 & _).
  by rewrite D1, D2, C2, C10, B2, B3, A1, A2.
Qed.

Lemma transition_errors_without_instance (props : LazyRenderProps)
    (e : IntersectionObserverEntry) (s : State) (ds : list VNodeDesc)
    (v : nat) (x : VNode) :
  slot_default (slots (host s)) = Some ds →
  render_dirty (host s) = false →
  visible_seen (host s) = isVisible (tracker s) →
  isIntersecting e = true ∨ currentVNode (vars s) ≠ None →
  currentVNode (vars (transition props e s)) = Some v →
  vnodes (heap (transition props e s)) !! v = Some x →
  component x = None →
  errors (host (transition props e s))
  = errors (host s)
    ++ (if eqb (isIntersecting e) (isVisible (tracker s)) then [] else [TypeError]).
Proof.
  intros Hsl Hd Hvs Hor. unfold transition.
  destruct (deliver_one props e s) as (D1 & D2 & D3 & D4 & D5 & D6).
  destruct (deliver_one_rest props e s) as (E1 & E2 & E3 & E4 & E5).
  pose proof (deliver_one_errors props e s) as D7.
  set (s' := step props (Deliver [e]) s) in *.
  rewrite Hd in D6. cbn [orb] in D6.
  unfold flush.
  set (s1 := if render_dirty (host s') then render_job props s' else s').
  destruct (post_render_vnodes s1) as (-> & ->).
  intros Hc Hx Hco.
  rewrite (post_render_errors s1 v x Hc Hx), Hco.
  assert (Hor' : isVisible (tracker s') = true ∨ currentVNode (vars s') ≠ None).
  { destruct Hor as [He|Hcv]; [left; congruence|right; by rewrite D2]. }
  assert (errors (host s1) = errors (host s)
          ∧ visible_seen (host s1) = isVisible (tracker s)
          ∧ isVisible (tracker s1) = isIntersecting e) as (-> & -> & ->).
  { unfold s1. destruct (render_dirty (host s')).
    - destruct (render_job_items_frame props s' ds) as (-> & ->);
        [by rewrite D5|done|].
      rewrite (render_job_items_errors props s' ds) by (by rewrite ?D5).
      by rewrite D7, E5, D1, Hvs.
    - by rewrite D7, E5, D1, Hvs. }
  f_equal. destruct (isIntersecting e), (isVisible (tracker s)); by cbn.
Qed.

Lemma settled_head (sl : Slots) (xs : list VNode) (s : State) (d : VNodeDesc)
    (ds : list VNodeDesc) :
  settled sl xs s →
  slot_default sl = Some (d :: ds) →
  ∃ x xs' v, xs = x :: xs' ∧ v_type x = d_type d
             ∧ currentVNode (vars s) = Some v
             ∧ vnodes (heap s) !! v = Some x.
Proof.
  intros (_ & _ & _ & _ & _ & (vs & _ & Hc & _ & Hl) & (ds0 & Hsl & Hr) & _) Hsl'.
  rewrite Hsl' in Hsl. injection Hsl as <-.
  apply Forall2_cons_inv_r in Hr as (x & xs' & (Hty & _) & _ & ->).
  destruct vs as [|v vs]; [done|].
  unfold lookups in Hl. cbn in Hl. injection Hl as Hv _.
  exists x, xs', v. by repeat split.
Qed.

Lemma element_has_no_instance (h : Heap) (v : nat) (x : VNode) (tg : string) :
  bounded h → vnodes h !! v = Some x → v_type x = TElement tg → component x = None.
Proof.
  intros [Hb _] Hv Hty. destruct (component x) as [c|] eqn:Hc; [|done].
  destruct (Hb v x c Hv Hc) as (_ & name & Hn). congruence.
Qed.

Lemma transitions_element_errors (props : LazyRenderProps) (sl : Slots) (ew : Element)
    (tg : string) (d : VNodeDesc) (ds : list VNodeDesc)
    (entries : list IntersectionObserverEntry) :
  slot_default sl = Some (d :: ds) →
  d_type d = TElement tg →
  ∀ s, bounded (heap s) →
       waiting_clean props sl ew s ∨ (∃ xs, settled sl xs s) →
       errors (host (transitions props entries s))
       = errors (host s)
         ++ replicate (changes (isVisible (tracker s)) (isIntersecting <$> entries))
              TypeError.
Proof.
  intros Hsl Hty. induction entries as [|e es IH]; intros s Hb Hinv.
  { cbn. by rewrite app_nil_r. }
  change (transitions props (e :: es) s)
    with (transitions props es (transition props e s)).
  assert (Hb' : bounded (heap (transition props e s))).
  { apply (transitions_bounded props [e] s Hb). }
  assert (Hstep :
            (waiting_clean props sl ew (transition props e s)
             ∨ ∃ xs, settled sl xs (transition props e s))
            ∧ errors (host (transition props e s))
              = errors (host s)
                ++ (if eqb (isIntersecting e) (isVisible (tracker s))
                    then [] else [TypeError])).
  { destruct Hinv as [Hw|(xs & Hst)].
    - pose proof Hw as (((Hv & Hc & _ & Hd & Hs) & _ & _ & Hvs & _) & _ & _ & Her).
      destruct (isIntersecting e) eqn:He.
      + destruct (transition_waiting_visible props sl ew d ds e s Hsl (proj1 Hw) He)
          as (xs & Hst & _).
        split; [right; eauto|].
        destruct (settled_head sl xs _ d ds Hst Hsl) as (x & xs' & v & -> & Hx & Hcv & Hv').
        rewrite (transition_errors_without_instance props e s (d :: ds) v x);
          try done; try congruence.
        * by rewrite He.
        * by left.
        * apply (element_has_no_instance _ v x tg Hb' Hv'). congruence.
      + pose proof (hidden_keeps_waiting_clean props sl ew e s Hw He) as Hw'.
        split; [by left|].
        destruct Hw' as (_ & _ & _ & ->). by rewrite Her, Hv.
    - destruct (settled_head sl xs s d ds Hst Hsl) as (x & xs' & v & -> & Hx & Hcv & Hv').
      pose proof (transition_settled props sl (x :: xs') e s ltac:(done) Hst) as Hst'.
      split; [right; eauto|].
      destruct (settled_head sl _ _ d ds Hst' Hsl)
        as (x1 & xs1 & v1 & Heq & Hx1 & Hcv1 & Hv1).
      pose proof Hst as (Hs & Hd & _ & Hvs & _).
      apply (transition_errors_without_instance props e s (d :: ds) v1 x1);
        try done; try congruence.
      + right. by rewrite Hcv.
      + apply (element_has_no_instance _ v1 x1 tg Hb' Hv1). congruence. }
  destruct Hstep as (Hinv' & Herr).
  rewrite (IH _ Hb' Hinv'), Herr, transition_isVisible. cbn [fmap list_fmap changes].
  rewrite <- app_assoc. f_equal.
  destruct (eqb (isIntersecting e) (isVisible (tracker s))); cbn; done.
Qed.

(** X12. A first item that is not a component.  [currentVNode.component]
    is null for an element, so the callback of the watcher of [isVisible]
    throws each time it runs: when the default slot starts with a plain
    element, a TypeError is reported at every change of visibility, the
    first one included, and at nothing else. *)
Theorem element_first_throws_at_every_change pm (props : LazyRenderProps)
    (sl : Slots) (s0 : State) (tg : string) (d : VNodeDesc) (ds : list VNodeDesc)
    (entries : list IntersectionObserverEntry) :
  mount pm props sl = Normal s0 →
  slot_default sl = Some (d :: ds) →
  d_type d = TElement tg →
  errors (host (transitions props entries s0))
  = replicate (changes false (isIntersecting <$> entries)) TypeError.
Proof.
  intros Hm Hsl Hty.
  destruct (mount_waiting_clean pm props sl s0 Hm) as (ew & Hw).
  rewrite (transitions_element_errors props sl ew tg d ds entries Hsl Hty s0
             (mount_bounded pm props sl s0 Hm) (or_introl Hw)).
  destruct Hw as (((-> & _) & _) & _ & _ & ->). done.
Qed.

Lemma element_first_throws_at_every_change_witness :
  errors (host (transitions example_props
                  [entry_for false; entry_for true; entry_for true; entry_for false]
                  (flush example_props
                     (setup_state {| isVisible := false;
                                     observer := {| targets := []; calls := [] |};
                                     cleanup := None |}
                        {| slot_default := Some [{| d_type := TElement "p"; d_data := 0 |}];
                           slot_fallback := None |}))))
  = [TypeError; TypeError].
Proof.
  exact (element_first_throws_at_every_change any_margin example_props
           {| slot_default := Some [{| d_type := TElement "p"; d_data := 0 |}];
              slot_fallback := None |} _ "p" {| d_type := TElement "p"; d_data := 0 |} []
           [entry_for false; entry_for true; entry_for true; entry_for false]
           eq_refl eq_refl eq_refl).
Defined.

(** ** What is on screen after unfreezing *)

(** X13. Unfreezing does not re-render.  The callback restores [render]
    (line 81) and asks for no update of the instance, and the render job of
    the same tick still ran with the pinned function: after the transition
    back to visible, the output of the tracked instance is still the frame
    that was pinned when it froze, whatever its data have become in
    between; it is replaced only by the next update of the instance. *)
Theorem unfreezing_leaves_the_pinned_frame (props : LazyRenderProps) (c : nat)
    (name : CompName) (s : State) (e : IntersectionObserverEntry) (evs : list Event)
    (e' : IntersectionObserverEntry) :
  live c name s →
  isIntersecting e = false →
  Forall (frozen_safe name) evs →
  isIntersecting e' = true →
  ∃ i0 i,
    instances (heap (transition props e s)) !! c = Some i0
    ∧ instances (heap (transition props e' (run props evs (transition props e s)))) !! c
      = Some i
    ∧ Component.subTree i = Component.subTree i0
    ∧ Component.render i = SetupRender c
    ∧ (∀ i3,
         instances (heap (step props (Update c)
                            (transition props e' (run props evs (transition props e s)))))
           !! c = Some i3
         → Component.subTree i3
           = {| rendered_by := name; rendered_from := Component.data i |}).
Proof.
  intros Hl He Hall He'.
  destruct (freeze_transition props c name e s Hl He) as (t & Hf).
  pose proof (frozen_run props c name t evs _ Hf Hall) as Hf2.
  destruct (unfreeze_keeps_frame props c name t e' _ Hf2 He') as (i & Hi & Hst & Hr).
  pose proof (unfreeze_transition props c name t e' _ Hf2 He') as (_ & _ & _ & j & Hj & Hn & _).
  pose proof Hf as (_ & _ & _ & _ & i0 & Hi0 & _ & _ & Hst0).
  exists i0, i. split; [done|]. split; [done|]. split; [congruence|]. split; [done|].
  intros i3. unfold step. cbn [heap set_heap]. unfold update_instance.
  rewrite Hi, Hr. cbn. rewrite Hi. cbn.
  rewrite lookup_insert_eq. intros [= <-]. cbn. congruence.
Qed.

Lemma unfreezing_leaves_the_pinned_frame_witness :
  ∃ i,
    instances
      (heap (transition example_props (entry_for true)
               (run example_props [DataChanged 0 7]
                  (transition example_props (entry_for false)
                     (transition example_props (entry_for true) example_mounted)))))
      !! 0 = Some i
    ∧ Component.data i = 7
    ∧ Component.subTree i = {| rendered_by := 0; rendered_from := 0 |}.
Proof.
  destruct (unfreezing_leaves_the_pinned_frame example_props 0 0
              (transition example_props (entry_for true) example_mounted)
              (entry_for false) [DataChanged 0 7] (entry_for true)
              example_live eq_refl)
    as (i0 & i & H0 & H1 & H2 & _).
  - repeat constructor.
  - reflexivity.
  - exists i. split; [exact H1|].
    vm_compute in H0, H1. injection H0 as <-. injection H1 as <-. by split.
Defined.

(** ** Creation of the real subtree *)

Lemma same_types_refl (m : gmap nat Component.instance) : same_types m m.
Proof. done. Qed.

Lemma same_types_insert (m : gmap nat Component.instance) (c : nat)
    (i i' : Component.instance) :
  m !! c = Some i → Component.type i' = Component.type i →
  same_types m (<[c := i']> m).
Proof.
  intros Hc Ht c'. destruct (decide (c' = c)) as [->|Hne].
  - rewrite lookup_insert_eq, Hc. cbn. by rewrite Ht.
  - by rewrite lookup_insert_ne.
Qed.

Lemma same_types_alter (m : gmap nat Component.instance) (c : nat)
    (f : Component.instance → Component.instance) :
  (∀ i, Component.type (f i) = Component.type i) →
  same_types m (alter f c m).
Proof.
  intros Hf c'. destruct (decide (c' = c)) as [->|Hne].
  - rewrite lookup_alter_eq. destruct (m !! c); cbn; by rewrite ?Hf.
  - by rewrite lookup_alter_ne.
Qed.

Lemma grounded_ext (h h' : Heap) :
  vnodes h' = vnodes h → next_instance h' = next_instance h →
  created h' = created h →
  same_types (instances h) (instances h') →
  grounded h → grounded h'.
Proof.
  intros Hv Hn Hc Hs (G1 & G2 & G3 & G4). unfold grounded. rewrite Hv, Hn, Hc.
  split; [|split; [|done]].
  - intros c Hc'. specialize (Hs c). rewrite (G1 c Hc') in Hs.
    by destruct (instances h' !! c).
  - intros k x Hk He. specialize (G2 k x Hk He).
    destruct (v_type x); [|done].
    destruct G2 as (c & i & Hco & Hi & Ht).
    specialize (Hs c). rewrite Hi in Hs. cbn in Hs.
    destruct (instances h' !! c) as [i'|] eqn:Hi'; [|done].
    injection Hs as Hs. exists c, i'. by rewrite Hs.
Qed.

Lemma update_instance_same_types (c : nat) (h : Heap) :
  same_types (instances h) (instances (update_instance c h)).
Proof.
  unfold update_instance.
  destruct (instances h !! c) as [i|] eqn:Hi; [|done].
  destruct (call_render _ _); [|done]. cbn.
  by apply (same_types_insert _ c i).
Qed.

Lemma update_instance_grounded (c : nat) (h : Heap) :
  grounded h → grounded (update_instance c h).
Proof.
  destruct (update_instance_frame c h) as (U1 & _ & U3 & U4 & _).
  apply grounded_ext; try done. apply update_instance_same_types.
Qed.

Lemma alloc_vnodes_grounded (ds : list VNodeDesc) :
  ∀ h, grounded h → grounded (alloc_vnodes ds h).2.
Proof.
  induction ds as [|d ds IH]; intros h Hg; [done|].
  cbn [alloc_vnodes]. unfold alloc_vnode.
  match goal with |- context [alloc_vnodes ds ?h1] =>
    specialize (IH h1); destruct (alloc_vnodes ds h1) as [ns h2] end.
  cbn. apply IH. destruct Hg as (G1 & G2 & G3 & G4).
  split; [done|]. split; [|done].
  intros k x Hk He. cbn in *.
  destruct (decide (k = next_vnode h)) as [->|Hne].
  - rewrite lookup_insert_eq in Hk. injection Hk as <-. cbn in He.
    by destruct He.
  - rewrite lookup_insert_ne in Hk by done. by apply (G2 k x).
Qed.

Lemma mount_vnode_grounded (n : nat) (h : Heap) :
  grounded h → grounded (mount_vnode n h).
Proof.
  intros (G1 & G2 & G3 & G4). unfold mount_vnode.
  destruct (vnodes h !! n) as [vn|] eqn:Hn; [|done].
  assert (Hfresh : instances h !! next_instance h = None) by (by apply G1).
  destruct (v_type vn) as [name|tg] eqn:Hty; unfold grounded; cbn.
  - split; [|split; [|split]].
    + intros c Hc. rewrite lookup_insert_ne by lia. apply G1. lia.
    + intros k x Hk He. destruct (decide (k = n)) as [->|Hne].
      * rewrite lookup_insert_eq in Hk. injection Hk as <-. cbn. rewrite Hty.
        eexists _, _. split; [done|]. by rewrite lookup_insert_eq.
      * rewrite lookup_insert_ne in Hk by done. specialize (G2 k x Hk He).
        destruct (v_type x); [|done].
        destruct G2 as (c & i & Hco & Hi & Ht). exists c, i.
        split; [done|]. split; [|done].
        rewrite lookup_insert_ne; [done|]. intros <-. congruence.
    + apply NoDup_app. split; [done|]. split; [|apply NoDup_singleton].
      intros c Hc Hin. apply list_elem_of_singleton in Hin as ->.
      rewrite Forall_forall in G4. specialize (G4 _ Hc). lia.
    + apply Forall_app. split.
      * eapply Forall_impl; [exact G4|]. cbn. lia.
      * apply Forall_singleton. lia.
  - split; [done|]. split; [|done].
    intros k x Hk He. destruct (decide (k = n)) as [->|Hne].
    + rewrite lookup_insert_eq in Hk. injection Hk as <-. cbn. by rewrite Hty.
    + rewrite lookup_insert_ne in Hk by done. by apply (G2 k x).
Qed.

Lemma unmount_vnode_grounded (o : nat) (h : Heap) :
  grounded h → grounded (unmount_vnode o h).
Proof.
  apply grounded_ext; unfold unmount_vnode; repeat case_match; done.
Qed.

Lemma patch_vnode_grounded (o n : nat) (h : Heap) :
  grounded h → grounded (patch_vnode o n h).
Proof.
  intros Hg. unfold patch_vnode.
  destruct (vnodes h !! o) as [vo|] eqn:Ho; [|done].
  destruct (vnodes h !! n) as [vn|] eqn:Hn; [|done].
  case_decide as Hty; [|by apply mount_vnode_grounded, unmount_vnode_grounded].
  assert (H1 : grounded (set_vnodes (insert n (set_component_el (component vo) (el vo) vn)) h)).
  { destruct Hg as (G1 & G2 & G3 & G4). split; [done|]. split; [|done].
    intros k x Hk He. cbn in *.
    destruct (decide (k = n)) as [->|Hne].
    - rewrite lookup_insert_eq in Hk. injection Hk as <-. cbn in *.
      rewrite <- Hty. by apply (G2 o vo).
    - rewrite lookup_insert_ne in Hk by done. by apply (G2 k x). }
  destruct (component vo) as [c'|]; [|done].
  case_decide; [done|].
  apply update_instance_grounded.
  revert H1. apply grounded_ext; try done. cbn.
  apply same_types_alter. by intros [].
Qed.

Lemma mount_children_grounded (news : list nat) :
  ∀ h, grounded h → grounded (mount_children news h).
Proof.
  induction news as [|n news IH]; intros h Hg; [done|].
  apply IH. by apply mount_vnode_grounded.
Qed.

Lemma unmount_children_grounded (olds : list nat) :
  ∀ h, grounded h → grounded (unmount_children olds h).
Proof.
  induction olds as [|o olds IH]; intros h Hg; [done|].
  apply IH. by apply unmount_vnode_grounded.
Qed.

Lemma patch_children_grounded (olds : list nat) :
  ∀ news h, grounded h → grounded (patch_children olds news h).
Proof.
  induction olds as [|o olds IH]; intros news h Hg.
  - cbn. destruct news; by apply mount_children_grounded.
  - destruct news as [|n news]; cbn [patch_children].
    + by apply unmount_children_grounded.
    + apply IH. by apply patch_vnode_grounded.
Qed.

Lemma unmount_mounted_grounded (s : State) :
  grounded (heap s) → grounded (heap (unmount_mounted s)).
Proof.
  intros Hg. unfold unmount_mounted.
  destruct (mounted (host s)); try done. by apply unmount_children_grounded.
Qed.

Lemma patch_root_grounded (out : RenderOutput) (s : State) :
  grounded (heap s) → grounded (heap (patch_root out s)).
Proof.
  intros Hg. unfold patch_root, mount_wrapper.
  destruct out as [t ch|vs].
  - destruct (mounted (host s)) eqn:Hm; try case_decide; try done;
      apply (grounded_ext (heap (unmount_mounted s))); try done;
      by apply unmount_mounted_grounded.
  - destruct (mounted (host s)) eqn:Hm; cbn;
      try (apply mount_children_grounded; by apply unmount_mounted_grounded).
    by apply patch_children_grounded.
Qed.

Lemma render_job_grounded (props : LazyRenderProps) (s : State) :
  grounded (heap s) → grounded (heap (render_job props s)).
Proof.
  intros Hg. unfold render_job, render_fn.
  destruct (negb _ && negb _).
  - cbn. by apply patch_root_grounded.
  - destruct (slot_default (slots (host s))) as [ds|].
    + pose proof (alloc_vnodes_grounded ds (heap s) Hg) as Ha.
      destruct (alloc_vnodes ds (heap s)) as [vs h']. cbn.
      by apply patch_root_grounded.
    + cbn. by apply unmount_mounted_grounded.
Qed.

Lemma visible_watch_cb_same_types (visible : bool) (s : State) :
  same_types (instances (heap s)) (instances (heap (visible_watch_cb visible s).2)).
Proof.
  unfold visible_watch_cb.
  destruct (currentVNode (vars s)) as [v|]; [|done].
  destruct (vnodes (heap s) !! v) as [vn|]; [|done].
  destruct (component vn) as [c|]; [|done]. cbn.
  destruct (instances (heap s) !! c) as [i|] eqn:Hi; [|done].
  destruct visible; cbn; by apply (same_types_insert _ c i).
Qed.

Lemma post_render_grounded (s : State) :
  grounded (heap s) → grounded (heap (post_render s)).
Proof.
  intros Hg. unfold post_render.
  destruct (flush_target_watcher_frame s) as (_ & A2 & _).
  set (a := flush_target_watcher s) in *.
  destruct (flush_ref_frame a) as (_ & B2 & _).
  set (b := flush_ref a) in *.
  assert (Hc : grounded (heap (flush_visible_watcher b))).
  { unfold flush_visible_watcher. case_decide; [by rewrite B2, A2|].
    match goal with |- context [visible_watch_cb ?v ?x] =>
      destruct (visible_watch_cb_frame v x) as (_ & _ & _ & V4 & V5 & _ & _ & V8);
      pose proof (visible_watch_cb_same_types v x) as V9;
      destruct (visible_watch_cb v x) as [r s1] end.
    cbn in V4, V5, V8, V9.
    apply (grounded_ext (heap b)); [by destruct r..|by rewrite B2, A2]. }
  set (c := flush_visible_watcher b) in *.
  by destruct (flush_target_watcher_frame c) as (_ & -> & _).
Qed.

Lemma flush_grounded (props : LazyRenderProps) (s : State) :
  grounded (heap s) → grounded (heap (flush props s)).
Proof.
  intros Hg. unfold flush. apply post_render_grounded.
  destruct (render_dirty (host s)); [by apply render_job_grounded|done].
Qed.

Lemma transitions_grounded (props : LazyRenderProps)
    (entries : list IntersectionObserverEntry) :
  ∀ s, grounded (heap s) → grounded (heap (transitions props entries s)).
Proof.
  induction entries as [|e es IH]; intros s Hg; [done|].
  apply IH. unfold transition. apply flush_grounded.
  by destruct (deliver_one props e s) as (_ & _ & -> & _).
Qed.

Lemma mount_grounded pm (props : LazyRenderProps) (sl : Slots) (s0 : State) :
  mount pm props sl = Normal s0 → grounded (heap s0).
Proof.
  intros Hm. rewrite (mount_state pm props sl s0 Hm).
  apply flush_grounded. split; [done|]. split; [|split; [apply NoDup_nil_2|done]].
  intros k x Hk. cbn in Hk. by rewrite lookup_empty in Hk.
Qed.

Lemma settled_embodies (h : Heap) (xs : list VNode) :
  ∀ (ds : list VNodeDesc) (vs : list nat),
    grounded h →
    lookups h vs = Some <$> xs →
    Forall (λ x, is_Some (el x)) xs →
    Forall2 realises xs ds →
    Forall2 (embodies h) xs ds.
Proof.
  induction xs as [|x xs IH]; intros ds vs Hg Hl Hel Hr.
  - apply Forall2_nil_inv_l in Hr as ->. constructor.
  - apply Forall2_cons_inv_l in Hr as (d & ds' & (Hty & _) & Hr & ->).
    destruct vs as [|v vs]; [done|].
    unfold lookups in Hl. cbn in Hl. injection Hl as Hv Hl.
    apply Forall_cons in Hel as [He Hel].
    constructor; [|by apply (IH ds' vs)].
    split; [done|]. rewrite <- Hty.
    destruct Hg as (_ & G2 & _). by apply (G2 v x).
Qed.

(** C5. Mount a LazyRender whose default slot yields at least one item.
    As long as only hidden entries are delivered nothing is created.  Once
    a visible entry has been delivered, the items [xs] on screen are the
    items of the default slot, one for one, each with an element, each
    component with an instance of its type and each element without; they
    are exactly what any further sequence of transitions leaves on screen,
    with their instances still there: the instances created are those of
    [xs], each created once, and none is ever destroyed. *)
Theorem real_subtree_created_once pm (props : LazyRenderProps) (sl : Slots)
    (d : VNodeDesc) (ds : list VNodeDesc) (s0 : State)
    (entries more : list IntersectionObserverEntry) :
  mount pm props sl = Normal s0 →
  slot_default sl = Some (d :: ds) →
  Exists (λ e, isIntersecting e = true) entries →
  ∃ xs, Forall2 realises xs (d :: ds)
        ∧ Forall2 (embodies (heap (transitions props entries s0))) xs (d :: ds)
        ∧ Forall2 (embodies (heap (transitions props more (transitions props entries s0))))
            xs (d :: ds)
        ∧ NoDup (omap component xs)
        ∧ on_screen (transitions props entries s0) = Some <$> xs
        ∧ on_screen (transitions props more (transitions props entries s0)) = Some <$> xs
        ∧ created (heap (transitions props entries s0)) = omap component xs
        ∧ created (heap (transitions props more (transitions props entries s0)))
          = omap component xs
        ∧ destroyed (heap (transitions props more (transitions props entries s0))) = []
        ∧ ∀ before,
            Forall (λ e, isIntersecting e = false) before →
            created (heap (transitions props before s0)) = []
            ∧ on_screen (transitions props before s0) = [].
Proof.
  intros Hm Hsl Hex.
  destruct (mount_waiting pm props sl s0 Hm) as (ew & Hw).
  destruct (transitions_waiting props sl ew d ds entries s0 Hsl Hw)
    as [[Hall _] | [_ (xs & Hs & _)]].
  { exfalso. apply Exists_exists in Hex as (e & Hin & He).
    rewrite Forall_forall in Hall. specialize (Hall e Hin). congruence. }
  pose proof (settled_nonempty sl xs d ds _ Hsl Hs) as Hne.
  pose proof (transitions_settled props sl xs more _ Hne Hs) as Hs2.
  pose proof (transitions_grounded props entries s0 (mount_grounded pm props sl s0 Hm))
    as Hg.
  pose proof (transitions_grounded props more _ Hg) as Hg2.
  assert (Hon : ∀ s, settled sl xs s → grounded (heap s) →
                     on_screen s = Some <$> xs
                     ∧ created (heap s) = omap component xs
                     ∧ destroyed (heap s) = []
                     ∧ Forall2 realises xs (d :: ds)
                     ∧ Forall2 (embodies (heap s)) xs (d :: ds)
                     ∧ NoDup (omap component xs)).
  { intros s (_ & _ & _ & _ & _ & (vs & Hmt & _ & _ & Hl) & (ds' & Hsl' & Hr)
              & Hel & _ & Hcr & Hde) Hgs.
    rewrite Hsl in Hsl'. injection Hsl' as <-.
    unfold on_screen. rewrite Hmt.
    split; [done|]. split; [done|]. split; [done|]. split; [done|].
    split; [by apply (settled_embodies (heap s) xs (d :: ds) vs)|].
    rewrite <- Hcr. apply Hgs. }
  destruct (Hon _ Hs Hg) as (O1 & O2 & O3 & O4 & O5 & O6).
  destruct (Hon _ Hs2 Hg2) as (P1 & P2 & P3 & _ & P5 & _).
  exists xs.
  split; [done|]. split; [done|]. split; [done|]. split; [done|].
  split; [done|]. split; [done|]. split; [done|]. split; [done|].
  split; [done|].
  intros before Hb.
  destruct (transitions_waiting props sl ew d ds before s0 Hsl Hw)
    as [[_ Hwb] | [Hexb _]].
  - destruct Hwb as (_ & _ & _ & _ & (t & ch & Hmt) & _ & _ & Hcr & _).
    split; [done|]. unfold on_screen. by rewrite Hmt.
  - exfalso. apply Exists_exists in Hexb as (e & Hin & He).
    rewrite Forall_forall in Hb. specialize (Hb e Hin). congruence.
Qed.

Lemma real_subtree_created_once_witness :
  ∃ s0, mount any_margin example_props example_slots = Normal s0
        ∧ ∃ xs,
            Forall2 (embodies
                       (heap (transitions example_props
                                [entry_for false; entry_for true; entry_for false]
                                (transitions example_props
                                   [entry_for false; entry_for true] s0))))
              xs [{| d_type := TComponent 0; d_data := 0 |};
                  {| d_type := TElement "p"; d_data := 0 |}]
            ∧ on_screen (transitions example_props [entry_for false; entry_for true] s0)
              = Some <$> xs
            ∧ on_screen
                (transitions example_props
                   [entry_for false; entry_for true; entry_for false]
                   (transitions example_props [entry_for false; entry_for true] s0))
              = Some <$> xs.
Proof.
  epose proof (real_subtree_created_once any_margin example_props example_slots
                 {| d_type := TComponent 0; d_data := 0 |}
                 [{| d_type := TElement "p"; d_data := 0 |}] _
                 [entry_for false; entry_for true]
                 [entry_for false; entry_for true; entry_for false]
                 eq_refl eq_refl ltac:(right; left; reflexivity))
    as (xs & _ & _ & H0 & _ & H1 & H2 & _).
  eexists. split; [reflexivity|].
  exists xs. split; [exact H0|]. split; [exact H1 | exact H2].
Defined.
